(** * LICCO web console: the project model and the pages built on it

    A shallow embedding of [project_model.ts] (projects, device records,
    diff keys, device states) and of the React components that load device
    data and submit a project for approval, followed by the properties the
    specification states about them.

    Conventions of the embedding:
    - a JavaScript string is a [string]; a JavaScript number is a binary64
      [float];
    - an optional field ([x?: T]) is an [option];
    - a promise is represented by the way it settles ([Settled]); a function
      that awaits a request takes the settled response as its argument;
    - a component is its state record, the functions updating it and a
      [render] function producing the part of the page that carries
      behaviour (buttons with their [disabled] flag and click handler). *)

From Stdlib Require Import Floats.PrimFloat Strings.Ascii.
From stdpp Require Import base option list strings.

Open Scope string_scope.
Open Scope list_scope.

(** ** JavaScript values and builtins *)

Module Js.

(** The two parsers of the platform that the model calls. They are not part
    of the repository; every definition that reaches them is stated for an
    arbitrary implementation. *)
Class Builtins := {
  (** [Number.parseFloat] *)
  parseFloat : string → float;
  (** [Date.parse], as used by [new Date(s)] on a string *)
  Date_parse : string → float;
}.

(** The error object carried by a rejected request. Its declaration, in
    [utils/fetching], is not among the sources; the pages read its [error]
    field. *)
Record JsonErrorMsg := { error : string }.

(** How a promise settles. *)
Inductive Settled (A : Type) : Type :=
  | Resolved (value : A)
  | Rejected (reason : JsonErrorMsg).
Arguments Resolved {A} value.
Arguments Rejected {A} reason.

(** [p.then(f)] for a callback that does not throw. *)
Definition then_ {A B : Type} (f : A → B) (p : Settled A) : Settled B :=
  match p with
  | Resolved value => Resolved (f value)
  | Rejected reason => Rejected reason
  end.

(** A value of type [number | string | undefined]. *)
Inductive JsScalar :=
  | JUndefined
  | JNumber (x : float)
  | JString (s : string).

(** The inclusion of [number | undefined] into [number | string | undefined]. *)
Definition ofOptNumber (o : option float) : JsScalar :=
  match o with
  | Some x => JNumber x
  | None => JUndefined
  end.

(** A time field: the string sent by the backend, or the [Date] (its time
    value in milliseconds) that replaces it. *)
Inductive JsTime :=
  | TimeString (s : string)
  | TimeDate (t : float).

(** [new Date(v)] *)
Definition newDate `{Builtins} (v : JsTime) : JsTime :=
  match v with
  | TimeString s => TimeDate (Date_parse s)
  | TimeDate t => TimeDate t
  end.

(** Truthiness of a string: every string but the empty one. *)
Definition truthy (s : string) : bool := negb (bool_decide (s = "")).

(** Truthiness of an optional time field. A [Date] object is always truthy. *)
Definition truthyTime (v : option JsTime) : bool :=
  match v with
  | None => false
  | Some (TimeString s) => truthy s
  | Some (TimeDate _) => true
  end.

(** [s.split(sep)] for a separator of one character. The result is never
    empty: a string without the separator is returned whole. *)
Fixpoint split (sep : Ascii.ascii) (s : string) : list string :=
  match s with
  | EmptyString => [EmptyString]
  | String c rest =>
      if bool_decide (c = sep) then EmptyString :: split sep rest
      else match split sep rest with
           | [] => [String c EmptyString]
           | piece :: pieces => String c piece :: pieces
           end
  end.

(** [l.join(sep)] *)
Fixpoint join (sep : string) (l : list string) : string :=
  match l with
  | [] => ""
  | piece :: pieces =>
      match pieces with
      | [] => piece
      | _ :: _ => piece +:+ sep +:+ join sep pieces
      end
  end.

(** [l.includes(x)] on an array of strings. *)
Definition includes (l : list string) (x : string) : bool := bool_decide (x ∈ l).

(** The double quote character, for messages that contain it. *)
Definition dquote : string := String (Ascii.ascii_of_nat 34) EmptyString.

(** *** JSON.stringify *)

(** A value handed to [JSON.stringify]: undefined, a number, a string, a
    [Date] (its time value), an array, or an object (its properties in the
    order in which they are enumerated). *)
#[warnings="-register-all"]
Inductive JsValue :=
  | VUndefined
  | VNumber (x : float)
  | VString (s : string)
  | VDate (t : float)
  | VArray (items : list JsValue)
  | VObject (entries : list (string * JsValue)).

(** What [JSON.stringify] writes, by its structure rather than by its
    characters. The text of a finite number reads back as that number, so a
    number stands for its text; [JsonIsoDate t] stands for the string that
    [toISOString] gives for the time value [t]. *)
#[warnings="-register-all"]
Inductive Json :=
  | JsonNull
  | JsonNumber (x : float)
  | JsonString (s : string)
  | JsonIsoDate (t : float)
  | JsonArray (items : list Json)
  | JsonObject (members : list (string * Json)).

(** [Number.isFinite] *)
Definition isFinite (x : float) : bool := negb (is_nan x || is_infinity x).

(** How a number is written: [null] for a number that is not finite, the
    text of the number otherwise; the text of either zero is [0]. *)
Definition stringifyNumber (x : float) : Json :=
  if isFinite x then JsonNumber (if is_zero x then 0%float else x)
  else JsonNull.

(** [Date.prototype.toJSON], which [JSON.stringify] calls on a [Date] before
    anything else: [null] for an invalid date, its ISO string otherwise. *)
Definition toJSON (t : float) : Json :=
  if isFinite t then JsonIsoDate t else JsonNull.

(** [JSON.stringify(value)]: a value that is undefined is not written, a
    property that holds one is left out of its object, and an element that
    holds one is written [null]. *)
Fixpoint stringify (value : JsValue) : option Json :=
  match value with
  | VUndefined => None
  | VNumber x => Some (stringifyNumber x)
  | VString s => Some (JsonString s)
  | VDate t => Some (toJSON t)
  | VArray items =>
      Some (JsonArray ((λ item, default JsonNull (stringify item)) <$> items))
  | VObject entries =>
      Some (JsonObject
              (omap (λ entry, match entry with
                              | (key, item) => pair key <$> stringify item
                              end) entries))
  end.

(** [obj[name]] for the members of an object: nothing for a key the object
    does not have. *)
Fixpoint property {V : Type} (name : string) (obj : list (string * V)) : option V :=
  match obj with
  | [] => None
  | entry :: rest => if bool_decide (entry.1 = name) then Some entry.2 else property name rest
  end.

(** The members of what was written for an object. *)
Definition membersOf (j : Json) : list (string * Json) :=
  match j with
  | JsonObject members => members
  | _ => []
  end.

End Js.

Import Js.

(** ** project_model.ts *)

Module ProjectModel.

Record ProjectInfo := mkProjectInfo {
  prj_id : string;
  prj_name : string;
  prj_description : string;
  prj_owner : string;
  prj_editors : list string;
  prj_creation_time : JsTime;
  prj_edit_time : option JsTime;
  prj_status : string;
  prj_approvers : option (list string);
  prj_approved_by : option (list string);
  prj_approved_time : option JsTime;
  prj_submitted_time : option JsTime;
  prj_submitter : option string;
  prj_notes : option (list string);
}.

Definition isProjectSubmitted (project : option ProjectInfo) : bool :=
  match project with
  | Some p => bool_decide (prj_status p = "submitted")
  | None => false
  end.

Definition isProjectApproved (project : option ProjectInfo) : bool :=
  match project with
  | Some p => bool_decide (prj_status p = "approved")
  | None => false
  end.

Definition isProjectInDevelopment (project : option ProjectInfo) : bool :=
  match project with
  | Some p => bool_decide (prj_status p = "development")
  | None => false
  end.

(** [project.approvers?.includes(username)]: undefined (falsy) when the
    project has no approvers field. *)
Definition approversInclude (project : ProjectInfo) (username : string) : bool :=
  match prj_approvers project with
  | Some approvers => includes approvers username
  | None => false
  end.

Definition isUserAProjectApprover (project : ProjectInfo) (username : string) : bool :=
  if isProjectSubmitted (Some project) then
    if approversInclude project username || bool_decide (username = "") then true
    else false
  else false.

Definition MASTER_PROJECT_NAME : string := "LCLS Machine Configuration Database".

Definition transformProjectForFrontendUse `{Builtins} (project : ProjectInfo) : ProjectInfo :=
  {| prj_id := prj_id project;
     prj_name := prj_name project;
     prj_description := prj_description project;
     prj_owner := prj_owner project;
     prj_editors := prj_editors project;
     prj_creation_time := newDate (prj_creation_time project);
     prj_edit_time :=
       if truthyTime (prj_edit_time project) then newDate <$> prj_edit_time project
       else prj_edit_time project;
     prj_status := prj_status project;
     prj_approvers := prj_approvers project;
     prj_approved_by := prj_approved_by project;
     prj_approved_time :=
       if truthyTime (prj_approved_time project) then newDate <$> prj_approved_time project
       else prj_approved_time project;
     prj_submitted_time :=
       if truthyTime (prj_submitted_time project) then newDate <$> prj_submitted_time project
       else prj_submitted_time project;
     prj_submitter := prj_submitter project;
     prj_notes :=
       match prj_notes project with
       | None => Some []
       | Some notes => Some notes
       end |}.

(** One turn of the loop of [fetchAllProjectsInfo]: [pArr.push(p)] unless [p]
    is a master project that is not approved. *)
Definition pushVisibleProject (pArr : list ProjectInfo) (p : ProjectInfo) : list ProjectInfo :=
  if bool_decide (prj_name p ≠ MASTER_PROJECT_NAME) then pArr ++ [p]
  else if isProjectApproved (Some p) then pArr ++ [p]
  else pArr.

(** [fetchAllProjectsInfo], given how the request for [/ws/projects/] settles. *)
Definition fetchAllProjectsInfo `{Builtins} (response : Settled (list ProjectInfo))
  : Settled (list ProjectInfo) :=
  then_ (λ projects,
           let pArr := foldl pushVisibleProject [] projects in
           transformProjectForFrontendUse <$> pArr)
        response.

(** [fetchProjectApprovers], given how the request for [/ws/approvers/]
    settles. [if (projectOwner)] holds for a supplied, non-empty owner. *)
Definition fetchProjectApprovers (projectOwner : option string) (response : Settled (list string))
  : Settled (list string) :=
  then_ (λ approvers,
           match projectOwner with
           | Some owner =>
               if truthy owner then filter (λ username, username ≠ owner) approvers
               else approvers
           | None => approvers
           end)
        response.

(** *** Device records *)

Record ProjectFFT := mkProjectFFT {
  fft_id : string;
  fft_fc : string;
  fft_fg : string;
}.

(** An entry of a discussion thread. *)
Record ChangeComment := mkChangeComment {
  cc_id : string;
  cc_author : string;
  cc_time : JsTime;
  cc_comment : string;
}.

(** The numeric fields are declared [number?], but the backend sends an
    empty field as a string, so each holds a [number | string | undefined]
    until it has been transformed. [discussion] is tested for presence by the
    code that transforms it. *)
Record deviceDetailFields := mkDeviceDetailFields {
  tc_part_no : string;
  comments : string;
  state : string;
  nom_ang_x : JsScalar;
  nom_ang_y : JsScalar;
  nom_ang_z : JsScalar;
  nom_dim_x : JsScalar;
  nom_dim_y : JsScalar;
  nom_dim_z : JsScalar;
  nom_loc_x : JsScalar;
  nom_loc_y : JsScalar;
  nom_loc_z : JsScalar;
  ray_trace : JsScalar;
  discussion : option (list ChangeComment);
}.

(** The record of the frontend: the [fft] object is flattened into [id],
    [fc] and [fg]. *)
Record ProjectDeviceDetails := mkProjectDeviceDetails {
  dev_id : string;
  dev_fc : string;
  dev_fg : string;
  dev_fields : deviceDetailFields;
}.

Record ProjectDeviceDetailsBackend := mkProjectDeviceDetailsBackend {
  fft : ProjectFFT;
  be_fields : deviceDetailFields;
}.

(** The keys of the numeric fields. *)
Inductive NumericKey :=
  | k_nom_ang_x | k_nom_ang_y | k_nom_ang_z
  | k_nom_dim_x | k_nom_dim_y | k_nom_dim_z
  | k_nom_loc_x | k_nom_loc_y | k_nom_loc_z
  | k_ray_trace.

#[global] Instance NumericKey_eq_dec : EqDecision NumericKey.
Proof. solve_decision. Defined.

Definition ProjectDevicePositionKeys : list NumericKey :=
  [ k_nom_ang_x; k_nom_ang_y; k_nom_ang_z;
    k_nom_dim_x; k_nom_dim_y; k_nom_dim_z;
    k_nom_loc_x; k_nom_loc_y; k_nom_loc_z ].

Definition ProjectDeviceDetailsNumericKeys : list NumericKey :=
  ProjectDevicePositionKeys ++ [ k_ray_trace ].

(** [d[k]] for a numeric key *)
Definition getNumeric (d : deviceDetailFields) (k : NumericKey) : JsScalar :=
  match k with
  | k_nom_ang_x => nom_ang_x d | k_nom_ang_y => nom_ang_y d | k_nom_ang_z => nom_ang_z d
  | k_nom_dim_x => nom_dim_x d | k_nom_dim_y => nom_dim_y d | k_nom_dim_z => nom_dim_z d
  | k_nom_loc_x => nom_loc_x d | k_nom_loc_y => nom_loc_y d | k_nom_loc_z => nom_loc_z d
  | k_ray_trace => ray_trace d
  end.

(** [d[k] = v] for a numeric key: the field [k] receives [v], every other
    field keeps its value. *)
Definition setNumeric (d : deviceDetailFields) (k : NumericKey) (v : JsScalar)
  : deviceDetailFields :=
  let pick (k' : NumericKey) := if decide (k = k') then v else getNumeric d k' in
  {| tc_part_no := tc_part_no d;
     comments := comments d;
     state := state d;
     nom_ang_x := pick k_nom_ang_x;
     nom_ang_y := pick k_nom_ang_y;
     nom_ang_z := pick k_nom_ang_z;
     nom_dim_x := pick k_nom_dim_x;
     nom_dim_y := pick k_nom_dim_y;
     nom_dim_z := pick k_nom_dim_z;
     nom_loc_x := pick k_nom_loc_x;
     nom_loc_y := pick k_nom_loc_y;
     nom_loc_z := pick k_nom_loc_z;
     ray_trace := pick k_ray_trace;
     discussion := discussion d |}.

Definition numberOrDefault `{Builtins} (input : JsScalar) (defaultVal : option float)
  : option float :=
  match input with
  | JUndefined => defaultVal
  | JString s => if bool_decide (s = "") then defaultVal else Some (parseFloat s)
  | JNumber x => Some x
  end.

(** *** Device states *)

Record DeviceState := mkDeviceState {
  name : string;
  sortOrder : Z;
  backendEnumName : string;
}.

Module DeviceState.
Definition Conceptual := mkDeviceState "Conceptual" 0 "Conceptual".
Definition Planned := mkDeviceState "Planned" 1 "Planned".
Definition ReadyForInstallation := mkDeviceState "Ready For Installation" 2 "ReadyForInstallation".
Definition Installed := mkDeviceState "Installed" 3 "Installed".
Definition Commisioned := mkDeviceState "Commissioned" 4 "Commissioned".
Definition Operational := mkDeviceState "Operational" 5 "Operational".
Definition NonOperational := mkDeviceState "Non-operational" 6 "NonOperational".
Definition Decommissioned := mkDeviceState "De-commissioned" 7 "Decommissioned".
Definition Removed := mkDeviceState "Removed" 8 "Removed".
Definition UnknownState := mkDeviceState "Unknown" (-1) "Unknown".

Definition allStates : list DeviceState :=
  [ Conceptual; Planned; ReadyForInstallation; Installed; Commisioned;
    Operational; NonOperational; Decommissioned; Removed ].

(** The loop of [fromString] over a list of states: the first state that
    matches by display name or by backend name. *)
Fixpoint firstMatch (states : list DeviceState) (st : string) : option DeviceState :=
  match states with
  | [] => None
  | s :: rest =>
      if bool_decide (name s = st) || bool_decide (backendEnumName s = st) then Some s
      else firstMatch rest st
  end.

Definition fromString (st : string) : DeviceState :=
  match firstMatch allStates st with
  | Some s => s
  | None => UnknownState
  end.
End DeviceState.

(** *** From the backend record to the frontend record *)

(** The loop over the comments of a discussion. *)
Definition transformComment `{Builtins} (comment : ChangeComment) : ChangeComment :=
  {| cc_id := cc_id comment;
     cc_author := cc_author comment;
     cc_time := newDate (cc_time comment);
     cc_comment := cc_comment comment |}.

(** The assignment to [device.state]. *)
Definition setState (d : deviceDetailFields) (st : string) : deviceDetailFields :=
  {| tc_part_no := tc_part_no d; comments := comments d; state := st;
     nom_ang_x := nom_ang_x d; nom_ang_y := nom_ang_y d; nom_ang_z := nom_ang_z d;
     nom_dim_x := nom_dim_x d; nom_dim_y := nom_dim_y d; nom_dim_z := nom_dim_z d;
     nom_loc_x := nom_loc_x d; nom_loc_y := nom_loc_y d; nom_loc_z := nom_loc_z d;
     ray_trace := ray_trace d; discussion := discussion d |}.

(** The rewriting of [device.discussion] in place. *)
Definition setDiscussion (d : deviceDetailFields) (thread : option (list ChangeComment))
  : deviceDetailFields :=
  {| tc_part_no := tc_part_no d; comments := comments d; state := state d;
     nom_ang_x := nom_ang_x d; nom_ang_y := nom_ang_y d; nom_ang_z := nom_ang_z d;
     nom_dim_x := nom_dim_x d; nom_dim_y := nom_dim_y d; nom_dim_z := nom_dim_z d;
     nom_loc_x := nom_loc_x d; nom_loc_y := nom_loc_y d; nom_loc_z := nom_loc_z d;
     ray_trace := ray_trace d; discussion := thread |}.

Definition transformProjectDeviceDetails `{Builtins} (device : deviceDetailFields)
  : deviceDetailFields :=
  let device := setState device (name (DeviceState.fromString (state device))) in
  let device :=
    foldl (λ d k, setNumeric d k (ofOptNumber (numberOrDefault (getNumeric d k) None)))
          device ProjectDeviceDetailsNumericKeys in
  match discussion device with
  | Some thread => setDiscussion device (Some (transformComment <$> thread))
  | None => device
  end.

Definition deviceDetailsBackendToFrontend `{Builtins} (details : ProjectDeviceDetailsBackend)
  : ProjectDeviceDetails :=
  let copiedFields := be_fields details in
  {| dev_id := fft_id (fft details);
     dev_fc := fft_fc (fft details);
     dev_fg := fft_fg (fft details);
     dev_fields := transformProjectDeviceDetails copiedFields |}.

(** [fetchProjectFfts], given how the request for the devices of the
    project settles. The query string built from [showAllEntries] and
    [sinceTime] selects what the backend answers and has no other effect.
    The response is an object keyed by device id; [Object.values] lists its
    values in the order of its keys. *)
Definition fetchProjectFfts `{Builtins}
    (response : Settled (list (string * ProjectDeviceDetailsBackend)))
  : Settled (list ProjectDeviceDetails) :=
  then_ (λ data,
           let devices := snd <$> data in
           deviceDetailsBackendToFrontend <$> devices)
        response.

(** *** Diff keys *)

Record fftDiffBackend := mkFftDiffBackend {
  diff : bool;
  key : string;
  my : JsScalar;
  ot : JsScalar;
}.

Record ParsedDiffKey := mkParsedDiffKey {
  parsed_id : string;
  parsed_field : string;
}.

Definition invalidDiffKeyMessage (k : string) : string :=
  "Invalid diff key " +:+ k +:+ ": diff key should consist of "
    +:+ dquote +:+ "<fft_id>.<key>" +:+ dquote.

(** The result is [inl] of the parsed key, or [inr] of the message of the
    error that is thrown. An empty array cannot come out of [split]; there
    [id] would be undefined and the name of the field empty. *)
Definition parseFftFieldsFromDiff (d : fftDiffBackend) : ParsedDiffKey + string :=
  let (id, rest) :=
    match split "."%char (key d) with
    | id :: rest => (id, rest)
    | [] => ("", [])
    end in
  let nameOfField := join "." rest in
  if negb (truthy nameOfField) then inr (invalidDiffKeyMessage (key d))
  else inl {| parsed_id := id; parsed_field := nameOfField |}.

(** *** Sending the changes of a user *)

(** [JSON.stringify(value, (k, v) => v === undefined ? '' : v)], the call of
    [syncDeviceUserChanges]. The replacer is called for the value itself and
    for every property and element below it, after [toJSON]; it replaces
    undefined by the empty string and returns any other value, so with it
    nothing is left out. *)
Fixpoint syncStringify (value : JsValue) : Json :=
  match value with
  | VDate t => toJSON t
  | VUndefined => JsonString ""
  | VNumber x => stringifyNumber x
  | VString s => JsonString s
  | VArray items => JsonArray (syncStringify <$> items)
  | VObject entries =>
      JsonObject ((λ entry, match entry with
                            | (key, item) => (key, syncStringify item)
                            end) <$> entries)
  end.

(** The body of the request of [syncDeviceUserChanges] for a record of
    changes, given by its properties. *)
Definition syncDeviceUserChangesBody (changes : list (string * JsValue)) : Json :=
  syncStringify (VObject changes).

(** *** A device record sent back

    The record of the frontend as the object that [JSON.stringify] goes
    through. Once [transformProjectDeviceDetails] has run, every numeric key
    is a property of the object, whether the backend sent it or not, since
    the loop assigns to each; [discussion] is a property when the backend
    sent it; [id], [fc] and [fg] are added after the copied fields. The
    copied fields are listed in the order of their declaration: the order in
    which the backend sent them is not part of the model, and what is written
    is read by key. *)

Inductive ScalarKey :=
  | k_tc_part_no
  | k_comments
  | k_state
  | k_numeric (k : NumericKey).

Definition keyName (k : ScalarKey) : string :=
  match k with
  | k_tc_part_no => "tc_part_no"
  | k_comments => "comments"
  | k_state => "state"
  | k_numeric k_nom_ang_x => "nom_ang_x"
  | k_numeric k_nom_ang_y => "nom_ang_y"
  | k_numeric k_nom_ang_z => "nom_ang_z"
  | k_numeric k_nom_dim_x => "nom_dim_x"
  | k_numeric k_nom_dim_y => "nom_dim_y"
  | k_numeric k_nom_dim_z => "nom_dim_z"
  | k_numeric k_nom_loc_x => "nom_loc_x"
  | k_numeric k_nom_loc_y => "nom_loc_y"
  | k_numeric k_nom_loc_z => "nom_loc_z"
  | k_numeric k_ray_trace => "ray_trace"
  end.

Definition scalarKeys : list ScalarKey :=
  [ k_tc_part_no; k_comments; k_state ] ++ (k_numeric <$> ProjectDeviceDetailsNumericKeys).

Definition getScalar (d : deviceDetailFields) (k : ScalarKey) : JsScalar :=
  match k with
  | k_tc_part_no => JString (tc_part_no d)
  | k_comments => JString (comments d)
  | k_state => JString (state d)
  | k_numeric n => getNumeric d n
  end.

(** A [number | string | undefined] as a value. *)
Definition scalarValue (v : JsScalar) : JsValue :=
  match v with
  | JUndefined => VUndefined
  | JNumber x => VNumber x
  | JString s => VString s
  end.

(** A time field as a value: the string of the backend, or the [Date]. *)
Definition timeValue (v : JsTime) : JsValue :=
  match v with
  | TimeString s => VString s
  | TimeDate t => VDate t
  end.

(** A comment of a discussion as an object. *)
Definition commentObject (comment : ChangeComment) : JsValue :=
  VObject [ ("id", VString (cc_id comment));
            ("author", VString (cc_author comment));
            ("time", timeValue (cc_time comment));
            ("comment", VString (cc_comment comment)) ].

(** The object that [deviceDetailsBackendToFrontend] returns. *)
Definition frontendObject (data : ProjectDeviceDetails) : JsValue :=
  VObject
    (((λ k, (keyName k, scalarValue (getScalar (dev_fields data) k))) <$> scalarKeys)
     ++ match discussion (dev_fields data) with
        | Some thread => [ ("discussion", VArray (commentObject <$> thread)) ]
        | None => []
        end
     ++ [ ("id", VString (dev_id data));
          ("fc", VString (dev_fc data));
          ("fg", VString (dev_fg data)) ]).

(** A record of the backend taken to the frontend by
    [deviceDetailsBackendToFrontend] and written out again by the call of
    [JSON.stringify] that [syncDeviceUserChanges] makes. *)
Definition roundTrip `{Builtins} (w : ProjectDeviceDetailsBackend) : Json :=
  syncStringify (frontendObject (deviceDetailsBackendToFrontend w)).

(** *** The diff of two projects *)

Record FFTDiff := mkFFTDiff {
  fd_diff : bool;
  fftId : string;
  fieldName : string;
  fd_my : JsScalar;
  fd_other : JsScalar;
}.

(** How the promise of [fetchProjectDiff] settles: with the diffs, with the
    [Error] thrown for a key that does not parse, or with the error of the
    request. *)
Inductive DiffSettled :=
  | DiffResolved (diffs : list FFTDiff)
  | DiffThrown (message : string)
  | DiffRejected (reason : JsonErrorMsg).

(** [data.map(d => ...)] in the handler of [fetchProjectDiff]: the entries
    are taken in order and the first key that does not parse throws. *)
Fixpoint mapDiffs (data : list fftDiffBackend) : list FFTDiff + string :=
  match data with
  | [] => inl []
  | d :: rest =>
      match parseFftFieldsFromDiff d with
      | inr message => inr message
      | inl parsed =>
          let fftDiff :=
            {| fd_diff := diff d;
               fftId := parsed_id parsed;
               fieldName := parsed_field parsed;
               fd_my := my d;
               fd_other := ot d |} in
          match mapDiffs rest with
          | inr message => inr message
          | inl diffs => inl (fftDiff :: diffs)
          end
      end
  end.

(** [fetchProjectDiff], given how the request for the diff settles. The
    query string built from the id of the other project and the [approved]
    flag selects what the backend answers. *)
Definition fetchProjectDiff (response : Settled (list fftDiffBackend)) : DiffSettled :=
  match response with
  | Rejected e => DiffRejected e
  | Resolved data =>
      match mapDiffs data with
      | inl diffs => DiffResolved diffs
      | inr message => DiffThrown message
      end
  end.

(** *** Requests for one project *)

(** [fetchProjectInfo], given how the request for the project settles. *)
Definition fetchProjectInfo `{Builtins} (response : Settled ProjectInfo) : Settled ProjectInfo :=
  then_ transformProjectForFrontendUse response.

(** [addFftsToProject], given how the request that adds the devices
    settles: the answer lists the devices of the project. *)
Definition addFftsToProject `{Builtins}
    (response : Settled (list (string * ProjectDeviceDetailsBackend)))
  : Settled (list ProjectDeviceDetails) :=
  then_ (λ resp,
           let data := snd <$> resp in
           deviceDetailsBackendToFrontend <$> data)
        response.

End ProjectModel.

(** ** Arrays of the platform *)

Module JsArray.

(** [l.indexOf(x)] on an array of strings: the index of the first
    occurrence, or -1. *)
Definition indexOf (l : list string) (x : string) : Z :=
  match list_find (λ y, y = x) l with
  | Some found => Z.of_nat found.1
  | None => -1
  end.

(** [l.splice(index, 1)] for an index of the array: the array without the
    element at [index]. *)
Definition spliceOne {A : Type} (index : nat) (l : list A) : list A :=
  take index l ++ drop (S index) l.

Section Sort.
Context {A : Type}.

(** The comparator: negative when the first argument goes first, positive
    when the second does. *)
Variable compare : A → A → Z.

(** The place of [x] in a sorted array: behind every element that does not
    go after it. *)
Fixpoint insertSorted (x : A) (sorted : list A) : list A :=
  match sorted with
  | [] => [x]
  | y :: rest =>
      if bool_decide (compare x y < 0)%Z then x :: y :: rest
      else y :: insertSorted x rest
  end.

(** [l.sort(compare)]. The sort of the platform is stable; for a comparator
    that orders the elements consistently every stable sort gives the array
    computed here, element after element. *)
Definition sort (l : list A) : list A :=
  foldl (λ sorted x, insertSorted x sorted) [] l.

End Sort.

End JsArray.

(** ** Strings of the platform *)

Module JsString.

(** [s.startsWith(prefix)] *)
Definition startsWith (s prefix : string) : bool := String.prefix prefix s.

End JsString.

Import ProjectModel.

(** ** The pages that load the devices of a project

    Both components keep the loaded devices in [fftData] and load them with
    [loadFFTData]. The state records hold the fields with data, errors and
    filters; the flags of the dialogs play no part in loading. *)

Definition loadErrorMessage (e : JsonErrorMsg) : string :=
  "Failed to load device data: " +:+ error e.

(** *** ProjectSpecificPage: the request is made by the page itself *)

Module ProjectSpecificPage.
Section WithDevice.

(** The device record of the version of the model this page was written
    for; the page stores the devices as received. *)
Variable Device : Type.

Record State := mkState {
  isLoading : bool;
  fftDataLoadingError : string;
  projectData : option ProjectInfo;
  fftData : list Device;
  fftDataDisplay : list Device;
  fcFilter : string;
  fgFilter : string;
  stateFilter : string;
}.

Definition setIsLoading (v : bool) (st : State) : State :=
  mkState v (fftDataLoadingError st) (projectData st) (fftData st)
          (fftDataDisplay st) (fcFilter st) (fgFilter st) (stateFilter st).

Definition setFftDataLoadingError (v : string) (st : State) : State :=
  mkState (isLoading st) v (projectData st) (fftData st)
          (fftDataDisplay st) (fcFilter st) (fgFilter st) (stateFilter st).

Definition setFftData (v : list Device) (st : State) : State :=
  mkState (isLoading st) (fftDataLoadingError st) (projectData st) v
          (fftDataDisplay st) (fcFilter st) (fgFilter st) (stateFilter st).

(** [loadFFTData], given how the request settles: the state after the
    handlers have run, and the value of the returned promise ([None] for the
    void left by the catch handler). *)
Definition loadFFTData (response : Settled (list (string * Device))) (st : State)
  : State * option (list Device) :=
  let st := setIsLoading true st in
  let st := setFftDataLoadingError "" st in
  let (st, result) :=
    match response with
    | Resolved data =>
        let devices := snd <$> data in
        (setFftData devices st, Some devices)
    | Rejected e =>
        let msg := loadErrorMessage e in
        let st := setFftData [] st in
        (setFftDataLoadingError msg st, None)
    end in
  (setIsLoading false st, result).

End WithDevice.

Arguments isLoading {Device} _.
Arguments fftDataLoadingError {Device} _.
Arguments projectData {Device} _.
Arguments fftData {Device} _.
Arguments fftDataDisplay {Device} _.
Arguments fcFilter {Device} _.
Arguments fgFilter {Device} _.
Arguments stateFilter {Device} _.
Arguments loadFFTData {Device} _ _.
(** **** The filters of the table

    In this version of the model a device nests its [fft], as the record of
    the backend does, and the page keeps the devices as they arrive. *)

Definition setFftDataDisplay {Device : Type} (v : list Device) (st : State Device)
  : State Device :=
  mkState Device (isLoading st) (fftDataLoadingError st) (projectData st) (fftData st)
          v (fcFilter st) (fgFilter st) (stateFilter st).

Definition setFcFilter {Device : Type} (v : string) (st : State Device) : State Device :=
  mkState Device (isLoading st) (fftDataLoadingError st) (projectData st) (fftData st)
          (fftDataDisplay st) v (fgFilter st) (stateFilter st).

Definition setFgFilter {Device : Type} (v : string) (st : State Device) : State Device :=
  mkState Device (isLoading st) (fftDataLoadingError st) (projectData st) (fftData st)
          (fftDataDisplay st) (fcFilter st) v (stateFilter st).

Definition setStateFilter {Device : Type} (v : string) (st : State Device) : State Device :=
  mkState Device (isLoading st) (fftDataLoadingError st) (projectData st) (fftData st)
          (fftDataDisplay st) (fcFilter st) (fgFilter st) v.

Section Filters.

(** [createGlobMatchRegex(pattern).test(s)] of [utils/glob_matcher], which is
    not among the sources. *)
Variable createGlobMatchRegex : string → string → bool.

(** The list computed by the effect that applies the filters. *)
Definition filteredFftData (st : State ProjectDeviceDetailsBackend)
  : list ProjectDeviceDetailsBackend :=
  let fcGlobMatcher := createGlobMatchRegex (fcFilter st) in
  let fgGlobMatcher := createGlobMatchRegex (fgFilter st) in
  let byFc :=
    filter (λ d, Is_true (if truthy (fcFilter st) then fcGlobMatcher (fft_fc (fft d))
                          else true))
           (fftData st) in
  let byFg :=
    filter (λ d, Is_true (if truthy (fgFilter st) then fgGlobMatcher (fft_fg (fft d))
                          else true))
           byFc in
  filter (λ d, Is_true (if truthy (stateFilter st)
                        then bool_decide (state (be_fields d) = stateFilter st)
                        else true))
         byFg.

Definition applyFilters (st : State ProjectDeviceDetailsBackend)
  : State ProjectDeviceDetailsBackend :=
  setFftDataDisplay (filteredFftData st) st.

End Filters.

(** The handler of the filters chosen in the dialog. The query of the
    address is updated as well, and the dialog closed. *)
Definition filterSubmitted {Device : Type} (newFcFilter newFgFilter newStateFilter : string)
    (st : State Device) : State Device :=
  let st := setFcFilter newFcFilter st in
  let st := setFgFilter newFgFilter st in
  let newStateFilter :=
    if JsString.startsWith newStateFilter "---" then "" else newStateFilter in
  setStateFilter newStateFilter st.

(** The loop that writes a device answered by the backend over the devices
    with its id, in the handler of the dialog that copies a device. *)
Definition replaceDevice (newDeviceDetails : ProjectDeviceDetailsBackend)
    (fftDataSeen : list ProjectDeviceDetailsBackend) : list ProjectDeviceDetailsBackend :=
  foldl (λ updatedData d,
           if bool_decide (fft_id (fft d) ≠ fft_id (fft newDeviceDetails))
           then updatedData ++ [d]
           else updatedData ++ [newDeviceDetails])
        [] fftDataSeen.

End ProjectSpecificPage.

(** *** ProjectDetails: the request is made through [fetchProjectFfts] *)

Module ProjectDetails.

Record State := mkState {
  isLoading : bool;
  fftDataLoadingError : string;
  project : option ProjectInfo;
  fftData : list ProjectDeviceDetails;
  fftDataDisplay : list ProjectDeviceDetails;
  currentlyLoggedInUser : string;
  fcFilter : string;
  fgFilter : string;
  stateFilter : string;
  asOfTimestampFilter : string;
}.

Definition setIsLoading (v : bool) (st : State) : State :=
  mkState v (fftDataLoadingError st) (project st) (fftData st) (fftDataDisplay st)
          (currentlyLoggedInUser st) (fcFilter st) (fgFilter st) (stateFilter st)
          (asOfTimestampFilter st).

Definition setFftDataLoadingError (v : string) (st : State) : State :=
  mkState (isLoading st) v (project st) (fftData st) (fftDataDisplay st)
          (currentlyLoggedInUser st) (fcFilter st) (fgFilter st) (stateFilter st)
          (asOfTimestampFilter st).

Definition setFftData (v : list ProjectDeviceDetails) (st : State) : State :=
  mkState (isLoading st) (fftDataLoadingError st) (project st) v (fftDataDisplay st)
          (currentlyLoggedInUser st) (fcFilter st) (fgFilter st) (stateFilter st)
          (asOfTimestampFilter st).

(** [loadFFTData], given how the request of [fetchProjectFfts] settles. *)
Definition loadFFTData `{Builtins}
    (response : Settled (list (string * ProjectDeviceDetailsBackend))) (st : State)
  : State * option (list ProjectDeviceDetails) :=
  let st := setIsLoading true st in
  let st := setFftDataLoadingError "" st in
  let (st, result) :=
    match fetchProjectFfts response with
    | Resolved devices => (setFftData devices st, Some devices)
    | Rejected e =>
        let msg := loadErrorMessage e in
        let st := setFftData [] st in
        (setFftDataLoadingError msg st, None)
    end in
  (setIsLoading false st, result).

(** **** Changes to the list of devices

    The handlers below read [fftData] as the render that created them saw
    it, and store the list they compute from it. The flags of the dialogs
    and the device being edited are not part of the state modelled here. *)

(** The loop that writes a device answered by the backend over the devices
    with its id: the handler of the dialog that copies a device from another
    project, and the handler of a comment that was added. *)
Definition replaceDevice (newDevice : ProjectDeviceDetails)
    (fftDataSeen : list ProjectDeviceDetails) : list ProjectDeviceDetails :=
  foldl (λ updatedData d,
           if bool_decide (dev_id d ≠ dev_id newDevice) then updatedData ++ [d]
           else updatedData ++ [newDevice])
        [] fftDataSeen.

Definition copyFftSubmitted (newDeviceDetails : ProjectDeviceDetails)
    (fftDataSeen : list ProjectDeviceDetails) (st : State) : State :=
  setFftData (replaceDevice newDeviceDetails fftDataSeen) st.

Definition commentAdded (updatedDevice : ProjectDeviceDetails)
    (fftDataSeen : list ProjectDeviceDetails) (st : State) : State :=
  setFftData (replaceDevice updatedDevice fftDataSeen) st.

(** The loop of [onEditDone] over a copy of the list: the first device with
    the id of the edited device is replaced, and the loop ends there. *)
Fixpoint replaceEdited (oldId : string) (updatedDeviceData : ProjectDeviceDetails)
    (updatedDevices : list ProjectDeviceDetails) : list ProjectDeviceDetails :=
  match updatedDevices with
  | [] => []
  | device :: rest =>
      if bool_decide (dev_id device = oldId) then updatedDeviceData :: rest
      else device :: replaceEdited oldId updatedDeviceData rest
  end.

Inductive EditAction := ok | cancel.

Definition editDone (oldDevice updatedDeviceData : ProjectDeviceDetails)
    (action : EditAction) (fftDataSeen : list ProjectDeviceDetails) (st : State) : State :=
  match action with
  | cancel => st
  | ok => setFftData (replaceEdited (dev_id oldDevice) updatedDeviceData fftDataSeen) st
  end.

(** The message of the alert of the page: a text, or the sentence that the
    functional component is already a part of the project. *)
Inductive ErrorAlert :=
  | AlertText (msg : string)
  | AlreadyPartOfProject (fc : string) (projectName : string).

(** The dialog that confirms a delete: the device it is about and whether it
    is open. *)
Record DeleteDialog := mkDeleteDialog {
  currentFFT : ProjectFFT;
  isDeleteDialogOpen : bool;
}.

(** The handlers of the request that deletes the device [fft], which is
    [currentFFT] as the render that created them saw it. They give the state
    of the page, the dialog, and the alert that is set, if one is. *)
Definition deleteSettled (response : Settled unit) (fft : ProjectFFT)
    (fftDataSeen : list ProjectDeviceDetails) (dialog : DeleteDialog) (st : State)
  : State * DeleteDialog * option ErrorAlert :=
  match response with
  | Resolved _ =>
      let dialog := mkDeleteDialog (mkProjectFFT "" "" "") false in
      let updatedFftData := filter (λ d, dev_id d ≠ fft_id fft) fftDataSeen in
      (setFftData updatedFftData st, dialog, None)
  | Rejected e =>
      let msg := "Failed to delete a device " +:+ fft_fc fft +:+ "-" +:+ fft_fg fft
                 +:+ ": " +:+ error e in
      (st, dialog, Some (AlertText msg))
  end.

(** **** Adding a device

    The device chosen in the dialog, as [addNewFft] reads it: its id, and the
    id and the name of its functional component and of its fungible token. *)
Record FcFg := mkFcFg {
  fcfg_id : string;
  fcfg_name : string;
}.

Record FFTInfo := mkFFTInfo {
  info_id : string;
  info_fc : FcFg;
  info_fg : FcFg;
}.

(** What a call of [addNewFft] does: it shows an alert and returns, or it
    sends the request that adds the devices [ffts] to the project. *)
Inductive AddNewFft :=
  | ShowsAlert (msg : ErrorAlert)
  | Sends (projectId : string) (ffts : list ProjectFFT).

(** The loop over [fftData]: the first device with the two names. *)
Fixpoint alreadyInProject (newFft : FFTInfo) (fftData : list ProjectDeviceDetails)
  : option ProjectDeviceDetails :=
  match fftData with
  | [] => None
  | fft :: rest =>
      if bool_decide (dev_fc fft = fcfg_name (info_fc newFft))
         && bool_decide (dev_fg fft = fcfg_name (info_fg newFft))
      then Some fft
      else alreadyInProject newFft rest
  end.

Definition addNewFft (newFft : FFTInfo) (project : option ProjectInfo)
    (fftData : list ProjectDeviceDetails) : AddNewFft :=
  match project with
  | None =>
      ShowsAlert
        (AlertText
           "Can't add a new fft to a project without knowing the projec details; this is a programming bug")
  | Some project =>
      match alreadyInProject newFft fftData with
      | Some fft => ShowsAlert (AlreadyPartOfProject (dev_fc fft) (prj_name project))
      | None =>
          let fft := {| fft_id := info_id newFft;
                        fft_fc := fcfg_id (info_fc newFft);
                        fft_fg := fcfg_id (info_fg newFft) |} in
          Sends (prj_id project) [fft]
      end
  end.

(** The handlers of the request sent by [addNewFft]: the answer replaces the
    list of devices, a failure is shown in an alert. *)
Definition addNewFftSettled `{Builtins}
    (response : Settled (list (string * ProjectDeviceDetailsBackend))) (st : State)
  : State * option ErrorAlert :=
  match addFftsToProject response with
  | Resolved data => (setFftData data st, None)
  | Rejected e =>
      let msg := "Failed to add an fft to a project: " +:+ error e in
      (st, Some (AlertText msg))
  end.

(** **** Sending a state that was edited

    What [getValueChanges] of the row that edits a device puts into the
    changes for a [state] that has changed: the backend name of the state
    that the row displays. *)
Definition changedState (displayed : string) : string :=
  backendEnumName (DeviceState.fromString displayed).

End ProjectDetails.

(** ** The page that submits a project for approval *)

(** A rendered button: its text, the [loading] and [disabled] properties it
    was given and the handler of its clicks. *)
Record Button (Handler : Type) := mkButton {
  text : string;
  loading : bool;
  disabled : bool;
  onClick : Handler;
}.
Arguments mkButton {Handler} _ _ _ _.
Arguments text {Handler} _.
Arguments loading {Handler} _.
Arguments disabled {Handler} _.
Arguments onClick {Handler} _.

(** A click reaches the handler of a button that is neither disabled nor
    showing its loading spinner. *)
Definition clickable {Handler : Type} (b : Button Handler) : bool :=
  negb (disabled b || loading b).

(** Modelled from the spec: the type [ProjectFftDiff] of
    [diff/project_diff_model] is not among the sources. The diff of a project
    with the master project sorts the devices into new, missing, updated and
    identical ones; the page shows the lengths of these lists in its summary
    and reads, for its permission check, the project [a] the diff was
    computed for, which the code tests for presence. Only [a] is kept. *)
Record ProjectFftDiff := mkProjectFftDiff {
  diff_a : option ProjectInfo;
}.

(** *** The version with editors and a permission check *)

Module SubmitProjectForApproval.

Record State := mkState {
  loading_ : bool;
  loadError : string;
  project : option ProjectInfo;
  diff : option ProjectFftDiff;
  loggedInUser : string;
  allApprovers : list string;
  selectedApprovers : list string;
  allEditors : list string;
  selectedEditors : list string;
  superApprovers : list string;
  submittingForm : bool;
  submitError : string;
  editEditorsError : string;
}.

Definition setProject (v : option ProjectInfo) (st : State) : State :=
  mkState (loading_ st) (loadError st) v (diff st) (loggedInUser st) (allApprovers st)
          (selectedApprovers st) (allEditors st) (selectedEditors st) (superApprovers st)
          (submittingForm st) (submitError st) (editEditorsError st).

Definition setSubmittingForm (v : bool) (st : State) : State :=
  mkState (loading_ st) (loadError st) (project st) (diff st) (loggedInUser st)
          (allApprovers st) (selectedApprovers st) (allEditors st) (selectedEditors st)
          (superApprovers st) v (submitError st) (editEditorsError st).

Definition setSubmitError (v : string) (st : State) : State :=
  mkState (loading_ st) (loadError st) (project st) (diff st) (loggedInUser st)
          (allApprovers st) (selectedApprovers st) (allEditors st) (selectedEditors st)
          (superApprovers st) (submittingForm st) v (editEditorsError st).

Definition setEditEditorsError (v : string) (st : State) : State :=
  mkState (loading_ st) (loadError st) (project st) (diff st) (loggedInUser st)
          (allApprovers st) (selectedApprovers st) (allEditors st) (selectedEditors st)
          (superApprovers st) (submittingForm st) (submitError st) v.

(** The requests the page sends when a button is clicked. The version of the
    model this page imports is not among the sources; the page calls
    [submitForApproval(projectId, selectedEditors, selectedApprovers)] and
    [editProject(projectId, {editors: selectedEditors})]. *)
Inductive Request :=
  | submitForApproval (projectId : string) (editors approvers : list string)
  | editProject (projectId : string) (editors : list string).

Inductive Handler := SubmitButtonClicked | EditButtonClicked.

#[global] Instance Handler_eq_dec : EqDecision Handler.
Proof. solve_decision. Defined.

Definition userCanSubmitTheProject (st : State) : bool :=
  match diff st with
  | None => false
  | Some d =>
      match diff_a d with
      | None => false
      | Some a =>
          if bool_decide (prj_owner a = loggedInUser st) then true
          else if includes (prj_editors a) (loggedInUser st) then true
          else false
      end
  end.

(** Recomputed when the project or the user changes. *)
Definition disableEditActions (st : State) : bool :=
  if userCanSubmitTheProject st then false
  else negb (isProjectInDevelopment (project st)) || negb (userCanSubmitTheProject st).

Definition submitButtonClicked (projectId : string) (st : State) : State * list Request :=
  match project st with
  | None => (st, [])
  | Some _ =>
      let st := setSubmittingForm true st in
      let st := setSubmitError "" st in
      let st := setEditEditorsError "" st in
      (st, [submitForApproval projectId (selectedEditors st) (selectedApprovers st)])
  end.

Definition editButtonClicked (projectId : string) (st : State) : State * list Request :=
  match project st with
  | None => (st, [])
  | Some _ =>
      let st := setSubmittingForm true st in
      let st := setEditEditorsError "" st in
      (st, [editProject projectId (selectedEditors st)])
  end.

(** The handlers of the promise returned by [submitForApproval]. *)
Definition submitSettled (response : Settled ProjectInfo) (st : State) : State :=
  let st :=
    match response with
    | Resolved updatedProject => setProject (Some updatedProject) st
    | Rejected e =>
        setSubmitError ("Failed to submit a project for approval: " +:+ error e) st
    end in
  setSubmittingForm false st.

(** The row of the page under the table. *)
Inductive SubmitRow :=
  | NoPermissions
  | SubmitControls (submitButton saveButton : option (Button Handler))
                   (errorText : option string).

Inductive View :=
  | LoadingSpinner
  | ErrorDisplay (description : string)
  | NoDataFound
  | Page (updateEditors : Button Handler) (row : SubmitRow).

Definition render (st : State) : View :=
  if loading_ st then LoadingSpinner
  else if truthy (loadError st) then ErrorDisplay (loadError st)
  else match project st, diff st with
       | Some _, Some _ =>
           Page
             (mkButton "Update Editors" (submittingForm st) (disableEditActions st)
                       EditButtonClicked)
             (if userCanSubmitTheProject st then
                SubmitControls
                  (if isProjectInDevelopment (project st) then
                     Some (mkButton "Submit for Approval" (submittingForm st)
                                    (bool_decide (length (selectedApprovers st) = 0))
                                    SubmitButtonClicked)
                   else None)
                  (if isProjectSubmitted (project st) then
                     Some (mkButton "Save Changes" (submittingForm st)
                                    (bool_decide (length (selectedApprovers st) = 0))
                                    SubmitButtonClicked)
                   else None)
                  (if truthy (submitError st) then Some (submitError st) else None)
              else NoPermissions)
       | _, _ => NoDataFound
       end.

(** The buttons on a rendered page. *)
Definition buttons (v : View) : list (Button Handler) :=
  match v with
  | Page updateEditors row =>
      updateEditors ::
      match row with
      | NoPermissions => []
      | SubmitControls submitButton saveButton _ =>
          option_list submitButton ++ option_list saveButton
      end
  | _ => []
  end.

(** The Submit-for-Approval control, when the page shows it. *)
Definition submitControl (v : View) : option (Button Handler) :=
  match v with
  | Page _ (SubmitControls submitButton _ _) => submitButton
  | _ => None
  end.

Definition handle (h : Handler) (projectId : string) (st : State) : State * list Request :=
  match h with
  | SubmitButtonClicked => submitButtonClicked projectId st
  | EditButtonClicked => editButtonClicked projectId st
  end.

(** A click on a button of the page rendered from [st]. *)
Definition click (b : Button Handler) (projectId : string) (st : State)
  : State * list Request :=
  if clickable b then handle (onClick b) projectId st else (st, []).

(** **** Loading the page, and the lists offered for selection *)

Definition setLoading (v : bool) (st : State) : State :=
  mkState v (loadError st) (project st) (diff st) (loggedInUser st) (allApprovers st)
          (selectedApprovers st) (allEditors st) (selectedEditors st) (superApprovers st)
          (submittingForm st) (submitError st) (editEditorsError st).

Definition setLoadError (v : string) (st : State) : State :=
  mkState (loading_ st) v (project st) (diff st) (loggedInUser st) (allApprovers st)
          (selectedApprovers st) (allEditors st) (selectedEditors st) (superApprovers st)
          (submittingForm st) (submitError st) (editEditorsError st).

Definition setDiff (v : option ProjectFftDiff) (st : State) : State :=
  mkState (loading_ st) (loadError st) (project st) v (loggedInUser st) (allApprovers st)
          (selectedApprovers st) (allEditors st) (selectedEditors st) (superApprovers st)
          (submittingForm st) (submitError st) (editEditorsError st).

Definition setLoggedInUser (v : string) (st : State) : State :=
  mkState (loading_ st) (loadError st) (project st) (diff st) v (allApprovers st)
          (selectedApprovers st) (allEditors st) (selectedEditors st) (superApprovers st)
          (submittingForm st) (submitError st) (editEditorsError st).

Definition setAllApprovers (v : list string) (st : State) : State :=
  mkState (loading_ st) (loadError st) (project st) (diff st) (loggedInUser st) v
          (selectedApprovers st) (allEditors st) (selectedEditors st) (superApprovers st)
          (submittingForm st) (submitError st) (editEditorsError st).

Definition setSelectedApprovers (v : list string) (st : State) : State :=
  mkState (loading_ st) (loadError st) (project st) (diff st) (loggedInUser st)
          (allApprovers st) v (allEditors st) (selectedEditors st) (superApprovers st)
          (submittingForm st) (submitError st) (editEditorsError st).

Definition setAllEditors (v : list string) (st : State) : State :=
  mkState (loading_ st) (loadError st) (project st) (diff st) (loggedInUser st)
          (allApprovers st) (selectedApprovers st) v (selectedEditors st) (superApprovers st)
          (submittingForm st) (submitError st) (editEditorsError st).

Definition setSelectedEditors (v : list string) (st : State) : State :=
  mkState (loading_ st) (loadError st) (project st) (diff st) (loggedInUser st)
          (allApprovers st) (selectedApprovers st) (allEditors st) v (superApprovers st)
          (submittingForm st) (submitError st) (editEditorsError st).

(** What [fetchData] resolves to. The requests it makes are those of the
    version of the model this page imports. *)
Record LoadedData := mkLoadedData {
  projectInfo : ProjectInfo;
  whoami : string;
  loadedEditors : list string;
  loadedApprovers : list string;
  loadedDiff : ProjectFftDiff;
}.

(** [fetchData], given how its five requests settle. The requests are
    awaited one after the other; the first that fails ends the function.
    [fetchProjectInfo], [whoAmI] and [fetchProjectApprovers], which is called
    with the owner of the project and takes the owner out of the approvers,
    are those of [project_model.ts]; [fetchProjectEditors] and
    [fetchDiffWithMasterProject] are not among the sources and are taken by
    the way they settle. *)
Definition fetchData `{Builtins}
    (projectResponse : Settled ProjectInfo) (whoamiResponse : Settled string)
    (approversResponse editorsResponse : Settled (list string))
    (diffResponse : Settled ProjectFftDiff)
  : Settled LoadedData :=
  match fetchProjectInfo projectResponse with
  | Rejected e => Rejected e
  | Resolved projectInfo =>
      match whoamiResponse with
      | Rejected e => Rejected e
      | Resolved whoami =>
          match fetchProjectApprovers (Some (prj_owner projectInfo)) approversResponse with
          | Rejected e => Rejected e
          | Resolved allApprovers =>
              match editorsResponse with
              | Rejected e => Rejected e
              | Resolved allEditors =>
                  match diffResponse with
                  | Rejected e => Rejected e
                  | Resolved diff =>
                      Resolved (mkLoadedData projectInfo whoami allEditors allApprovers diff)
                  end
              end
          end
      end
  end.

(** The handlers of the promise of [fetchData] in the effect that loads the
    page. The list of editors of a project is always present. *)
Definition loadSettled (data : Settled LoadedData) (st : State) : State :=
  let st :=
    match data with
    | Resolved data =>
        let st := setProject (Some (projectInfo data)) st in
        let st := setDiff (Some (loadedDiff data)) st in
        let st := setLoggedInUser (whoami data) st in
        let st := setAllApprovers (filter (λ e, e ≠ whoami data) (loadedApprovers data)) st in
        let st := setAllEditors (filter (λ e, e ≠ whoami data) (loadedEditors data)) st in
        let st :=
          match prj_approvers (projectInfo data) with
          | Some approvers => setSelectedApprovers approvers st
          | None => st
          end in
        setSelectedEditors (prj_editors (projectInfo data)) st
    | Rejected e => setLoadError (error e) st
    end in
  setLoading false st.

Definition availableApprovers (st : State) : list string :=
  filter (λ a, ¬ includes (selectedEditors st) a) (allApprovers st).


(** The handlers of the promise returned by [editProject]. *)
Definition editSettled (response : Settled ProjectInfo) (st : State) : State :=
  let st :=
    match response with
    | Resolved updatedProject => setProject (Some updatedProject) st
    | Rejected e =>
        let msg := "Failed to edit the project editors: " +:+ error e in
        setEditEditorsError msg st
    end in
  setSubmittingForm false st.

(** The message under the buttons, when the page shows one. *)
Definition shownError (v : View) : option string :=
  match v with
  | Page _ (SubmitControls _ _ errorText) => errorText
  | _ => None
  end.

End SubmitProjectForApproval.

(** *** The version with a drop-down of approvers and no permission check

    The same component, [SubmitProjectForApproval], in the version that
    selects approvers one at a time and shows the page to every user. The
    controls that add and remove an approver change [selectedApprovers] only
    and are left out of the rendered page. *)

Module SubmitPlain.

Record State := mkState {
  loading_ : bool;
  loadError : string;
  project : option ProjectInfo;
  diff : option ProjectFftDiff;
  allApprovers : list string;
  currentApprover : string;
  selectedApprovers : list string;
  superApprovers : list string;
  submittingForm : bool;
  submitError : string;
}.

Definition setProject (v : option ProjectInfo) (st : State) : State :=
  mkState (loading_ st) (loadError st) v (diff st) (allApprovers st) (currentApprover st)
          (selectedApprovers st) (superApprovers st) (submittingForm st) (submitError st).

Definition setSubmittingForm (v : bool) (st : State) : State :=
  mkState (loading_ st) (loadError st) (project st) (diff st) (allApprovers st)
          (currentApprover st) (selectedApprovers st) (superApprovers st) v (submitError st).

Definition setSubmitError (v : string) (st : State) : State :=
  mkState (loading_ st) (loadError st) (project st) (diff st) (allApprovers st)
          (currentApprover st) (selectedApprovers st) (superApprovers st)
          (submittingForm st) v.

(** [submitForApproval(projectId, approvers)] of [project_model.ts], called
    without a date. *)
Inductive Request :=
  | submitForApproval (projectId : string) (approvers : list string).

Inductive Handler := SubmitButtonClicked.

Definition submitButtonClicked (projectId : string) (st : State) : State * list Request :=
  match project st with
  | None => (st, [])
  | Some _ =>
      let st := setSubmittingForm true st in
      (st, [submitForApproval projectId (selectedApprovers st)])
  end.

Definition submitSettled (response : Settled ProjectInfo) (st : State) : State :=
  let st :=
    match response with
    | Resolved updatedProject =>
        let st := setProject (Some updatedProject) st in
        setSubmitError "" st
    | Rejected e =>
        setSubmitError ("Failed to submit a project for approval: " +:+ error e) st
    end in
  setSubmittingForm false st.

Inductive View :=
  | LoadingSpinner
  | ErrorDisplay (description : string)
  | NoDataFound
  | Page (submitButton : option (Button Handler)) (errorText : option string).

Definition render (st : State) : View :=
  if loading_ st then LoadingSpinner
  else if truthy (loadError st) then ErrorDisplay (loadError st)
  else match project st, diff st with
       | Some _, Some _ =>
           Page
             (if isProjectInDevelopment (project st) then
                Some (mkButton "Submit for Approval" (submittingForm st)
                               (bool_decide (length (selectedApprovers st) = 0))
                               SubmitButtonClicked)
              else None)
             (if truthy (submitError st) then Some (submitError st) else None)
       | _, _ => NoDataFound
       end.

Definition submitControl (v : View) : option (Button Handler) :=
  match v with
  | Page submitButton _ => submitButton
  | _ => None
  end.

Definition click (b : Button Handler) (projectId : string) (st : State)
  : State * list Request :=
  if clickable b then
    match onClick b with
    | SubmitButtonClicked => submitButtonClicked projectId st
    end
  else (st, []).

(** **** Loading the page, and the selection of approvers *)

Definition DEFAULT_USER : string := "Please select an approver...".

Definition setLoading (v : bool) (st : State) : State :=
  mkState v (loadError st) (project st) (diff st) (allApprovers st) (currentApprover st)
          (selectedApprovers st) (superApprovers st) (submittingForm st) (submitError st).

Definition setLoadError (v : string) (st : State) : State :=
  mkState (loading_ st) v (project st) (diff st) (allApprovers st) (currentApprover st)
          (selectedApprovers st) (superApprovers st) (submittingForm st) (submitError st).

Definition setDiff (v : option ProjectFftDiff) (st : State) : State :=
  mkState (loading_ st) (loadError st) (project st) v (allApprovers st) (currentApprover st)
          (selectedApprovers st) (superApprovers st) (submittingForm st) (submitError st).

Definition setAllApprovers (v : list string) (st : State) : State :=
  mkState (loading_ st) (loadError st) (project st) (diff st) v (currentApprover st)
          (selectedApprovers st) (superApprovers st) (submittingForm st) (submitError st).

Definition setCurrentApprover (v : string) (st : State) : State :=
  mkState (loading_ st) (loadError st) (project st) (diff st) (allApprovers st) v
          (selectedApprovers st) (superApprovers st) (submittingForm st) (submitError st).

Definition setSelectedApprovers (v : list string) (st : State) : State :=
  mkState (loading_ st) (loadError st) (project st) (diff st) (allApprovers st)
          (currentApprover st) v (superApprovers st) (submittingForm st) (submitError st).

(** The state of the component when it is mounted. *)
Definition initialState : State :=
  {| loading_ := true; loadError := ""; project := None; diff := None;
     allApprovers := []; currentApprover := DEFAULT_USER; selectedApprovers := [];
     superApprovers := []; submittingForm := false; submitError := "" |}.

Record LoadedData := mkLoadedData {
  projectInfo : ProjectInfo;
  approvers : list string;
  loadedDiff : ProjectFftDiff;
}.

(** [fetchData], given how its three requests settle. The requests are
    awaited one after the other; the first that fails ends the function.
    [fetchDiffWithMasterProject] is not among the sources and is taken by the
    way it settles. *)
Definition fetchData `{Builtins}
    (projectResponse : Settled ProjectInfo) (approversResponse : Settled (list string))
    (diffResponse : Settled ProjectFftDiff)
  : Settled LoadedData :=
  match fetchProjectInfo projectResponse with
  | Rejected e => Rejected e
  | Resolved projectInfo =>
      match fetchProjectApprovers (Some (prj_owner projectInfo)) approversResponse with
      | Rejected e => Rejected e
      | Resolved availableApprovers =>
          match diffResponse with
          | Rejected e => Rejected e
          | Resolved diff => Resolved (mkLoadedData projectInfo availableApprovers diff)
          end
      end
  end.

(** The handlers of the promise of [fetchData] in the effect that loads the
    page. The approvers of the project are copied into the selection. *)
Definition loadSettled (data : Settled LoadedData) (st : State) : State :=
  let st :=
    match data with
    | Resolved data =>
        let st := setProject (Some (projectInfo data)) st in
        let st := setDiff (Some (loadedDiff data)) st in
        let st :=
          match prj_approvers (projectInfo data) with
          | Some approvers => setSelectedApprovers approvers st
          | None => st
          end in
        setAllApprovers (approvers data) st
    | Rejected e => setLoadError (error e) st
    end in
  setLoading false st.

Definition leftoverApprovers (st : State) : list string :=
  filter (λ a, ¬ includes (selectedApprovers st) a) (allApprovers st).

Definition availableApprovers (st : State) : list string :=
  DEFAULT_USER :: leftoverApprovers st.

Definition disableActions (st : State) : bool :=
  negb (isProjectInDevelopment (project st)).

(** The [disabled] property of the Add button. *)
Definition addDisabled (st : State) : bool :=
  bool_decide (currentApprover st = DEFAULT_USER) || disableActions st.

Section AddUser.

(** [sortString] of [utils/sort_utils], which is not among the sources: the
    comparator of two strings, here called for the ascending order. *)
Variable sortString : string → string → bool → Z.

Definition addUser (username : string) (st : State) : State :=
  let available := availableApprovers st in
  let index := JsArray.indexOf available username in
  let index :=
    if bool_decide (index = Z.of_nat (length available) - 1)%Z then (index - 1)%Z
    else (index + 1)%Z in
  let st' :=
    if bool_decide (0 ≤ index)%Z && bool_decide (index ≤ Z.of_nat (length available) - 1)%Z
    then
      match available !! Z.to_nat index with
      | Some approver => setCurrentApprover approver st
      | None => st
      end
    else setCurrentApprover DEFAULT_USER st in
  let updatedApprovers := selectedApprovers st ++ [username] in
  let updatedApprovers :=
    JsArray.sort (λ a b, sortString a b false) updatedApprovers in
  setSelectedApprovers updatedApprovers st'.

End AddUser.

(** The array of the selection is changed in place and a copy of it is
    stored; no other value of the state shares the array. *)
Definition removeUser (username : string) (st : State) : State :=
  let index := JsArray.indexOf (selectedApprovers st) username in
  if bool_decide (index < 0)%Z then st
  else setSelectedApprovers (JsArray.spliceOne (Z.to_nat index) (selectedApprovers st)) st.

(** The message under the button, when the page shows one. *)
Definition shownError (v : View) : option string :=
  match v with
  | Page _ errorText => errorText
  | _ => None
  end.

End SubmitPlain.

(** ** The dialogs of the page of a project *)

(** *** FilterFFTDialog *)

Module FilterFFTDialog.

Record State := mkState {
  fcFilter : string;
  fgFilter : string;
  stateFilter : string;
}.

Definition initialState : State := mkState "" "" "".

Definition anyState : string := "---- Any ----".

(** The options of the select of states. *)
Definition availableStates (possibleStates : list DeviceState) : list string :=
  anyState :: (name <$> possibleStates).

(** The arguments [submitSearchForm] gives to [onSubmit]. *)
Definition submitSearchForm (st : State) : string * string * string :=
  (fcFilter st, fgFilter st, stateFilter st).

End FilterFFTDialog.

(** ** The row that edits a device (DeviceDataEditTableRow)

    The row of the page that makes its own requests. A device of that
    version nests its [fft], as the record of the backend does. *)

Module DeviceDataEditTableRow.

(** The inputs of the row. The input of [ray_trace] starts with the number of
    the device and receives the text that is typed. *)
Record State := mkState {
  editTcPartNo : option string;
  editState : string;
  editComments : string;
  editLocZ : option string;
  editLocX : option string;
  editLocY : option string;
  editDimZ : option string;
  editDimX : option string;
  editDimY : option string;
  editAngZ : option string;
  editAngX : option string;
  editAngY : option string;
  editMustRayTrace : JsScalar;
}.

(** The [numberOrDefault] of the row: an input that is empty or was never
    set gives undefined, whatever the default; a text that is no number gives
    the default. *)
Definition numberOrDefault `{Builtins} (value : option string) (defaultVal : option float)
  : option float :=
  match value with
  | None => None
  | Some s =>
      if bool_decide (s = "") then None
      else
        let num := parseFloat s in
        if is_nan num then defaultVal else Some num
  end.

(** [structuredClone] copies the device; the assignments then overwrite the
    fields that the row edits. *)
Definition constructDevice `{Builtins} (device : ProjectDeviceDetailsBackend) (st : State)
  : ProjectDeviceDetailsBackend :=
  let copyDevice := be_fields device in
  {| fft := fft device;
     be_fields :=
       {| tc_part_no :=
            match editTcPartNo st with
            | Some s => if truthy s then s else ""
            | None => ""
            end;
          comments := editComments st;
          state := state copyDevice;
          nom_loc_x := ofOptNumber (numberOrDefault (editLocX st) None);
          nom_loc_y := ofOptNumber (numberOrDefault (editLocY st) None);
          nom_loc_z := ofOptNumber (numberOrDefault (editLocZ st) None);
          nom_dim_x := ofOptNumber (numberOrDefault (editDimX st) None);
          nom_dim_y := ofOptNumber (numberOrDefault (editDimY st) None);
          nom_dim_z := ofOptNumber (numberOrDefault (editDimZ st) None);
          nom_ang_x := ofOptNumber (numberOrDefault (editAngX st) None);
          nom_ang_y := ofOptNumber (numberOrDefault (editAngY st) None);
          nom_ang_z := ofOptNumber (numberOrDefault (editAngZ st) None);
          ray_trace := editMustRayTrace st;
          discussion := discussion copyDevice |} |}.

(** The bounds of a numeric input. *)
Record NumericField := mkNumericField {
  fieldKey : NumericKey;
  fieldMin : option float;
  fieldMax : option float;
}.

Definition numericFields : list NumericField :=
  [ mkNumericField k_nom_loc_z None None;
    mkNumericField k_nom_loc_x None None;
    mkNumericField k_nom_loc_y None None;
    mkNumericField k_nom_dim_z None None;
    mkNumericField k_nom_dim_x None None;
    mkNumericField k_nom_dim_y None None;
    mkNumericField k_nom_ang_z None None;
    mkNumericField k_nom_ang_x None None;
    mkNumericField k_nom_ang_y None None;
    mkNumericField k_ray_trace (Some 0%float) (Some 1%float) ].

(** The values that [onValueChange] gives to the setter of the error flag of
    a field, in the order of the calls, for the number [num] read from the
    input. *)
Definition errCalls (field : NumericField) (num : float) : list bool :=
  if is_nan num then [true]
  else
    [false]
      ++ match fieldMin field with
         | Some min => if (num <? min)%float then [true] else []
         | None => []
         end
      ++ match fieldMax field with
         | Some max => if (max <? num)%float then [true] else []
         | None => []
         end.

(** The error flag of a field after [onValueChange]: the value of the last
    call of its setter. *)
Definition errAfterChange (field : NumericField) (num : float) (err : bool) : bool :=
  default err (last (errCalls field num)).

(** The loop of [allFieldsAreValid] over the error flags of the fields. *)
Fixpoint allFieldsAreValid (errs : list bool) : bool :=
  match errs with
  | [] => true
  | err :: rest => if err then false else allFieldsAreValid rest
  end.

(** The [disabled] property of the button that submits the edits. *)
Definition submitDisabled (errs : list bool) : bool := negb (allFieldsAreValid errs).

End DeviceDataEditTableRow.

(** *** CopyFFTToProjectDialog *)

Module CopyFFTToProjectDialog.

Definition DEFAULT_PROJECT : string := "Please select a project".

(** An element of the array behind the checkboxes: a boolean, [undefined],
    or no element at all at its index. An array that is written beyond its
    end has such gaps. *)
Inductive Slot :=
  | Checked (b : bool)
  | Undefined
  | Empty.

(** [selection[i]]: a boolean, or undefined. *)
Definition read (selection : list Slot) (i : nat) : option bool :=
  match selection !! i with
  | Some (Checked b) => Some b
  | _ => None
  end.

(** Truthiness of [selection[i]]. *)
Definition isSelected (selection : list Slot) (i : nat) : bool :=
  default false (read selection i).

(** [selection.map(_ => b)]: a gap stays a gap. *)
Definition mapTo (b : bool) (selection : list Slot) : list Slot :=
  (λ slot, match slot with Empty => Empty | _ => Checked b end) <$> selection.

(** [[...selection]]: a gap is copied as undefined. *)
Definition spread (selection : list Slot) : list Slot :=
  (λ slot, match slot with Empty => Undefined | _ => slot end) <$> selection.

(** [selection[i] = slot]: beyond the end, the array grows and leaves gaps. *)
Definition assign (i : nat) (slot : Slot) (selection : list Slot) : list Slot :=
  if bool_decide (i < length selection) then <[i := slot]> selection
  else selection ++ replicate (i - length selection) Empty ++ [slot].

(** The effect that clears the checkboxes when the changes change. *)
Definition clearedSelection {A : Type} (changedFFTs : list A) : list Slot :=
  (λ _, Checked false) <$> changedFFTs.

(** The loop of [numOfFFTChanges]. *)
Fixpoint numOfFFTChanges (fftDiffSelection : list Slot) : nat :=
  match fftDiffSelection with
  | [] => 0
  | Checked true :: rest => S (numOfFFTChanges rest)
  | _ :: rest => numOfFFTChanges rest
  end.

Definition allChangesAreSelected (fftDiffSelection : list Slot) : bool :=
  bool_decide (numOfFFTChanges fftDiffSelection = length fftDiffSelection).

(** The handler of the checkbox in the header of the table. *)
Definition toggleAll (fftDiffSelection : list Slot) : list Slot :=
  if allChangesAreSelected fftDiffSelection then mapTo false fftDiffSelection
  else mapTo true fftDiffSelection.

(** The handler of the checkbox of row [i]. *)
Definition toggle (i : nat) (fftDiffSelection : list Slot) : list Slot :=
  let newSelection := spread fftDiffSelection in
  assign i (Checked (negb (isSelected fftDiffSelection i))) newSelection.

(** [changedFFTs.filter((f, i) => fftDiffSelection[i])], from index [i] on. *)
Fixpoint selectedFrom {A : Type} (i : nat) (changedFFTs : list A)
    (fftDiffSelection : list Slot) : list A :=
  match changedFFTs with
  | [] => []
  | f :: rest =>
      if isSelected fftDiffSelection i then f :: selectedFrom (S i) rest fftDiffSelection
      else selectedFrom (S i) rest fftDiffSelection
  end.

Definition selectedChanges {A : Type} (changedFFTs : list A) (fftDiffSelection : list Slot)
  : list A :=
  selectedFrom 0 changedFFTs fftDiffSelection.

Record State := mkState {
  availableProjects : list ProjectInfo;
  selectedProject : string;
  dialogErr : string;
  submitting : bool;
  changedFFTs : list fftDiffBackend;
  fftDiffSelection : list Slot;
}.

Definition setDialogErr (v : string) (st : State) : State :=
  mkState (availableProjects st) (selectedProject st) v (submitting st) (changedFFTs st)
          (fftDiffSelection st).

Definition setSubmitting (v : bool) (st : State) : State :=
  mkState (availableProjects st) (selectedProject st) (dialogErr st) v (changedFFTs st)
          (fftDiffSelection st).

(** The request that copies the chosen attributes of the device [fftId] of the
    project [copyTo] from the project [other_id]. *)
Record CopyRequest := mkCopyRequest {
  copyTo : string;
  fftIdToCopyTo : string;
  other_id : string;
  attrnames : list string;
}.

(** What a call of [submit] does: it returns, having sent some requests, or
    it throws, when no available project has the selected name and the id of
    the project is read from undefined. *)
Inductive Submitted :=
  | Returned (st : State) (requests : list CopyRequest)
  | Threw (st : State).

Section Submit.

(** [parseFftFieldNameFromFftDiff] of the version of the model this dialog
    imports, which is not among the sources. *)
Variable parseFftFieldNameFromFftDiff : fftDiffBackend → string.

Definition submit (currentProject : ProjectInfo) (FFT : ProjectFFT) (st : State) : Submitted :=
  if bool_decide (selectedProject st = DEFAULT_PROJECT)
  then Returned (setDialogErr "Invalid project selected" st) []
  else if bool_decide (length (changedFFTs st) = 0)
  then Returned
         (setDialogErr "Can't copy from unknown changed ffts: this is a programming bug" st)
         []
  else
    let st := setSubmitting true st in
    match filter (λ p, prj_name p = selectedProject st) (availableProjects st) with
    | [] => Threw st
    | project :: _ =>
        let projectIdToCopyFrom := prj_id project in
        let attributeNames :=
          parseFftFieldNameFromFftDiff
            <$> selectedChanges (changedFFTs st) (fftDiffSelection st) in
        Returned st [ {| copyTo := prj_id currentProject;
                         fftIdToCopyTo := fft_id FFT;
                         other_id := projectIdToCopyFrom;
                         attrnames := attributeNames |} ]
    end.

End Submit.

(** The [disabled] property of the button that copies. *)
Definition copyDisabled (st : State) : bool :=
  bool_decide (selectedProject st = DEFAULT_PROJECT)
  || bool_decide (numOfFFTChanges (fftDiffSelection st) = 0).

(** The projects offered by the dialog, computed when it opens: the
    submitted projects other than the current one. *)
Definition offeredProjects (currentProject : ProjectInfo) (projects : list ProjectInfo)
  : list ProjectInfo :=
  filter (λ p, prj_name p ≠ prj_name currentProject)
         (filter (λ p, Is_true (isProjectSubmitted (Some p))) projects).

Definition projectNames (allProjects : list ProjectInfo) : list string :=
  DEFAULT_PROJECT :: (prj_name <$> allProjects).

End CopyFFTToProjectDialog.

(** ** The dialog that creates a project (AddProjectDialog) *)

Module AddProjectDialog.

Definition DEFAULT_TEMPLATE : string := "Blank Project".

Record State := mkState {
  selectedTemplate : string;
  projectName : string;
  description : string;
  dialogError : string;
  isSubmitting : bool;
}.

Definition initialState : State := mkState DEFAULT_TEMPLATE "" "" "" false.

Definition setDialogError (v : string) (st : State) : State :=
  mkState (selectedTemplate st) (projectName st) (description st) v (isSubmitting st).

Definition setIsSubmitting (v : bool) (st : State) : State :=
  mkState (selectedTemplate st) (projectName st) (description st) (dialogError st) v.

(** The request that clones a project: its address and the two fields of its
    body. *)
Record CloneRequest := mkCloneRequest {
  projectUrl : string;
  bodyName : string;
  bodyDescription : string;
}.

Definition submit (st : State) : State * list CloneRequest :=
  if negb (truthy (projectName st))
  then (setDialogError "Project name should not be empty" st, [])
  else
    let st := setDialogError "" st in
    let projectUrl :=
      if bool_decide (selectedTemplate st = DEFAULT_TEMPLATE)
      then "/ws/projects/NewBlankProjectClone/clone/"
      else "/ws/projects/" +:+ selectedTemplate st +:+ "/clone/" in
    let st := setIsSubmitting true st in
    (st, [ {| projectUrl := projectUrl;
              bodyName := projectName st;
              bodyDescription := description st |} ]).

(** The handlers of the promise of the request; a project that was created
    is handed to the page. *)
Definition submitSettled (response : Settled ProjectInfo) (st : State)
  : State * option ProjectInfo :=
  let (st, created) :=
    match response with
    | Resolved newProjectInfo => (st, Some newProjectInfo)
    | Rejected e => (setDialogError ("Failed to create a new project: " +:+ error e) st, None)
    end in
  (setIsSubmitting false st, created).

End AddProjectDialog.

(** ** Notions used to state the properties *)

(** The approvers of a project: none for a project without the field. *)
Definition approverList (project : ProjectInfo) : list string :=
  default [] (prj_approvers project).

(** A project that the list of all projects shows: any project but the
    master project, and the master project once it is approved. *)
Definition visibleProject (p : ProjectInfo) : Prop :=
  prj_name p ≠ MASTER_PROJECT_NAME ∨ prj_status p = "approved".

#[global] Instance visibleProject_dec (p : ProjectInfo) : Decision (visibleProject p).
Proof. unfold visibleProject. apply _. Defined.

(** The part of a string before its first dot: the whole string when it has
    no dot. *)
Fixpoint beforeFirstDot (s : string) : string :=
  match s with
  | EmptyString => EmptyString
  | String c rest => if bool_decide (c = "."%char) then EmptyString
                     else String c (beforeFirstDot rest)
  end.

(** The part of a string after its first dot, when it has a dot. *)
Fixpoint afterFirstDot (s : string) : option string :=
  match s with
  | EmptyString => None
  | String c rest => if bool_decide (c = "."%char) then Some rest
                     else afterFirstDot rest
  end.

(** Whether a character occurs in a string. *)
Fixpoint occurs (c : ascii) (s : string) : Prop :=
  match s with
  | EmptyString => False
  | String c' rest => c' = c ∨ occurs c rest
  end.

(** Whether a call of [parseFftFieldsFromDiff] throws. *)
Definition throws {A E : Type} (r : A + E) : Prop := ∃ e, r = inr e.

(** The record of the backend as the JSON that was received: [fft] is an
    object of its own, a numeric field that is absent is no member, and the
    time of a comment is the string that was sent. *)
Definition wireScalar (v : JsScalar) : option Json :=
  match v with
  | JUndefined => None
  | JNumber x => Some (JsonNumber x)
  | JString s => Some (JsonString s)
  end.

Definition wireTime (v : JsTime) : Json :=
  match v with
  | TimeString s => JsonString s
  | TimeDate t => JsonIsoDate t
  end.

Definition wireComment (comment : ChangeComment) : Json :=
  JsonObject [ ("id", JsonString (cc_id comment));
               ("author", JsonString (cc_author comment));
               ("time", wireTime (cc_time comment));
               ("comment", JsonString (cc_comment comment)) ].

Definition wireRecord (w : ProjectDeviceDetailsBackend) : list (string * Json) :=
  [ ("fft", JsonObject [ ("_id", JsonString (fft_id (fft w)));
                         ("fc", JsonString (fft_fc (fft w)));
                         ("fg", JsonString (fft_fg (fft w))) ]) ]
  ++ omap (λ k, pair (keyName k) <$> wireScalar (getScalar (be_fields w) k)) scalarKeys
  ++ match discussion (be_fields w) with
     | Some thread => [ ("discussion", JsonArray (wireComment <$> thread)) ]
     | None => []
     end.

(** What the round trip of a record of the backend writes under a key. *)
Definition written `{Builtins} (w : ProjectDeviceDetailsBackend) (name : string)
  : option Json :=
  property name (membersOf (roundTrip w)).

(** The round trip of a record of the backend gives back the record: under
    every key it writes what was received under that key. *)
Definition roundTripReproduces `{Builtins} (w : ProjectDeviceDetailsBackend) : Prop :=
  ∀ name, written w name = property name (wireRecord w).

(** What the round trip makes of a numeric field of the backend. *)
Definition numericRoundTrip `{Builtins} (v : JsScalar) : Json :=
  match v with
  | JNumber x => stringifyNumber x
  | JString s =>
      if bool_decide (s = "") then JsonString "" else stringifyNumber (parseFloat s)
  | JUndefined => JsonString ""
  end.

(** A record of the backend with the backend name of a state and empty
    numeric fields. *)
Definition nonOperationalDevice : ProjectDeviceDetailsBackend :=
  {| fft := mkProjectFFT "d1" "fc1" "fg1";
     be_fields :=
       {| tc_part_no := "PN-1"; comments := ""; state := "NonOperational";
          nom_ang_x := JString ""; nom_ang_y := JString ""; nom_ang_z := JString "";
          nom_dim_x := JString ""; nom_dim_y := JString ""; nom_dim_z := JString "";
          nom_loc_x := JString ""; nom_loc_y := JString ""; nom_loc_z := JString "";
          ray_trace := JString ""; discussion := None |} |}.

(** A page of devices that has loaded one device. *)
Definition pageWithOneDevice : ProjectSpecificPage.State ProjectDeviceDetailsBackend :=
  ProjectSpecificPage.mkState _ false "" None [nonOperationalDevice] [nonOperationalDevice]
                              "" "" "".

Definition detailsWithOneDevice : ProjectDetails.State :=
  let device := mkProjectDeviceDetails "d1" "fc1" "fg1" (be_fields nonOperationalDevice) in
  ProjectDetails.mkState false "" None [device] [device] "alice" "" "" "" "".

(** The user is the owner of the project or one of its editors. *)
Definition ownerOrEditor (a : ProjectInfo) (user : string) : Prop :=
  prj_owner a = user ∨ user ∈ prj_editors a.

(** A request that submits a project for approval. *)
Definition sendsSubmit (r : SubmitProjectForApproval.Request) : bool :=
  match r with
  | SubmitProjectForApproval.submitForApproval _ _ _ => true
  | SubmitProjectForApproval.editProject _ _ => false
  end.

(** The page shows a button whose click submits the project. *)
Definition submitOffered (v : SubmitProjectForApproval.View) : bool :=
  existsb (λ b, bool_decide (onClick b = SubmitProjectForApproval.SubmitButtonClicked))
          (SubmitProjectForApproval.buttons v).

Definition exampleProject (status : string) : ProjectInfo :=
  {| prj_id := "p1"; prj_name := "Hutch upgrade"; prj_description := "";
     prj_owner := "alice"; prj_editors := ["bob"];
     prj_creation_time := TimeString "2024-05-01T10:00:00.000Z"; prj_edit_time := None;
     prj_status := status; prj_approvers := None; prj_approved_by := None;
     prj_approved_time := None; prj_submitted_time := None; prj_submitter := None;
     prj_notes := Some [] |}.

(** The master project with a given status. *)
Definition masterProject (status : string) : ProjectInfo :=
  {| prj_id := "m"; prj_name := MASTER_PROJECT_NAME; prj_description := "";
     prj_owner := "root"; prj_editors := [];
     prj_creation_time := TimeString "2023-11-20T08:30:00.000Z"; prj_edit_time := None;
     prj_status := status; prj_approvers := None; prj_approved_by := None;
     prj_approved_time := None; prj_submitted_time := None; prj_submitter := None;
     prj_notes := None |}.

(** The page of [exampleProject] once loaded, for a user and the approvers
    selected so far. *)
Definition examplePage (status user : string) (selected : list string)
  : SubmitProjectForApproval.State :=
  {| SubmitProjectForApproval.loading_ := false;
     SubmitProjectForApproval.loadError := "";
     SubmitProjectForApproval.project := Some (exampleProject status);
     SubmitProjectForApproval.diff := Some (mkProjectFftDiff (Some (exampleProject status)));
     SubmitProjectForApproval.loggedInUser := user;
     SubmitProjectForApproval.allApprovers := ["carol"; "dave"];
     SubmitProjectForApproval.selectedApprovers := selected;
     SubmitProjectForApproval.allEditors := ["bob"; "erin"];
     SubmitProjectForApproval.selectedEditors := ["bob"];
     SubmitProjectForApproval.superApprovers := [];
     SubmitProjectForApproval.submittingForm := false;
     SubmitProjectForApproval.submitError := "";
     SubmitProjectForApproval.editEditorsError := "" |}.

(** A key of a diff that parses: something follows its first dot. *)
Definition validDiffKey (d : fftDiffBackend) : Prop :=
  ∃ c r, afterFirstDot (key d) = Some (String c r).

(** What [fetchProjectDiff] makes of an entry whose key parses. *)
Definition diffOfEntry (d : fftDiffBackend) : FFTDiff :=
  {| fd_diff := diff d;
     fftId := beforeFirstDot (key d);
     fieldName := default "" (afterFirstDot (key d));
     fd_my := my d;
     fd_other := ot d |}.

(** The normal form of a numeric field: a number, or undefined. *)
Definition normalizedNumber `{Builtins} (v : JsScalar) : JsScalar :=
  ofOptNumber (numberOrDefault v None).

(** The normal form of an optional time field. *)
Definition normalizedTime `{Builtins} (v : option JsTime) : option JsTime :=
  if truthyTime v then newDate <$> v else v.

(** A comparator of strings for closed examples: the order of the codes of
    the characters, reversed when [desc] is set. *)
Definition byCharacterCodes (a b : string) (desc : bool) : Z :=
  match String.compare a b with
  | Lt => if desc then 1 else -1
  | Eq => 0
  | Gt => if desc then -1 else 1
  end.

(** The page of [exampleProject], in the version that selects approvers one
    at a time, with two approvers to choose from. *)
Definition examplePlainPage (status : string) (selected : list string) : SubmitPlain.State :=
  {| SubmitPlain.loading_ := false;
     SubmitPlain.loadError := "";
     SubmitPlain.project := Some (exampleProject status);
     SubmitPlain.diff := Some (mkProjectFftDiff (Some (exampleProject status)));
     SubmitPlain.allApprovers := ["carol"; "dave"];
     SubmitPlain.currentApprover := "carol";
     SubmitPlain.selectedApprovers := selected;
     SubmitPlain.superApprovers := [];
     SubmitPlain.submittingForm := false;
     SubmitPlain.submitError := "" |}.

(** The state of the page that selects approvers one at a time after a load
    in which the three requests succeed. *)
Definition plainLoaded `{Builtins} (p : ProjectInfo) (backendApprovers : list string)
    (d : ProjectFftDiff) (st : SubmitPlain.State) : SubmitPlain.State :=
  SubmitPlain.loadSettled
    (SubmitPlain.fetchData (Resolved p) (Resolved backendApprovers) (Resolved d)) st.


(** A numeric field holds what was typed into an input: nothing for an input
    that was never set, is empty or holds no number, and the number that the
    text reads as otherwise. *)
Definition holdsInput `{Builtins} (input : option string) (field : JsScalar) : Prop :=
  match input with
  | None => field = JUndefined
  | Some typed =>
      if bool_decide (typed = "") then field = JUndefined
      else if is_nan (parseFloat typed) then field = JUndefined
      else field = JNumber (parseFloat typed)
  end.

(** The state of a page whose load failed with [e]. *)
Definition plainLoadFailed (e : JsonErrorMsg) (st : SubmitPlain.State) : SubmitPlain.State :=
  SubmitPlain.setLoading false (SubmitPlain.setLoadError (error e) st).

(** The message of a submit that failed with [e]. *)
Definition submitFailedMessage (e : JsonErrorMsg) : string :=
  "Failed to submit a project for approval: " +:+ error e.

(** The ids of the devices of a list, in order. *)
Definition deviceIds (devices : list ProjectDeviceDetails) : list string :=
  dev_id <$> devices.

(** A device passes the filters of the page: each filter that is set accepts
    it. *)
Definition passesFilters (glob : string → string → bool)
    (st : ProjectSpecificPage.State ProjectDeviceDetailsBackend)
    (d : ProjectDeviceDetailsBackend) : Prop :=
  (ProjectSpecificPage.fcFilter st = ""
   ∨ glob (ProjectSpecificPage.fcFilter st) (fft_fc (fft d)) = true)
  ∧ (ProjectSpecificPage.fgFilter st = ""
     ∨ glob (ProjectSpecificPage.fgFilter st) (fft_fg (fft d)) = true)
  ∧ (ProjectSpecificPage.stateFilter st = ""
     ∨ state (be_fields d) = ProjectSpecificPage.stateFilter st).

(** An array of checkboxes in which every element is a boolean. *)
Definition allChecked (selection : list CopyFFTToProjectDialog.Slot) : Prop :=
  Forall (λ slot, ∃ b, slot = CopyFFTToProjectDialog.Checked b) selection.

(** * Properties *)

(** ** Splitting and joining strings *)

Section SplitJoin.
Variable sep : ascii.

Lemma split_nonempty (s : string) : split sep s ≠ [].
Proof.
  destruct s as [|c rest]; simpl; [done|].
  case_bool_decide; [done|]. by destruct (split sep rest).
Qed.

Lemma join_cons (sepStr piece : string) (pieces : list string) :
  pieces ≠ [] → join sepStr (piece :: pieces) = piece +:+ sepStr +:+ join sepStr pieces.
Proof. by destruct pieces. Qed.

(** Joining the pieces of a string with the separator gives the string back. *)
Lemma join_split (s : string) : join (String sep "") (split sep s) = s.
Proof.
  induction s as [|c rest IH]; [done|].
  pose proof (split_nonempty rest) as Hne.
  cbn [split]. case_bool_decide as Hc.
  - subst c. rewrite join_cons by done. by rewrite IH.
  - destruct (split sep rest) as [|piece pieces]; [done|].
    destruct pieces as [|piece' pieces].
    + cbn in *. by rewrite IH.
    + rewrite join_cons by done. rewrite join_cons in IH by done.
      by rewrite <- IH.
Qed.

End SplitJoin.

Lemma beforeFirstDot_no_dot (s : string) : ¬ occurs "." (beforeFirstDot s).
Proof.
  induction s as [|c rest IH]; simpl; [tauto|].
  case_bool_decide; simpl; tauto.
Qed.

Lemma afterFirstDot_None (s : string) : afterFirstDot s = None ↔ ¬ occurs "." s.
Proof.
  induction s as [|c rest IH]; simpl; [tauto|].
  case_bool_decide; [|tauto]. split; [done|tauto].
Qed.

Lemma afterFirstDot_Some (s r : string) :
  afterFirstDot s = Some r → s = beforeFirstDot s +:+ "." +:+ r.
Proof.
  induction s as [|c rest IH]; simpl; [done|].
  case_bool_decide as Hc.
  - intros [= ->]. by subst c.
  - intros Hr. rewrite (IH Hr) at 1. reflexivity.
Qed.

Lemma afterFirstDot_None_whole (s : string) : afterFirstDot s = None → beforeFirstDot s = s.
Proof.
  induction s as [|c rest IH]; simpl; [done|].
  case_bool_decide; [done|]. intros Hr. by rewrite IH.
Qed.

(** The pieces of a string split at its dots: the part before the first dot,
    then the pieces of what follows that dot. *)
Lemma split_first_dot (s : string) :
  split "." s =
    beforeFirstDot s ::
    match afterFirstDot s with
    | Some r => split "." r
    | None => []
    end.
Proof.
  induction s as [|c rest IH]; simpl; [done|].
  case_bool_decide; [done|]. by rewrite IH.
Qed.

(** The name of the field that [parseFftFieldsFromDiff] computes is what
    follows the first dot of the key. *)
Lemma join_rest_first_dot (s : string) :
  match split "." s with
  | id :: rest => id = beforeFirstDot s ∧ join "." rest = default "" (afterFirstDot s)
  | [] => False
  end.
Proof.
  rewrite split_first_dot. split; [done|].
  destruct (afterFirstDot s) as [r|]; [|done]. apply join_split.
Qed.


(** ** Approvers of a project *)

Lemma includes_true (l : list string) (x : string) : includes l x = true ↔ x ∈ l.
Proof. unfold includes. by rewrite bool_decide_eq_true. Qed.

Lemma approversInclude_true (project : ProjectInfo) (username : string) :
  approversInclude project username = true ↔ username ∈ approverList project.
Proof.
  unfold approversInclude, approverList.
  destruct (prj_approvers project) as [approvers|]; simpl.
  - apply includes_true.
  - split; [done|]. by intros ?%elem_of_nil.
Qed.

(** C1: [isUserAProjectApprover] holds exactly for a submitted project and a
    user that is one of its approvers or has the empty name; it fails for
    every user of a project in development, and holds for every approver of
    a submitted project. *)
Theorem isUserAProjectApprover_iff (project : ProjectInfo) (username : string) :
  (isUserAProjectApprover project username = true ↔
     prj_status project = "submitted" ∧
     (username ∈ approverList project ∨ username = ""))
  ∧ (prj_status project = "development" →
     isUserAProjectApprover project username = false)
  ∧ (prj_status project = "submitted" → username ∈ approverList project →
     isUserAProjectApprover project username = true).
Proof.
  assert (isUserAProjectApprover project username = true ↔
            prj_status project = "submitted" ∧
            (username ∈ approverList project ∨ username = "")) as Hiff.
  { unfold isUserAProjectApprover, isProjectSubmitted.
    case_bool_decide as Hst.
    - destruct (approversInclude project username) eqn:Hinc; simpl.
      + apply approversInclude_true in Hinc. tauto.
      + case_bool_decide as Hu; [tauto|].
        split; [done|]. intros [_ [Hin|Hempty]]; [|done].
        apply approversInclude_true in Hin. congruence.
    - split; [done|]. tauto. }
  split; [exact Hiff|]. split.
  - intros Hdev. apply not_true_is_false. rewrite Hiff, Hdev.
    intros [Hst _]. discriminate Hst.
  - intros Hst Hin. apply Hiff. tauto.
Qed.

(** ** The list of all projects *)

Lemma pushVisibleProject_filter (pArr : list ProjectInfo) (p : ProjectInfo) :
  pushVisibleProject pArr p = pArr ++ filter visibleProject [p].
Proof.
  unfold pushVisibleProject, isProjectApproved.
  rewrite filter_cons, filter_nil. unfold visibleProject.
  case_bool_decide as Hname.
  - rewrite decide_True by tauto. done.
  - case_bool_decide as Hst.
    + rewrite decide_True by tauto. done.
    + rewrite decide_False by tauto. by rewrite app_nil_r.
Qed.

(** The loop of [fetchAllProjectsInfo] keeps the visible projects, in order. *)
Lemma foldl_pushVisibleProject (projects pArr : list ProjectInfo) :
  foldl pushVisibleProject pArr projects = pArr ++ filter visibleProject projects.
Proof.
  revert pArr. induction projects as [|p projects IH]; intros pArr; simpl.
  - by rewrite filter_nil, app_nil_r.
  - rewrite IH, pushVisibleProject_filter, <- app_assoc.
    f_equal. rewrite !filter_cons. by destruct (decide (visibleProject p)).
Qed.

Lemma transformProjectForFrontendUse_name `{Builtins} (p : ProjectInfo) :
  prj_name (transformProjectForFrontendUse p) = prj_name p.
Proof. reflexivity. Qed.

Lemma transformProjectForFrontendUse_status `{Builtins} (p : ProjectInfo) :
  prj_status (transformProjectForFrontendUse p) = prj_status p.
Proof. reflexivity. Qed.

(** C5: the result of [fetchAllProjectsInfo] is the backend list, in order
    and transformed for the frontend, without the master project unless it
    is approved: the master project is in the result iff its status is
    approved, and a project with another name always is. *)
Theorem fetchAllProjectsInfo_master_visibility `{Builtins} (projects : list ProjectInfo) :
  fetchAllProjectsInfo (Resolved projects) =
    Resolved (transformProjectForFrontendUse <$> filter visibleProject projects)
  ∧ ∀ p, p ∈ projects →
      (prj_name p = MASTER_PROJECT_NAME →
         (transformProjectForFrontendUse p ∈
            transformProjectForFrontendUse <$> filter visibleProject projects
          ↔ prj_status p = "approved"))
      ∧ (prj_name p ≠ MASTER_PROJECT_NAME →
         transformProjectForFrontendUse p ∈
           transformProjectForFrontendUse <$> filter visibleProject projects).
Proof.
  split.
  - unfold fetchAllProjectsInfo. simpl. by rewrite foldl_pushVisibleProject.
  - intros p Hp. split.
    + intros Hname. rewrite list_elem_of_fmap. split.
      * intros (q & Heq & [Hq _]%list_elem_of_filter).
        pose proof (f_equal prj_name Heq) as Hn.
        pose proof (f_equal prj_status Heq) as Hs.
        rewrite !transformProjectForFrontendUse_name in Hn.
        rewrite !transformProjectForFrontendUse_status in Hs.
        destruct Hq as [Hq|Hq]; congruence.
      * intros Hst. exists p. split; [done|].
        apply list_elem_of_filter. split; [by right|done].
    + intros Hname. apply list_elem_of_fmap. exists p. split; [done|].
      apply list_elem_of_filter. split; [by left|done].
Qed.

(** ** The approvers that can be selected *)

(** C10: for a supplied, non-empty owner [fetchProjectApprovers] returns the
    backend list without the entries equal to the owner, so that the owner is
    not in the result and every other entry is; without an owner it returns
    the backend list unchanged. *)
Theorem fetchProjectApprovers_removes_owner (approvers : list string) (owner : string)
    (Howner : owner ≠ "") :
  fetchProjectApprovers (Some owner) (Resolved approvers) =
    Resolved (filter (λ username, username ≠ owner) approvers)
  ∧ (owner ∉ filter (λ username, username ≠ owner) approvers)
  ∧ (∀ username, username ∈ filter (λ username, username ≠ owner) approvers ↔
                 username ∈ approvers ∧ username ≠ owner)
  ∧ fetchProjectApprovers None (Resolved approvers) = Resolved approvers.
Proof.
  split; [|split; [|split]].
  - unfold fetchProjectApprovers, truthy. simpl.
    by rewrite bool_decide_eq_false_2.
  - by intros [Hne _]%list_elem_of_filter.
  - intros username. rewrite list_elem_of_filter. tauto.
  - reflexivity.
Qed.

Lemma fetchProjectApprovers_removes_owner_witness :
  "alice" ≠ "" ∧
  fetchProjectApprovers (Some "alice") (Resolved ["bob"; "alice"; "carol"; "alice"]) =
    Resolved ["bob"; "carol"].
Proof.
  split; [done|].
  exact (proj1 (fetchProjectApprovers_removes_owner
                  ["bob"; "alice"; "carol"; "alice"] "alice" ltac:(done))).
Defined.

(** ** Numeric fields of a device *)

(** C8: normalizing a numeric field twice is normalizing it once. *)
Theorem numberOrDefault_idempotent `{Builtins} (input : JsScalar) :
  numberOrDefault (ofOptNumber (numberOrDefault input None)) None =
    numberOrDefault input None.
Proof.
  destruct input as [|x|s]; simpl; [done..|].
  by case_bool_decide.
Qed.

Lemma NumericKey_all (k : NumericKey) : k ∈ ProjectDeviceDetailsNumericKeys.
Proof.
  destruct k; unfold ProjectDeviceDetailsNumericKeys; simpl;
    repeat first [apply list_elem_of_here | apply list_elem_of_further].
Qed.

(** Each numeric field after the transformation is the normalized value of
    the field before it. *)
Lemma transformProjectDeviceDetails_getNumeric `{Builtins}
    (device : deviceDetailFields) (k : NumericKey) :
  getNumeric (transformProjectDeviceDetails device) k =
    ofOptNumber (numberOrDefault (getNumeric device k) None).
Proof.
  unfold transformProjectDeviceDetails. cbn [ProjectDeviceDetailsNumericKeys
    ProjectDevicePositionKeys app foldl].
  destruct device as [tc cm st ax ay az dx dy dz lx ly lz rt disc].
  destruct disc; destruct k; reflexivity.
Qed.

(** C3: after [transformProjectDeviceDetails] a numeric field that arrived
    as the empty string is undefined and is no number, zero included; one
    that arrived as a non-empty string holds the number it parses to; one
    that arrived as a number holds that number. The keys concerned are all the
    numeric keys, and the record of the frontend is built by this
    transformation. *)
Theorem transformProjectDeviceDetails_numeric `{Builtins}
    (details : ProjectDeviceDetailsBackend) (k : NumericKey) :
  k ∈ ProjectDeviceDetailsNumericKeys
  ∧ dev_fields (deviceDetailsBackendToFrontend details) =
      transformProjectDeviceDetails (be_fields details)
  ∧ (getNumeric (be_fields details) k = JString "" →
       getNumeric (transformProjectDeviceDetails (be_fields details)) k = JUndefined
       ∧ getNumeric (transformProjectDeviceDetails (be_fields details)) k ≠ JNumber 0
       ∧ ∀ x, getNumeric (transformProjectDeviceDetails (be_fields details)) k ≠ JNumber x)
  ∧ (∀ s, getNumeric (be_fields details) k = JString s → s ≠ "" →
       getNumeric (transformProjectDeviceDetails (be_fields details)) k =
         JNumber (parseFloat s))
  ∧ (∀ x, getNumeric (be_fields details) k = JNumber x →
       getNumeric (transformProjectDeviceDetails (be_fields details)) k = JNumber x).
Proof.
  split; [apply NumericKey_all|]. split; [reflexivity|].
  rewrite transformProjectDeviceDetails_getNumeric.
  split; [|split].
  - intros ->. simpl. split; [done|]. split; [done|]. by intros x.
  - intros s -> Hs. simpl. by rewrite bool_decide_eq_false_2.
  - by intros x ->.
Qed.

(** ** Keys of a diff *)

(** C2: [parseFftFieldsFromDiff] splits the key at its first dot only: the
    id is what precedes that dot and the name of the field all that follows
    it, dots included; it throws exactly when nothing follows the first dot,
    which includes a key without a dot. *)
Theorem parseFftFieldsFromDiff_first_dot (d : fftDiffBackend) :
  parseFftFieldsFromDiff d =
    match afterFirstDot (key d) with
    | Some (String c r) =>
        inl {| parsed_id := beforeFirstDot (key d); parsed_field := String c r |}
    | Some EmptyString | None => inr (invalidDiffKeyMessage (key d))
    end
  ∧ (throws (parseFftFieldsFromDiff d) ↔
       afterFirstDot (key d) = None ∨ afterFirstDot (key d) = Some "")
  ∧ (∀ diff my ot,
       parseFftFieldsFromDiff (mkFftDiffBackend diff "abc123.nom_loc_x" my ot) =
         inl {| parsed_id := "abc123"; parsed_field := "nom_loc_x" |})
  ∧ (∀ diff my ot,
       parseFftFieldsFromDiff (mkFftDiffBackend diff "abc123.fft.xyz" my ot) =
         inl {| parsed_id := "abc123"; parsed_field := "fft.xyz" |}).
Proof.
  assert (parseFftFieldsFromDiff d =
            match afterFirstDot (key d) with
            | Some (String c r) =>
                inl {| parsed_id := beforeFirstDot (key d); parsed_field := String c r |}
            | Some EmptyString | None => inr (invalidDiffKeyMessage (key d))
            end) as Heq.
  { unfold parseFftFieldsFromDiff.
    pose proof (join_rest_first_dot (key d)) as Hsplit.
    destruct (split "." (key d)) as [|id rest]; [done|].
    destruct Hsplit as [-> ->].
    by destruct (afterFirstDot (key d)) as [[|c r]|]. }
  split; [exact Heq|]. split; [|split; reflexivity].
  rewrite Heq. unfold throws.
  destruct (afterFirstDot (key d)) as [[|c r]|].
  - split; [by right|]. by eexists.
  - split; [by intros [e ?]|]. by intros [|].
  - split; [by left|]. by eexists.
Qed.

(** ** The model on small inputs *)

Section Examples.
Context `{Builtins}.

Example numberOrDefault_empty : numberOrDefault (JString "") None = None.
Proof. reflexivity. Qed.

Example numberOrDefault_zero : numberOrDefault (JNumber 0) None = Some 0%float.
Proof. reflexivity. Qed.

Example numberOrDefault_text : numberOrDefault (JString "12.5") None = Some (parseFloat "12.5").
Proof. reflexivity. Qed.

Example fromString_backend_name :
  name (DeviceState.fromString "ReadyForInstallation") = "Ready For Installation".
Proof. reflexivity. Qed.

Example fromString_unknown : DeviceState.fromString "Broken" = DeviceState.UnknownState.
Proof. reflexivity. Qed.

Example split_dots : split "." "abc123.fft.xyz" = ["abc123"; "fft"; "xyz"].
Proof. reflexivity. Qed.

Example parse_trailing_dot :
  parseFftFieldsFromDiff (mkFftDiffBackend true "abc123." JUndefined JUndefined) =
    inr (invalidDiffKeyMessage "abc123.").
Proof. reflexivity. Qed.

Example approver_without_name :
  isUserAProjectApprover (exampleProject "submitted") "" = true.
Proof. reflexivity. Qed.

Example master_in_development_hidden :
  fetchAllProjectsInfo
    (Resolved [masterProject "development"; exampleProject "development";
               masterProject "approved"])
  = Resolved (transformProjectForFrontendUse <$>
                [exampleProject "development"; masterProject "approved"]).
Proof. reflexivity. Qed.

End Examples.

(** ** A device record sent back *)

(** Under the key of a scalar field the round trip writes the field of the
    transformed record. *)
Lemma written_scalar `{Builtins} (w : ProjectDeviceDetailsBackend) (k : ScalarKey) :
  written w (keyName k) =
    Some (syncStringify
            (scalarValue (getScalar (transformProjectDeviceDetails (be_fields w)) k))).
Proof.
  unfold written, roundTrip, deviceDetailsBackendToFrontend, frontendObject.
  cbn [dev_fields dev_id dev_fc dev_fg].
  generalize (transformProjectDeviceDetails (be_fields w)). intros d.
  destruct k as [| | |n]; [..|destruct n]; reflexivity.
Qed.

Lemma transformProjectDeviceDetails_strings `{Builtins} (device : deviceDetailFields) :
  tc_part_no (transformProjectDeviceDetails device) = tc_part_no device
  ∧ comments (transformProjectDeviceDetails device) = comments device
  ∧ state (transformProjectDeviceDetails device) =
      name (DeviceState.fromString (state device)).
Proof.
  unfold transformProjectDeviceDetails.
  destruct device as [tc cm st ax ay az dx dy dz lx ly lz rt disc].
  by destruct disc.
Qed.

Lemma transformProjectDeviceDetails_discussion `{Builtins} (device : deviceDetailFields) :
  discussion (transformProjectDeviceDetails device) =
    (λ thread : list ChangeComment, transformComment <$> thread) <$> discussion device.
Proof.
  unfold transformProjectDeviceDetails.
  destruct device as [tc cm st ax ay az dx dy dz lx ly lz rt disc].
  by destruct disc.
Qed.

(** A display name denotes the state that carries it. *)
Lemma fromString_name (s : DeviceState) :
  s ∈ DeviceState.allStates → DeviceState.fromString (name s) = s.
Proof.
  unfold DeviceState.allStates. rewrite !elem_of_cons, elem_of_nil.
  intros Hs. repeat (destruct Hs as [->|Hs]; [reflexivity|]). done.
Qed.

(** What is written after the scalar fields: the discussion, when there is
    one, and the three fields that [fft] was flattened into. *)
Lemma written_rest `{Builtins} (w : ProjectDeviceDetailsBackend) :
  written w "fft" = None
  ∧ written w "id" = Some (JsonString (fft_id (fft w)))
  ∧ written w "fc" = Some (JsonString (fft_fc (fft w)))
  ∧ written w "fg" = Some (JsonString (fft_fg (fft w)))
  ∧ written w "discussion" =
      (λ thread, JsonArray ((λ c, syncStringify (commentObject (transformComment c)))
                              <$> thread))
        <$> discussion (be_fields w).
Proof.
  pose proof (transformProjectDeviceDetails_discussion (be_fields w)) as Hdiscussion.
  unfold written, roundTrip, deviceDetailsBackendToFrontend, frontendObject.
  cbn [dev_fields dev_id dev_fc dev_fg].
  revert Hdiscussion. generalize (transformProjectDeviceDetails (be_fields w)).
  intros d ->.
  destruct (discussion (be_fields w)) as [thread|]; cbn [fmap option_fmap option_map].
  - repeat split; try reflexivity.
    cbn. by rewrite <- !list_fmap_compose.
  - repeat split; reflexivity.
Qed.

(** The round trip does not give back the record that was received,
    whatever the parsers of the platform are: for this record it writes the
    display name of the state in place of its backend name, and [id], [fc]
    and [fg] in place of [fft]. *)
Lemma roundTrip_renames_state : ¬ ∃ B : Builtins, @roundTripReproduces B nonOperationalDevice.
Proof. intros [B Hall]. specialize (Hall "state"). discriminate Hall. Qed.

(** C9, as the code has it: the round trip writes no [fft] but [id], [fc]
    and [fg]; it gives back [tc_part_no] and [comments]; [state] is written
    as the display name of the state it denotes, so unchanged when it was a
    display name, and the row that edits a device sends a state that changed
    translated to its backend name, which for a display name read from the
    backend name of a listed state is that backend name. A numeric field
    that arrived as the empty string or was absent is written as the empty
    string; one that arrived as a number is written as that number when it
    is finite and not zero, as 0 when it is a zero and as null when it is
    not finite; one that arrived as a non-empty string is written the way
    the number parsed from it is. A discussion that was absent is not written;
    the comments of one that was sent keep their id, author and text, and
    their time is written as the ISO string of the date parsed from it, or
    as null when that date is invalid. *)
Theorem roundTrip_fields `{Builtins} (w : ProjectDeviceDetailsBackend) :
  (written w "fft" = None
   ∧ written w "id" = Some (JsonString (fft_id (fft w)))
   ∧ written w "fc" = Some (JsonString (fft_fc (fft w)))
   ∧ written w "fg" = Some (JsonString (fft_fg (fft w))))
  ∧ written w "tc_part_no" = Some (JsonString (tc_part_no (be_fields w)))
  ∧ written w "comments" = Some (JsonString (comments (be_fields w)))
  ∧ written w "state" =
      Some (JsonString (name (DeviceState.fromString (state (be_fields w)))))
  ∧ (∀ s, s ∈ DeviceState.allStates → state (be_fields w) = name s →
       written w "state" = Some (JsonString (state (be_fields w))))
  ∧ (∀ s, s ∈ DeviceState.allStates → state (be_fields w) = backendEnumName s →
       ProjectDetails.changedState (name (DeviceState.fromString (state (be_fields w))))
       = state (be_fields w))
  ∧ (∀ n, written w (keyName (k_numeric n)) =
            Some (numericRoundTrip (getNumeric (be_fields w) n)))
  ∧ (∀ n, getNumeric (be_fields w) n = JString "" ∨ getNumeric (be_fields w) n = JUndefined →
          written w (keyName (k_numeric n)) = Some (JsonString ""))
  ∧ (∀ n x, getNumeric (be_fields w) n = JNumber x →
            written w (keyName (k_numeric n)) =
              Some (if isFinite x then JsonNumber (if is_zero x then 0%float else x)
                    else JsonNull))
  ∧ (∀ n s, getNumeric (be_fields w) n = JString s → s ≠ "" →
            written w (keyName (k_numeric n)) = Some (stringifyNumber (parseFloat s)))
  ∧ (discussion (be_fields w) = None → written w "discussion" = None)
  ∧ (∀ thread, discussion (be_fields w) = Some thread →
       ∃ items, written w "discussion" = Some (JsonArray items)
                ∧ length items = length thread
                ∧ ∀ i c, thread !! i = Some c →
                    ∃ members, items !! i = Some (JsonObject members)
                      ∧ property "id" members = Some (JsonString (cc_id c))
                      ∧ property "author" members = Some (JsonString (cc_author c))
                      ∧ property "comment" members = Some (JsonString (cc_comment c))
                      ∧ ∀ sent, cc_time c = TimeString sent →
                          property "time" members =
                            Some (if isFinite (Date_parse sent)
                                  then JsonIsoDate (Date_parse sent) else JsonNull)).
Proof.
  pose proof (transformProjectDeviceDetails_strings (be_fields w)) as (Htc & Hcm & Hst).
  pose proof (written_rest w) as (Hfft & Hid & Hfc & Hfg & Hdiscussion).
  assert (∀ n, written w (keyName (k_numeric n)) =
               Some (numericRoundTrip (getNumeric (be_fields w) n))) as Hnum.
  { intros n. rewrite written_scalar. simpl.
    rewrite transformProjectDeviceDetails_getNumeric.
    destruct (getNumeric (be_fields w) n) as [|x|s]; simpl; [done..|].
    by case_bool_decide. }
  split; [done|].
  split; [by rewrite (written_scalar w k_tc_part_no); simpl; rewrite Htc|].
  split; [by rewrite (written_scalar w k_comments); simpl; rewrite Hcm|].
  split; [by rewrite (written_scalar w k_state); simpl; rewrite Hst|].
  split; [|split; [|split; [exact Hnum|split; [|split; [|split; [|split]]]]]].
  - intros s Hs Hname. rewrite (written_scalar w k_state). simpl.
    by rewrite Hst, Hname, fromString_name.
  - intros s Hs ->. revert Hs. unfold DeviceState.allStates.
    rewrite !elem_of_cons, elem_of_nil.
    intros Hs. repeat (destruct Hs as [->|Hs]; [reflexivity|]). done.
  - intros n Hn. rewrite Hnum. by destruct Hn as [->| ->].
  - intros n x Hx. by rewrite Hnum, Hx.
  - intros n s Hs Hne. rewrite Hnum, Hs. simpl. by rewrite bool_decide_eq_false_2.
  - intros Hnone. by rewrite Hdiscussion, Hnone.
  - intros thread Hthread. rewrite Hdiscussion, Hthread. simpl.
    eexists. split; [done|]. split; [by rewrite length_fmap|].
    intros i c Hc. rewrite list_lookup_fmap, Hc. simpl.
    eexists. split; [done|]. split; [done|]. split; [done|]. split; [done|].
    intros sent Hsent. by rewrite Hsent.
Qed.

(** ** Loading the devices of a project *)

(** A request that succeeds replaces the list of devices by the devices
    received. *)
Lemma loadFFTData_success `{Builtins} :
  (∀ (Device : Type) (data : list (string * Device))
     (st : ProjectSpecificPage.State Device),
     ProjectSpecificPage.fftData (ProjectSpecificPage.loadFFTData (Resolved data) st).1 =
       data.*2)
  ∧ (∀ (data : list (string * ProjectDeviceDetailsBackend)) (st : ProjectDetails.State),
       ProjectDetails.fftData (ProjectDetails.loadFFTData (Resolved data) st).1 =
         deviceDetailsBackendToFrontend <$> data.*2).
Proof. split; reflexivity. Qed.

(** A failed request empties the list of devices that was loaded. *)
Lemma failed_load_empties_devices :
  ProjectSpecificPage.fftData
    (ProjectSpecificPage.loadFFTData (Rejected {| error := "Bad Gateway" |})
                                     pageWithOneDevice).1
    ≠ ProjectSpecificPage.fftData pageWithOneDevice
  ∧ ∀ B : Builtins,
      ProjectDetails.fftData
        (ProjectDetails.loadFFTData (Rejected {| error := "Bad Gateway" |})
                                    detailsWithOneDevice).1
        ≠ ProjectDetails.fftData detailsWithOneDevice.
Proof. split; [|intros B]; discriminate. Qed.

(** C4, as the code has it: when the request fails, [loadFFTData] of either
    page shows the message of the error, empties the list of devices, clears
    the loading flag and leaves the project, the displayed rows and the
    filters as they were; the promise it returns resolves to nothing. *)
Theorem loadFFTData_failure `{Builtins} (e : JsonErrorMsg) :
  (∀ (Device : Type) (st : ProjectSpecificPage.State Device),
     ProjectSpecificPage.loadFFTData (Rejected e) st =
       (ProjectSpecificPage.mkState Device
          false (loadErrorMessage e) (ProjectSpecificPage.projectData st) []
          (ProjectSpecificPage.fftDataDisplay st) (ProjectSpecificPage.fcFilter st)
          (ProjectSpecificPage.fgFilter st) (ProjectSpecificPage.stateFilter st),
        None))
  ∧ (∀ st : ProjectDetails.State,
       ProjectDetails.loadFFTData (Rejected e) st =
         (ProjectDetails.mkState
            false (loadErrorMessage e) (ProjectDetails.project st) []
            (ProjectDetails.fftDataDisplay st) (ProjectDetails.currentlyLoggedInUser st)
            (ProjectDetails.fcFilter st) (ProjectDetails.fgFilter st)
            (ProjectDetails.stateFilter st) (ProjectDetails.asOfTimestampFilter st),
          None)).
Proof. split; reflexivity. Qed.

(** ** Submitting a project for approval *)

Module SubmitFacts.
Import SubmitProjectForApproval.

Lemma userCanSubmitTheProject_true (st : State) (a : ProjectInfo) :
  diff st = Some (mkProjectFftDiff (Some a)) →
  userCanSubmitTheProject st = true ↔ ownerOrEditor a (loggedInUser st).
Proof.
  intros Hdiff. unfold userCanSubmitTheProject, ownerOrEditor. rewrite Hdiff. simpl.
  case_bool_decide as Howner; [tauto|].
  destruct (includes (prj_editors a) (loggedInUser st)) eqn:Hinc.
  - apply includes_true in Hinc. tauto.
  - split; [done|]. intros [?|Hin%includes_true]; congruence.
Qed.

(** Without a diff, or without a project in it, nobody can submit. *)
Lemma userCanSubmitTheProject_diff (st : State) :
  userCanSubmitTheProject st = true →
  ∃ a, diff st = Some (mkProjectFftDiff (Some a)) ∧ ownerOrEditor a (loggedInUser st).
Proof.
  intros Hcan. destruct (diff st) as [[[a|]]|] eqn:Hdiff.
  - exists a. split; [done|]. by apply (userCanSubmitTheProject_true st a).
  - unfold userCanSubmitTheProject in Hcan. by rewrite Hdiff in Hcan.
  - unfold userCanSubmitTheProject in Hcan. by rewrite Hdiff in Hcan.
Qed.

(** The buttons of a rendered page, by the state it was rendered from. *)
Lemma buttons_render (st : State) (b : Button Handler) :
  b ∈ buttons (render st) →
  (b = mkButton "Update Editors" (submittingForm st) (disableEditActions st)
                EditButtonClicked)
  ∨ (userCanSubmitTheProject st = true
     ∧ (isProjectInDevelopment (project st) = true
        ∨ isProjectSubmitted (project st) = true)
     ∧ onClick b = SubmitButtonClicked
     ∧ disabled b = bool_decide (length (selectedApprovers st) = 0)).
Proof.
  unfold render.
  destruct (loading_ st); [by intros ?%elem_of_nil|].
  destruct (truthy (loadError st)); [by intros ?%elem_of_nil|].
  destruct (project st) as [p|]; [|by intros ?%elem_of_nil].
  destruct (diff st) as [d|]; [|by intros ?%elem_of_nil].
  cbn [buttons]. rewrite elem_of_cons. intros [->|Hb]; [by left|]. right.
  destruct (userCanSubmitTheProject st); [|by apply elem_of_nil in Hb].
  split; [done|].
  destruct (isProjectInDevelopment (Some p)) eqn:Hdev;
    destruct (isProjectSubmitted (Some p)) eqn:Hsub; simpl in Hb;
    repeat (apply elem_of_cons in Hb as [->|Hb]; [by auto|]);
    by apply elem_of_nil in Hb.
Qed.

Lemma submitOffered_render (st : State) :
  submitOffered (render st) = true ↔
    ∃ b, b ∈ buttons (render st) ∧ onClick b = SubmitButtonClicked.
Proof.
  unfold submitOffered. rewrite existsb_exists. split.
  - intros (b & Hb%list_elem_of_In & Hclick%bool_decide_eq_true). eauto.
  - intros (b & Hb & Hclick). exists b.
    split; [by apply list_elem_of_In|by apply bool_decide_eq_true].
Qed.

Lemma status_of_shown_button (p : ProjectInfo) :
  isProjectInDevelopment (Some p) = true ∨ isProjectSubmitted (Some p) = true ↔
  prj_status p = "development" ∨ prj_status p = "submitted".
Proof. simpl. by rewrite !bool_decide_eq_true. Qed.

End SubmitFacts.

Import SubmitProjectForApproval.

(** The owner of an approved project is offered no way to submit it. *)
Lemma owner_of_approved_project_not_offered :
  ¬ (submitOffered (render (examplePage "approved" "alice" ["carol"])) = true
     ↔ ownerOrEditor (exampleProject "approved") "alice").
Proof. intros [_ Hoffered]. discriminate Hoffered. by left. Qed.

(** C6, as the code has it: on a loaded page a button that submits the project
    is shown iff the user is the owner or an editor of the project the diff
    was computed for and the project is in development (Submit for Approval)
    or submitted (Save Changes); any other user is shown the notice of
    missing permissions, and no click on a button of the page makes the
    request that submits. *)
Theorem submit_offered_to_owner_and_editors (st : State) (p a : ProjectInfo)
    (Hloaded : loading_ st = false) (Hnoerror : loadError st = "")
    (Hproject : project st = Some p)
    (Hdiff : diff st = Some (mkProjectFftDiff (Some a))) :
  (submitOffered (render st) = true ↔
     ownerOrEditor a (loggedInUser st)
     ∧ (prj_status p = "development" ∨ prj_status p = "submitted"))
  ∧ (¬ ownerOrEditor a (loggedInUser st) →
     ∃ updateEditors, render st = Page updateEditors NoPermissions)
  ∧ (∀ projectId b r,
       b ∈ buttons (render st) → r ∈ (click b projectId st).2 → sendsSubmit r = true →
       ownerOrEditor a (loggedInUser st)).
Proof.
  pose proof (SubmitFacts.userCanSubmitTheProject_true st a Hdiff) as Hcan.
  split; [|split].
  - rewrite SubmitFacts.submitOffered_render. split.
    + intros (b & Hb & Hclick).
      apply SubmitFacts.buttons_render in Hb as [->|(Hc & Hstatus & _)]; [done|].
      rewrite Hproject in Hstatus.
      apply SubmitFacts.status_of_shown_button in Hstatus. tauto.
    + intros [Huser%Hcan Hstatus%SubmitFacts.status_of_shown_button].
      unfold render. rewrite Hloaded, Hproject, Hdiff, Huser.
      unfold truthy. rewrite bool_decide_eq_true_2 by done. cbn [negb buttons].
      destruct Hstatus as [->| ->].
      * eexists. split; [apply list_elem_of_further, list_elem_of_here|reflexivity].
      * destruct (isProjectInDevelopment (Some p)); eexists;
          (split; [simpl; apply list_elem_of_further, list_elem_of_here|reflexivity]).
  - intros Huser. unfold render. rewrite Hloaded, Hproject, Hdiff.
    unfold truthy. rewrite bool_decide_eq_true_2 by done. cbn [negb].
    destruct (userCanSubmitTheProject st); [|by eexists].
    exfalso. by apply Huser, Hcan.
  - intros projectId b r Hb Hr Hsubmit.
    apply SubmitFacts.buttons_render in Hb as [->|(Hc & _)]; [|by apply Hcan].
    unfold click in Hr. destruct (clickable _); [|by apply elem_of_nil in Hr].
    simpl in Hr. unfold editButtonClicked in Hr. rewrite Hproject in Hr.
    apply list_elem_of_singleton in Hr as ->. discriminate Hsubmit.
Qed.

Lemma submit_offered_to_owner_and_editors_witness :
  submitOffered (render (examplePage "development" "bob" ["carol"])) = true.
Proof.
  apply (submit_offered_to_owner_and_editors
           (examplePage "development" "bob" ["carol"])
           (exampleProject "development") (exampleProject "development")
           eq_refl eq_refl eq_refl eq_refl).
  split; [right; apply list_elem_of_here|left; reflexivity].
Defined.

(** ** Submitting needs an approver *)

Lemma length_zero_nil {A : Type} (l : list A) : length l = 0 ↔ l = [].
Proof. by destruct l. Qed.

(** The Submit-for-Approval control, by the state it was rendered from. *)
Lemma submitControl_render (st : State) (b : Button Handler) :
  submitControl (render st) = Some b →
  isProjectInDevelopment (project st) = true
  ∧ b = mkButton "Submit for Approval" (submittingForm st)
                 (bool_decide (length (selectedApprovers st) = 0)) SubmitButtonClicked.
Proof.
  unfold render.
  destruct (loading_ st); [done|].
  destruct (truthy (loadError st)); [done|].
  destruct (project st) as [p|]; [|done].
  destruct (diff st) as [d|]; [|done].
  cbn [submitControl].
  destruct (userCanSubmitTheProject st); [|done].
  destruct (isProjectInDevelopment (Some p)); [|done].
  by intros [= <-].
Qed.

Lemma plain_submitControl_render (st : SubmitPlain.State) (b : Button SubmitPlain.Handler) :
  SubmitPlain.submitControl (SubmitPlain.render st) = Some b →
  isProjectInDevelopment (SubmitPlain.project st) = true
  ∧ b = mkButton "Submit for Approval" (SubmitPlain.submittingForm st)
                 (bool_decide (length (SubmitPlain.selectedApprovers st) = 0))
                 SubmitPlain.SubmitButtonClicked.
Proof.
  unfold SubmitPlain.render.
  destruct (SubmitPlain.loading_ st); [done|].
  destruct (truthy (SubmitPlain.loadError st)); [done|].
  destruct (SubmitPlain.project st) as [p|]; [|done].
  destruct (SubmitPlain.diff st) as [d|]; [|done].
  cbn [SubmitPlain.submitControl].
  destruct (isProjectInDevelopment (Some p)); [|done].
  by intros [= <-].
Qed.

(** A click on a button of the page sends the approvers only when some are
    selected. *)
Lemma click_sends_approvers (projectId : string) (st : State) (b : Button Handler)
    (pid : string) (eds apps : list string) :
  b ∈ buttons (render st) →
  submitForApproval pid eds apps ∈ (click b projectId st).2 →
  apps = selectedApprovers st ∧ apps ≠ [].
Proof.
  intros Hb Hreq. unfold click, clickable in Hreq.
  apply SubmitFacts.buttons_render in Hb as [->|(_ & _ & Hclick & Hdisabled)].
  - simpl in Hreq. destruct (negb _); [|by apply elem_of_nil in Hreq].
    unfold editButtonClicked in Hreq.
    destruct (project st); simpl in Hreq; [|by apply elem_of_nil in Hreq].
    by apply list_elem_of_singleton in Hreq.
  - rewrite Hdisabled, Hclick in Hreq.
    case_bool_decide as Hlen; [by apply elem_of_nil in Hreq|].
    destruct (loading b); [by apply elem_of_nil in Hreq|].
    simpl in Hreq. unfold submitButtonClicked in Hreq.
    destruct (project st); simpl in Hreq; [|by apply elem_of_nil in Hreq].
    apply list_elem_of_singleton in Hreq. injection Hreq as -> -> ->.
    split; [done|]. by rewrite <- length_zero_nil.
Qed.

(** C7: in both versions of the page the Submit-for-Approval control, shown
    for a project in development, is disabled exactly when no approver is
    selected; a click on it then changes nothing and sends nothing, and every
    call of [submitForApproval] made from the page carries a non-empty list
    of approvers. *)
Theorem submit_disabled_without_approvers (projectId : string) :
  (∀ st b, submitControl (render st) = Some b →
     isProjectInDevelopment (project st) = true
     ∧ (disabled b = true ↔ length (selectedApprovers st) = 0)
     ∧ (selectedApprovers st = [] → click b projectId st = (st, [])))
  ∧ (∀ st p d, loading_ st = false → loadError st = "" →
       project st = Some p → diff st = Some d → prj_status p = "development" →
       userCanSubmitTheProject st = true →
       ∃ b, submitControl (render st) = Some b)
  ∧ (∀ st b pid eds apps,
       b ∈ buttons (render st) →
       submitForApproval pid eds apps ∈ (click b projectId st).2 → apps ≠ [])
  ∧ (∀ st b, SubmitPlain.submitControl (SubmitPlain.render st) = Some b →
       isProjectInDevelopment (SubmitPlain.project st) = true
       ∧ (disabled b = true ↔ length (SubmitPlain.selectedApprovers st) = 0)
       ∧ (SubmitPlain.selectedApprovers st = [] → SubmitPlain.click b projectId st = (st, []))
       ∧ (∀ pid apps, SubmitPlain.submitForApproval pid apps ∈ (SubmitPlain.click b projectId st).2 →
                      apps ≠ []))
  ∧ (∀ st p d, SubmitPlain.loading_ st = false → SubmitPlain.loadError st = "" →
       SubmitPlain.project st = Some p → SubmitPlain.diff st = Some d →
       prj_status p = "development" →
       ∃ b, SubmitPlain.submitControl (SubmitPlain.render st) = Some b).
Proof.
  split; [|split; [|split; [|split]]].
  - intros st b [Hdev ->]%submitControl_render.
    split; [done|]. split; [simpl; by rewrite bool_decide_eq_true|].
    intros Hnone. unfold click, clickable. simpl.
    by rewrite Hnone.
  - intros st p d Hloaded Hnoerror Hproject Hdiff Hstatus Hcan.
    unfold render. rewrite Hloaded, Hnoerror, Hproject, Hdiff, Hcan. simpl.
    rewrite bool_decide_eq_true_2 by done. by eexists.
  - intros st b pid eds apps Hb Hreq.
    by destruct (click_sends_approvers projectId st b pid eds apps Hb Hreq).
  - intros st b [Hdev ->]%plain_submitControl_render.
    split; [done|]. split; [simpl; by rewrite bool_decide_eq_true|]. split.
    + intros Hnone. unfold SubmitPlain.click, clickable. simpl. by rewrite Hnone.
    + intros pid apps. unfold SubmitPlain.click, clickable. simpl.
      case_bool_decide as Hlen; [by intros ?%elem_of_nil|].
      destruct (SubmitPlain.submittingForm st); [by intros ?%elem_of_nil|]. simpl.
      unfold SubmitPlain.submitButtonClicked.
      destruct (SubmitPlain.project st); simpl; [|by intros ?%elem_of_nil].
      intros [= -> ->]%list_elem_of_singleton. by rewrite <- length_zero_nil.
  - intros st p d Hloaded Hnoerror Hproject Hdiff Hstatus.
    unfold SubmitPlain.render. rewrite Hloaded, Hnoerror, Hproject, Hdiff. simpl.
    rewrite bool_decide_eq_true_2 by done. by eexists.
Qed.

(** On the page of a project in development with no approver selected, the
    owner sees the control disabled and a click on it sends nothing. *)
Lemma submit_disabled_without_approvers_witness :
  ∃ b, submitControl (render (examplePage "development" "alice" [])) = Some b
       ∧ disabled b = true
       ∧ click b "p1" (examplePage "development" "alice" []) =
           (examplePage "development" "alice" [], []).
Proof.
  eexists. split; [reflexivity|].
  destruct (proj1 (submit_disabled_without_approvers "p1")
              (examplePage "development" "alice" []) _ eq_refl) as (_ & Hdisabled & Hclick).
  split; [by apply Hdisabled|by apply Hclick].
Defined.

(** * Further properties of the model *)

(** ** Device states *)

Lemma firstMatch_Some (states : list DeviceState) (st : string) (s : DeviceState) :
  DeviceState.firstMatch states st = Some s →
  s ∈ states ∧ (name s = st ∨ backendEnumName s = st).
Proof.
  induction states as [|s' states IH]; simpl; [done|].
  destruct (bool_decide (name s' = st) || bool_decide (backendEnumName s' = st)) eqn:Hm.
  - intros [= <-]. split; [apply list_elem_of_here|].
    apply orb_true_iff in Hm as [Hm|Hm]; apply bool_decide_eq_true in Hm; tauto.
  - intros [Hin Hs]%IH. split; [by apply list_elem_of_further|done].
Qed.

Lemma firstMatch_None (states : list DeviceState) (st : string) :
  DeviceState.firstMatch states st = None ↔
  ∀ s, s ∈ states → name s ≠ st ∧ backendEnumName s ≠ st.
Proof.
  induction states as [|s' states IH]; simpl.
  - split; [by intros _ s ?%elem_of_nil|done].
  - destruct (bool_decide (name s' = st) || bool_decide (backendEnumName s' = st)) eqn:Hm.
    + split; [done|]. intros Hall. exfalso.
      destruct (Hall s' (list_elem_of_here _ _)) as [Hn Hb].
      apply orb_true_iff in Hm as [Hm|Hm]; apply bool_decide_eq_true in Hm; done.
    + apply orb_false_iff in Hm as [Hn%bool_decide_eq_false Hb%bool_decide_eq_false].
      rewrite IH. split.
      * intros Hall s [->|Hs]%elem_of_cons; [done|by apply Hall].
      * intros Hall s Hs. by apply Hall, list_elem_of_further.
Qed.

(** The state a string denotes is one of the listed states or the unknown
    state. *)
Lemma fromString_cases (st : string) :
  DeviceState.fromString st ∈ DeviceState.allStates
  ∨ DeviceState.fromString st = DeviceState.UnknownState.
Proof.
  unfold DeviceState.fromString.
  destruct (DeviceState.firstMatch DeviceState.allStates st) as [s|] eqn:Hm; [|by right].
  left. by apply firstMatch_Some in Hm as [Hin _].
Qed.

Lemma fromString_backendEnumName (s : DeviceState) :
  s ∈ DeviceState.allStates → DeviceState.fromString (backendEnumName s) = s.
Proof.
  unfold DeviceState.allStates. rewrite !elem_of_cons, elem_of_nil.
  intros Hs. repeat (destruct Hs as [->|Hs]; [reflexivity|]). done.
Qed.

(** Converting the name of the state a string denotes gives that state. *)
Lemma fromString_idempotent (st : string) :
  DeviceState.fromString (name (DeviceState.fromString st)) = DeviceState.fromString st
  ∧ DeviceState.fromString (backendEnumName (DeviceState.fromString st)) =
      DeviceState.fromString st.
Proof.
  destruct (fromString_cases st) as [Hin| ->].
  - split; [by apply fromString_name|by apply fromString_backendEnumName].
  - split; reflexivity.
Qed.

(** X1: both names of a listed state denote that state, so the display name
    and the backend name can be converted into each other without loss; a
    string that is no name of a listed state denotes the unknown state; and
    converting the name of the denoted state again changes nothing. *)
Theorem fromString_names :
  (∀ s, s ∈ DeviceState.allStates →
     DeviceState.fromString (name s) = s
     ∧ DeviceState.fromString (backendEnumName s) = s)
  ∧ (∀ st, (∀ s, s ∈ DeviceState.allStates → name s ≠ st ∧ backendEnumName s ≠ st) →
       DeviceState.fromString st = DeviceState.UnknownState)
  ∧ (∀ st, DeviceState.fromString (name (DeviceState.fromString st)) =
             DeviceState.fromString st
           ∧ DeviceState.fromString (backendEnumName (DeviceState.fromString st)) =
               DeviceState.fromString st).
Proof.
  split; [|split].
  - intros s Hs. split; [by apply fromString_name|by apply fromString_backendEnumName].
  - intros st Hnone. unfold DeviceState.fromString.
    by apply firstMatch_None in Hnone as ->.
  - apply fromString_idempotent.
Qed.

(** ** Transformations for the frontend are idempotent *)

Lemma newDate_idempotent `{Builtins} (v : JsTime) : newDate (newDate v) = newDate v.
Proof. by destruct v. Qed.

Lemma normalizedTime_idempotent `{Builtins} (v : option JsTime) :
  normalizedTime (normalizedTime v) = normalizedTime v.
Proof.
  unfold normalizedTime. destruct v as [[s|t]|]; simpl; [|done..].
  destruct (truthy s) eqn:Ht; simpl; by rewrite ?Ht.
Qed.

Lemma normalizedNumber_idempotent `{Builtins} (v : JsScalar) :
  normalizedNumber (normalizedNumber v) = normalizedNumber v.
Proof.
  unfold normalizedNumber. destruct v as [|x|s]; simpl; [done..|].
  by case_bool_decide.
Qed.

Lemma transformComment_idempotent `{Builtins} (c : ChangeComment) :
  transformComment (transformComment c) = transformComment c.
Proof. unfold transformComment. simpl. by rewrite newDate_idempotent. Qed.

(** The record that [transformProjectDeviceDetails] produces, field by
    field. *)
Lemma transformProjectDeviceDetails_fields `{Builtins} (device : deviceDetailFields) :
  transformProjectDeviceDetails device =
    {| tc_part_no := tc_part_no device;
       comments := comments device;
       state := name (DeviceState.fromString (state device));
       nom_ang_x := normalizedNumber (nom_ang_x device);
       nom_ang_y := normalizedNumber (nom_ang_y device);
       nom_ang_z := normalizedNumber (nom_ang_z device);
       nom_dim_x := normalizedNumber (nom_dim_x device);
       nom_dim_y := normalizedNumber (nom_dim_y device);
       nom_dim_z := normalizedNumber (nom_dim_z device);
       nom_loc_x := normalizedNumber (nom_loc_x device);
       nom_loc_y := normalizedNumber (nom_loc_y device);
       nom_loc_z := normalizedNumber (nom_loc_z device);
       ray_trace := normalizedNumber (ray_trace device);
       discussion :=
         (λ thread : list ChangeComment, transformComment <$> thread) <$> discussion device |}.
Proof.
  destruct device as [tc cm st ax ay az dx dy dz lx ly lz rt disc].
  by destruct disc.
Qed.

(** X2: transforming a device record that has been transformed changes
    nothing: display names of states, normalized numbers and dates stay as
    they are. *)
Theorem transformProjectDeviceDetails_idempotent `{Builtins} (device : deviceDetailFields) :
  transformProjectDeviceDetails (transformProjectDeviceDetails device) =
    transformProjectDeviceDetails device.
Proof.
  rewrite (transformProjectDeviceDetails_fields (transformProjectDeviceDetails device)).
  rewrite !transformProjectDeviceDetails_fields. cbn [tc_part_no comments state
    nom_ang_x nom_ang_y nom_ang_z nom_dim_x nom_dim_y nom_dim_z
    nom_loc_x nom_loc_y nom_loc_z ray_trace discussion].
  rewrite !normalizedNumber_idempotent.
  rewrite (proj1 (fromString_idempotent (state device))).
  f_equal. destruct (discussion device) as [thread|]; simpl; [|done].
  f_equal. rewrite <- list_fmap_compose. apply list_fmap_ext.
  intros i c _. apply transformComment_idempotent.
Qed.

(** X3: [transformProjectForFrontendUse] leaves the identity, the people and
    the status of a project as they are, always leaves a list of notes, and
    changes nothing when applied again. *)
Theorem transformProjectForFrontendUse_idempotent `{Builtins} (project : ProjectInfo) :
  transformProjectForFrontendUse (transformProjectForFrontendUse project) =
    transformProjectForFrontendUse project
  ∧ prj_notes (transformProjectForFrontendUse project) = Some (default [] (prj_notes project))
  ∧ prj_id (transformProjectForFrontendUse project) = prj_id project
  ∧ prj_name (transformProjectForFrontendUse project) = prj_name project
  ∧ prj_owner (transformProjectForFrontendUse project) = prj_owner project
  ∧ prj_editors (transformProjectForFrontendUse project) = prj_editors project
  ∧ prj_status (transformProjectForFrontendUse project) = prj_status project
  ∧ prj_approvers (transformProjectForFrontendUse project) = prj_approvers project.
Proof.
  split; [|split; [simpl; by destruct (prj_notes project)|by repeat split]].
  unfold transformProjectForFrontendUse. simpl.
  rewrite newDate_idempotent.
  fold (normalizedTime (prj_edit_time project)).
  fold (normalizedTime (prj_approved_time project)).
  fold (normalizedTime (prj_submitted_time project)).
  pose proof normalizedTime_idempotent as Hidem. unfold normalizedTime at 1 in Hidem.
  rewrite !Hidem. by destruct (prj_notes project).
Qed.

(** ** Keys of a diff, there and back *)

Lemma beforeFirstDot_app (id rest : string) :
  ¬ occurs "." id → beforeFirstDot (id +:+ "." +:+ rest) = id.
Proof.
  induction id as [|c id IH]; simpl; [done|].
  intros Hdot. case_bool_decide as Hc; [tauto|]. rewrite IH; tauto.
Qed.

Lemma afterFirstDot_app (id rest : string) :
  ¬ occurs "." id → afterFirstDot (id +:+ "." +:+ rest) = Some rest.
Proof.
  induction id as [|c id IH]; simpl; [done|].
  intros Hdot. case_bool_decide as Hc; [tauto|]. apply IH. tauto.
Qed.

(** What [parseFftFieldsFromDiff] returns, by what follows the first dot of
    the key. *)
Lemma parseFftFieldsFromDiff_cases (d : fftDiffBackend) :
  parseFftFieldsFromDiff d =
    match afterFirstDot (key d) with
    | Some (String c r) =>
        inl {| parsed_id := beforeFirstDot (key d); parsed_field := String c r |}
    | Some EmptyString | None => inr (invalidDiffKeyMessage (key d))
    end.
Proof.
  unfold parseFftFieldsFromDiff.
  pose proof (join_rest_first_dot (key d)) as Hsplit.
  destruct (split "." (key d)) as [|id rest]; [done|].
  destruct Hsplit as [-> ->].
  by destruct (afterFirstDot (key d)) as [[|c r]|].
Qed.

Lemma parseFftFieldsFromDiff_valid (d : fftDiffBackend) :
  validDiffKey d →
  parseFftFieldsFromDiff d =
    inl {| parsed_id := beforeFirstDot (key d);
           parsed_field := default "" (afterFirstDot (key d)) |}.
Proof. intros (c & r & Hafter). by rewrite parseFftFieldsFromDiff_cases, Hafter. Qed.

Lemma parseFftFieldsFromDiff_invalid (d : fftDiffBackend) :
  ¬ validDiffKey d → parseFftFieldsFromDiff d = inr (invalidDiffKeyMessage (key d)).
Proof.
  intros Hinvalid. rewrite parseFftFieldsFromDiff_cases.
  destruct (afterFirstDot (key d)) as [[|c r]|] eqn:Hafter; [done| |done].
  exfalso. apply Hinvalid. by exists c, r.
Qed.

(** X4: a key that parses is the id, a dot and the name of the field, with no
    dot in the id and a name that is not empty; and a key put together from
    such an id and name parses into them. *)
Theorem parseFftFieldsFromDiff_round_trip :
  (∀ d p, parseFftFieldsFromDiff d = inl p →
     key d = parsed_id p +:+ "." +:+ parsed_field p
     ∧ ¬ occurs "." (parsed_id p)
     ∧ parsed_field p ≠ "")
  ∧ (∀ id field b v v', ¬ occurs "." id → field ≠ "" →
       parseFftFieldsFromDiff (mkFftDiffBackend b (id +:+ "." +:+ field) v v') =
         inl {| parsed_id := id; parsed_field := field |}).
Proof.
  split.
  - intros d p. rewrite parseFftFieldsFromDiff_cases.
    destruct (afterFirstDot (key d)) as [[|c r]|] eqn:Hafter; [done| |done].
    intros [= <-]. simpl. split; [by apply afterFirstDot_Some|].
    split; [apply beforeFirstDot_no_dot|done].
  - intros id field b v v' Hid Hfield. rewrite parseFftFieldsFromDiff_cases. simpl.
    rewrite afterFirstDot_app, beforeFirstDot_app by done.
    by destruct field.
Qed.

(** ** The diff of two projects *)

Lemma mapDiffs_valid (data : list fftDiffBackend) :
  Forall validDiffKey data → mapDiffs data = inl (diffOfEntry <$> data).
Proof.
  induction 1 as [|d data Hd _ IH]; simpl; [done|].
  by rewrite (parseFftFieldsFromDiff_valid d Hd), IH.
Qed.

Lemma mapDiffs_invalid (valid : list fftDiffBackend) (d : fftDiffBackend)
    (rest : list fftDiffBackend) :
  Forall validDiffKey valid → ¬ validDiffKey d →
  mapDiffs (valid ++ d :: rest) = inr (invalidDiffKeyMessage (key d)).
Proof.
  intros Hvalid Hd. induction Hvalid as [|d' valid Hd' _ IH]; simpl.
  - by rewrite (parseFftFieldsFromDiff_invalid d Hd).
  - by rewrite (parseFftFieldsFromDiff_valid d' Hd'), IH.
Qed.

Lemma mapDiffs_length (data : list fftDiffBackend) (diffs : list FFTDiff) :
  mapDiffs data = inl diffs → length diffs = length data.
Proof.
  revert diffs. induction data as [|d data IH]; simpl; intros diffs.
  - by intros [= <-].
  - destruct (parseFftFieldsFromDiff d); [|done].
    destruct (mapDiffs data) as [diffs'|]; [|done].
    intros [= <-]. simpl. by rewrite (IH diffs').
Qed.

(** X5: [fetchProjectDiff] gives all the entries of the backend or none:
    when every key parses, the diffs are the entries in order, each with its
    flag and both values; otherwise the promise fails with the error for the
    first key that does not parse, whatever follows it. A resolved diff has
    one entry for each entry of the backend. *)
Theorem fetchProjectDiff_all_or_nothing (data : list fftDiffBackend) :
  (Forall validDiffKey data →
     fetchProjectDiff (Resolved data) = DiffResolved (diffOfEntry <$> data))
  ∧ (∀ valid d rest, data = valid ++ d :: rest →
       Forall validDiffKey valid → ¬ validDiffKey d →
       fetchProjectDiff (Resolved data) = DiffThrown (invalidDiffKeyMessage (key d)))
  ∧ (∀ diffs, fetchProjectDiff (Resolved data) = DiffResolved diffs →
       length diffs = length data)
  ∧ (∀ e, fetchProjectDiff (Rejected e) = DiffRejected e).
Proof.
  unfold fetchProjectDiff. split; [|split; [|split]].
  - intros Hvalid. by rewrite mapDiffs_valid.
  - intros valid d rest -> Hvalid Hd. by rewrite mapDiffs_invalid.
  - intros diffs. destruct (mapDiffs data) as [diffs'|] eqn:Hmap; [|done].
    intros [= <-]. by apply mapDiffs_length.
  - done.
Qed.

(** ** The body of a request that sends changes *)

Lemma stringify_defined (value : JsValue) :
  value ≠ VUndefined → ∃ j, stringify value = Some j.
Proof. destruct value; [done|by eexists..]. Qed.

(** X6: the body written for a record of changes is an object with one
    member for every property of the record, in order, under the same key:
    none is left out. A property that is undefined is written as the empty
    string, a string as it is, a number as its text when it is finite (0
    for either zero) and as null when it is NaN or infinite. Without the
    replacer [JSON.stringify] writes the keys of the properties that are not
    undefined only. *)
Theorem syncDeviceUserChangesBody_defined (changes : list (string * JsValue)) :
  ∃ body,
    syncDeviceUserChangesBody changes = JsonObject body
    ∧ body.*1 = changes.*1
    ∧ (∀ i name, changes !! i = Some (name, VUndefined) →
         body !! i = Some (name, JsonString ""))
    ∧ (∀ i name s, changes !! i = Some (name, VString s) →
         body !! i = Some (name, JsonString s))
    ∧ (∀ i name x, changes !! i = Some (name, VNumber x) →
         body !! i = Some (name, if isFinite x
                                 then JsonNumber (if is_zero x then 0%float else x)
                                 else JsonNull))
    ∧ ∃ plain,
        stringify (VObject changes) = Some (JsonObject plain)
        ∧ ∀ name, name ∈ plain.*1 ↔ ∃ v, (name, v) ∈ changes ∧ v ≠ VUndefined.
Proof.
  exists ((λ entry, match entry with
                    | (key, item) => (key, syncStringify item)
                    end) <$> changes).
  split; [reflexivity|]. split; [|split; [|split; [|split]]].
  - rewrite <- list_fmap_compose. apply list_fmap_ext. by intros i [k v] _.
  - intros i name Hi. by rewrite list_lookup_fmap, Hi.
  - intros i name s Hi. by rewrite list_lookup_fmap, Hi.
  - intros i name x Hi. by rewrite list_lookup_fmap, Hi.
  - exists (omap (λ entry, match entry with
                           | (key, item) => pair key <$> stringify item
                           end) changes).
    split; [reflexivity|]. intros name.
    rewrite list_elem_of_fmap. split.
    + intros ([k j] & -> & ([k' v] & Hin & Hwritten)%list_elem_of_omap).
      simpl in Hwritten. destruct (stringify v) as [j'|] eqn:Hv; [|done].
      simpl in Hwritten. injection Hwritten as -> ->.
      exists v. split; [done|]. by intros ->.
    + intros (v & Hin & [j Hj]%stringify_defined).
      exists (name, j). split; [done|]. apply list_elem_of_omap.
      exists (name, v). split; [done|]. simpl. by rewrite Hj.
Qed.

(** ** Devices fetched for the frontend *)

Lemma normalizedNumber_not_string `{Builtins} (v : JsScalar) (s : string) :
  normalizedNumber v ≠ JString s.
Proof.
  unfold normalizedNumber. destruct v as [|x|s']; simpl; [done..|].
  by case_bool_decide.
Qed.

(** X7: [fetchProjectFfts] answers with one device for each record of the
    backend, in order, carrying the id, fc and fg of the record; no numeric
    field of such a device holds a string, and the state of each is a
    display name or Unknown. A request that fails is passed on. *)
Theorem fetchProjectFfts_devices `{Builtins}
    (data : list (string * ProjectDeviceDetailsBackend)) :
  fetchProjectFfts (Resolved data) = Resolved (deviceDetailsBackendToFrontend <$> data.*2)
  ∧ length (deviceDetailsBackendToFrontend <$> data.*2) = length data
  ∧ (∀ i entry, data !! i = Some entry →
       ∃ device, (deviceDetailsBackendToFrontend <$> data.*2) !! i = Some device
                 ∧ dev_id device = fft_id (fft entry.2)
                 ∧ dev_fc device = fft_fc (fft entry.2)
                 ∧ dev_fg device = fft_fg (fft entry.2))
  ∧ (∀ device, device ∈ deviceDetailsBackendToFrontend <$> data.*2 →
       (∀ k s, getNumeric (dev_fields device) k ≠ JString s)
       ∧ (state (dev_fields device) = "Unknown"
          ∨ ∃ st, st ∈ DeviceState.allStates ∧ state (dev_fields device) = name st))
  ∧ (∀ e, fetchProjectFfts (Rejected e) = Rejected e).
Proof.
  split; [done|]. split; [by rewrite !length_fmap|]. split; [|split; [|done]].
  - intros i entry Hentry. exists (deviceDetailsBackendToFrontend entry.2).
    split; [by rewrite !list_lookup_fmap, Hentry|done].
  - intros device (details & -> & _)%list_elem_of_fmap. split.
    + intros k s. simpl. rewrite transformProjectDeviceDetails_getNumeric.
      apply normalizedNumber_not_string.
    + simpl. rewrite transformProjectDeviceDetails_fields. simpl.
      destruct (fromString_cases (state (be_fields details))) as [Hin| ->]; [|by left].
      right. eauto.
Qed.

(** ** Arrays *)

Lemma indexOf_absent (l : list string) (x : string) :
  x ∉ l → JsArray.indexOf l x = (-1)%Z.
Proof.
  intros Hx. unfold JsArray.indexOf.
  destruct (list_find (λ y, y = x) l) as [[i y]|] eqn:Hfind; [|done].
  apply list_find_Some in Hfind as (Hi%list_elem_of_lookup_2 & -> & _). done.
Qed.

Lemma indexOf_first (before after : list string) (x : string) :
  x ∉ before → JsArray.indexOf (before ++ x :: after) x = Z.of_nat (length before).
Proof.
  intros Hx. unfold JsArray.indexOf.
  assert (list_find (λ y, y = x) (before ++ x :: after) = Some (length before, x)) as ->;
    [|done].
  apply list_find_Some. split; [by rewrite list_lookup_middle|]. split; [done|].
  intros j y Hj Hlt ->. apply Hx.
  rewrite lookup_app_l in Hj by done. by apply list_elem_of_lookup_2 in Hj.
Qed.

(** An element of an array, at its first occurrence. *)
Lemma elem_of_first_occurrence (l : list string) (x : string) :
  x ∈ l → ∃ before after, l = before ++ x :: after ∧ x ∉ before.
Proof.
  induction l as [|y l IH]; [by intros ?%elem_of_nil|].
  destruct (decide (y = x)) as [->|Hy].
  - intros _. exists [], l. split; [done|]. by intros ?%elem_of_nil.
  - intros [->|Hx]%elem_of_cons; [done|].
    destruct (IH Hx) as (before & after & -> & Hbefore).
    exists (y :: before), after. split; [done|].
    intros [->|?]%elem_of_cons; done.
Qed.

Lemma spliceOne_middle {A : Type} (before after : list A) (x : A) :
  JsArray.spliceOne (length before) (before ++ x :: after) = before ++ after.
Proof.
  unfold JsArray.spliceOne.
  rewrite take_app_length.
  replace (before ++ x :: after) with ((before ++ [x]) ++ after)
    by (by rewrite <- app_assoc).
  rewrite drop_app_length'; [done|]. rewrite length_app. simpl. lia.
Qed.



(** ** The selection of approvers, one at a time *)

(** X8: [removeUser] takes the first occurrence of the user out of the
    selection and touches nothing else; for a user that is not selected it
    changes nothing. Every other user stays selected or unselected as
    before, and a user selected once is no longer selected. *)
Theorem removeUser_first_occurrence (username : string) (st : SubmitPlain.State) :
  (username ∉ SubmitPlain.selectedApprovers st → SubmitPlain.removeUser username st = st)
  ∧ (∀ before after,
       SubmitPlain.selectedApprovers st = before ++ username :: after →
       username ∉ before →
       SubmitPlain.removeUser username st =
         SubmitPlain.setSelectedApprovers (before ++ after) st)
  ∧ (∀ other, other ≠ username →
       (other ∈ SubmitPlain.selectedApprovers (SubmitPlain.removeUser username st)
        ↔ other ∈ SubmitPlain.selectedApprovers st))
  ∧ (NoDup (SubmitPlain.selectedApprovers st) →
     username ∉ SubmitPlain.selectedApprovers (SubmitPlain.removeUser username st)).
Proof.
  assert (∀ before after,
            SubmitPlain.selectedApprovers st = before ++ username :: after →
            username ∉ before →
            SubmitPlain.removeUser username st =
              SubmitPlain.setSelectedApprovers (before ++ after) st) as Hpresent.
  { intros before after Hsel Hbefore. unfold SubmitPlain.removeUser.
    rewrite Hsel, indexOf_first by done.
    rewrite bool_decide_eq_false_2 by lia.
    by rewrite Nat2Z.id, spliceOne_middle. }
  assert (username ∉ SubmitPlain.selectedApprovers st →
          SubmitPlain.removeUser username st = st) as Habsent.
  { intros Hx. unfold SubmitPlain.removeUser. rewrite indexOf_absent by done.
    by rewrite bool_decide_eq_true_2 by lia. }
  split; [done|]. split; [done|]. split.
  - intros other Hother.
    destruct (decide (username ∈ SubmitPlain.selectedApprovers st)) as [Hin|Hnotin];
      [|by rewrite Habsent].
    destruct (elem_of_first_occurrence _ _ Hin) as (before & after & Hsel & Hbefore).
    rewrite (Hpresent before after Hsel Hbefore), Hsel. simpl.
    rewrite !elem_of_app, elem_of_cons. tauto.
  - intros Hnodup.
    destruct (decide (username ∈ SubmitPlain.selectedApprovers st)) as [Hin|Hnotin];
      [|by rewrite Habsent].
    destruct (elem_of_first_occurrence _ _ Hin) as (before & after & Hsel & Hbefore).
    rewrite (Hpresent before after Hsel Hbefore). simpl.
    rewrite Hsel in Hnodup. apply NoDup_app in Hnodup as (_ & _ & Hafter).
    apply NoDup_cons in Hafter as [Hafter _].
    rewrite elem_of_app. tauto.
Qed.

Section AddUser.
Variable sortString : string → string → bool → Z.




End AddUser.


Example addUser_last_of_list :
  SubmitPlain.addUser byCharacterCodes "dave" (examplePlainPage "development" ["erin"]) =
    SubmitPlain.setSelectedApprovers ["dave"; "erin"]
      (SubmitPlain.setCurrentApprover "carol" (examplePlainPage "development" ["erin"])).
Proof. reflexivity. Qed.

(** ** Loading the page that submits a project *)

(** X10: when the three requests of the page succeed, the page stops
    loading and holds the project, transformed for the frontend, and the
    diff; the approvers of the project, when it has any, become the
    selection; and the names offered are the approvers of the backend that
    are not selected and are not the owner of the project, when the project
    names an owner. *)
Theorem plain_load_offers_other_users `{Builtins} (p : ProjectInfo)
    (backendApprovers : list string) (d : ProjectFftDiff) (st : SubmitPlain.State) :
  SubmitPlain.loading_ (plainLoaded p backendApprovers d st) = false
  ∧ SubmitPlain.loadError (plainLoaded p backendApprovers d st) = SubmitPlain.loadError st
  ∧ SubmitPlain.project (plainLoaded p backendApprovers d st) =
      Some (transformProjectForFrontendUse p)
  ∧ SubmitPlain.diff (plainLoaded p backendApprovers d st) = Some d
  ∧ SubmitPlain.selectedApprovers (plainLoaded p backendApprovers d st) =
      default (SubmitPlain.selectedApprovers st) (prj_approvers p)
  ∧ (∀ a, a ∈ SubmitPlain.leftoverApprovers (plainLoaded p backendApprovers d st) ↔
          a ∈ backendApprovers
          ∧ (prj_owner p = "" ∨ a ≠ prj_owner p)
          ∧ a ∉ SubmitPlain.selectedApprovers (plainLoaded p backendApprovers d st))
  ∧ (prj_owner p ≠ "" →
     prj_owner p ∉ SubmitPlain.leftoverApprovers (plainLoaded p backendApprovers d st)).
Proof.
  assert (∀ a, a ∈ SubmitPlain.leftoverApprovers (plainLoaded p backendApprovers d st) ↔
               a ∈ backendApprovers
               ∧ (prj_owner p = "" ∨ a ≠ prj_owner p)
               ∧ a ∉ SubmitPlain.selectedApprovers (plainLoaded p backendApprovers d st))
    as Hleft.
  { intros a. unfold plainLoaded, SubmitPlain.fetchData, fetchProjectInfo,
      fetchProjectApprovers, then_, SubmitPlain.loadSettled,
      SubmitPlain.leftoverApprovers, truthy, includes.
    cbn [transformProjectForFrontendUse prj_owner prj_approvers SubmitPlain.projectInfo
         SubmitPlain.approvers SubmitPlain.loadedDiff].
    destruct (prj_approvers p) as [approvers|]; simpl;
      rewrite list_elem_of_filter, bool_decide_spec;
      (case_bool_decide as Howner; simpl; [|rewrite list_elem_of_filter]); tauto. }
  split; [|split; [|split; [|split; [|split; [|split; [exact Hleft|]]]]]];
    try (unfold plainLoaded, SubmitPlain.loadSettled; simpl;
         by destruct (prj_approvers p)).
  intros Howner [_ [[?|?] _]]%Hleft; done.
Qed.

(** X11: whichever of the three requests fails, the page only records the
    error and stops loading: nothing of what the earlier requests answered is
    stored. The page then shows the error, when the error has a text. *)
Theorem plain_load_failure_stores_nothing `{Builtins} (e : JsonErrorMsg)
    (st : SubmitPlain.State) :
  (∀ approversResponse diffResponse,
     SubmitPlain.loadSettled
       (SubmitPlain.fetchData (Rejected e) approversResponse diffResponse) st =
       plainLoadFailed e st)
  ∧ (∀ p diffResponse,
       SubmitPlain.loadSettled
         (SubmitPlain.fetchData (Resolved p) (Rejected e) diffResponse) st =
         plainLoadFailed e st)
  ∧ (∀ p backendApprovers,
       SubmitPlain.loadSettled
         (SubmitPlain.fetchData (Resolved p) (Resolved backendApprovers) (Rejected e)) st =
         plainLoadFailed e st)
  ∧ SubmitPlain.project (plainLoadFailed e st) = SubmitPlain.project st
  ∧ SubmitPlain.selectedApprovers (plainLoadFailed e st) = SubmitPlain.selectedApprovers st
  ∧ SubmitPlain.allApprovers (plainLoadFailed e st) = SubmitPlain.allApprovers st
  ∧ (error e ≠ "" →
     SubmitPlain.render (plainLoadFailed e st) = SubmitPlain.ErrorDisplay (error e)).
Proof.
  split; [done|]. split; [done|]. split; [done|]. split; [done|]. split; [done|].
  split; [done|].
  intros Herror. unfold SubmitPlain.render, plainLoadFailed, truthy. simpl.
  by rewrite bool_decide_eq_false_2.
Qed.

(** ** The page with editors: who is offered, and who may edit *)


(** X13: the controls that edit the editors are disabled exactly for a user
    that cannot submit the project; the status of the project plays no part.
    The owner and the editors of a project that is submitted or approved can
    therefore still send a new list of editors. *)
Theorem disableEditActions_ignores_status (st : State) :
  disableEditActions st = negb (userCanSubmitTheProject st)
  ∧ (∀ a, diff st = Some (mkProjectFftDiff (Some a)) →
       (disableEditActions st = false ↔ ownerOrEditor a (loggedInUser st)))
  ∧ (∀ p a projectId, loading_ st = false → loadError st = "" → project st = Some p →
       diff st = Some (mkProjectFftDiff (Some a)) →
       ownerOrEditor a (loggedInUser st) → submittingForm st = false →
       ∃ b, b ∈ buttons (render st) ∧ onClick b = EditButtonClicked
            ∧ (click b projectId st).2 = [editProject projectId (selectedEditors st)]).
Proof.
  assert (disableEditActions st = negb (userCanSubmitTheProject st)) as Heq.
  { unfold disableEditActions. destruct (userCanSubmitTheProject st); [done|].
    by rewrite orb_true_r. }
  split; [done|]. split.
  - intros a Hdiff. rewrite Heq, negb_false_iff.
    by apply SubmitFacts.userCanSubmitTheProject_true.
  - intros p a projectId Hloaded Hnoerror Hproject Hdiff Huser Hidle.
    apply (SubmitFacts.userCanSubmitTheProject_true st a Hdiff) in Huser.
    eexists. split.
    + unfold render. rewrite Hloaded, Hnoerror, Hproject, Hdiff. simpl.
      apply list_elem_of_here.
    + split; [done|]. unfold click, clickable. simpl.
      rewrite Heq, Huser, Hidle. simpl.
      unfold editButtonClicked. by rewrite Hproject.
Qed.

(** ** One request at a time *)

(** X14: a click that sends a request marks the form as submitting, and
    while the form is submitting the buttons that send requests (those that
    submit and the one that updates the editors in the version with editors,
    the one that submits in the other) send nothing and change nothing: a
    second click cannot send the request twice. Whatever the answer, the
    form stops submitting. *)
Theorem pending_request_blocks_buttons (projectId : string) :
  (∀ st b, (click b projectId st).2 ≠ [] → submittingForm (click b projectId st).1 = true)
  ∧ (∀ st b, submittingForm st = true → b ∈ buttons (render st) →
       click b projectId st = (st, []))
  ∧ (∀ st response, submittingForm (submitSettled response st) = false
                    ∧ submittingForm (editSettled response st) = false)
  ∧ (∀ st b, (SubmitPlain.click b projectId st).2 ≠ [] →
       SubmitPlain.submittingForm (SubmitPlain.click b projectId st).1 = true)
  ∧ (∀ st b, SubmitPlain.submittingForm st = true →
       SubmitPlain.submitControl (SubmitPlain.render st) = Some b →
       SubmitPlain.click b projectId st = (st, []))
  ∧ (∀ st response,
       SubmitPlain.submittingForm (SubmitPlain.submitSettled response st) = false).
Proof.
  split; [|split; [|split; [|split; [|split]]]].
  - intros st b. unfold click. destruct (clickable b); [|done].
    destruct (onClick b); simpl; unfold submitButtonClicked, editButtonClicked;
      by destruct (project st).
  - intros st b Hbusy Hb. unfold click, clickable.
    assert (loading b = true) as ->; [|by rewrite orb_true_r].
    revert Hb. unfold render.
    destruct (loading_ st); [by intros ?%elem_of_nil|].
    destruct (truthy (loadError st)); [by intros ?%elem_of_nil|].
    destruct (project st) as [p|]; [|by intros ?%elem_of_nil].
    destruct (diff st) as [d|]; [|by intros ?%elem_of_nil].
    cbn [buttons]. rewrite Hbusy.
    destruct (userCanSubmitTheProject st);
      destruct (isProjectInDevelopment (Some p));
      destruct (isProjectSubmitted (Some p)); simpl;
      rewrite ?elem_of_cons, elem_of_nil; intros Hb;
      repeat (destruct Hb as [->|Hb]; [done|]); done.
  - intros st response. by destruct response.
  - intros st b. unfold SubmitPlain.click. destruct (clickable b); [|done].
    destruct (onClick b). unfold SubmitPlain.submitButtonClicked.
    by destruct (SubmitPlain.project st).
  - intros st b Hbusy [_ ->]%plain_submitControl_render.
    unfold SubmitPlain.click, clickable. simpl. by rewrite Hbusy, orb_true_r.
  - intros st response. by destruct response.
Qed.

(** ** A submit that fails *)

Lemma submitFailedMessage_truthy (e : JsonErrorMsg) : truthy (submitFailedMessage e) = true.
Proof. reflexivity. Qed.

(** X15: when the request that submits fails, in either version of the
    page, the project and the selections stay as they were, the form stops
    submitting, and a page that showed its controls now shows the message of
    the failure under them. When the request succeeds the project is
    replaced by the one the backend answered. *)
Theorem failed_submit_keeps_project (e : JsonErrorMsg) :
  (∀ st,
     project (submitSettled (Rejected e) st) = project st
     ∧ selectedApprovers (submitSettled (Rejected e) st) = selectedApprovers st
     ∧ selectedEditors (submitSettled (Rejected e) st) = selectedEditors st
     ∧ submittingForm (submitSettled (Rejected e) st) = false
     ∧ (∀ updateEditors submitButton saveButton errorText,
          render st = Page updateEditors (SubmitControls submitButton saveButton errorText) →
          shownError (render (submitSettled (Rejected e) st)) =
            Some (submitFailedMessage e)))
  ∧ (∀ st,
       SubmitPlain.project (SubmitPlain.submitSettled (Rejected e) st) =
         SubmitPlain.project st
       ∧ SubmitPlain.selectedApprovers (SubmitPlain.submitSettled (Rejected e) st) =
           SubmitPlain.selectedApprovers st
       ∧ SubmitPlain.submittingForm (SubmitPlain.submitSettled (Rejected e) st) = false
       ∧ (∀ submitButton errorText,
            SubmitPlain.render st = SubmitPlain.Page submitButton errorText →
            SubmitPlain.shownError (SubmitPlain.render (SubmitPlain.submitSettled (Rejected e) st))
              = Some (submitFailedMessage e)))
  ∧ (∀ st updated, project (submitSettled (Resolved updated) st) = Some updated)
  ∧ (∀ st updated,
       SubmitPlain.project (SubmitPlain.submitSettled (Resolved updated) st) = Some updated
       ∧ SubmitPlain.submitError (SubmitPlain.submitSettled (Resolved updated) st) = "").
Proof.
  split; [|split; [|split]].
  - intros st. do 4 (split; [done|]).
    intros updateEditors submitButton saveButton errorText.
    unfold render, submitSettled. simpl.
    destruct (loading_ st); [done|].
    destruct (truthy (loadError st)); [done|].
    destruct (project st) as [p|]; [|done].
    destruct (diff st) as [d|]; [|done].
    change (userCanSubmitTheProject _) with (userCanSubmitTheProject st).
    by destruct (userCanSubmitTheProject st).
  - intros st. do 3 (split; [done|]).
    intros submitButton errorText.
    unfold SubmitPlain.render, SubmitPlain.submitSettled. simpl.
    destruct (SubmitPlain.loading_ st); [done|].
    destruct (truthy (SubmitPlain.loadError st)); [done|].
    destruct (SubmitPlain.project st) as [p|]; [|done].
    by destruct (SubmitPlain.diff st) as [d|].
  - done.
  - done.
Qed.

(** ** Changes to the list of devices *)

Lemma replaceDevice_fmap (newDevice : ProjectDeviceDetails)
    (devices : list ProjectDeviceDetails) :
  ProjectDetails.replaceDevice newDevice devices =
    (λ d, if bool_decide (dev_id d = dev_id newDevice) then newDevice else d) <$> devices.
Proof.
  unfold ProjectDetails.replaceDevice.
  assert (∀ acc,
            foldl (λ updatedData d,
                     if bool_decide (dev_id d ≠ dev_id newDevice) then updatedData ++ [d]
                     else updatedData ++ [newDevice]) acc devices =
            acc ++ ((λ d, if bool_decide (dev_id d = dev_id newDevice) then newDevice else d)
                      <$> devices)) as Hfold; [|apply (Hfold [])].
  induction devices as [|d devices IH]; intros acc; simpl; [by rewrite app_nil_r|].
  rewrite IH. destruct (decide (dev_id d = dev_id newDevice)) as [Heq|Hne].
  - rewrite bool_decide_eq_false_2, bool_decide_eq_true_2 by tauto.
    by rewrite <- app_assoc.
  - rewrite bool_decide_eq_true_2, bool_decide_eq_false_2 by tauto.
    by rewrite <- app_assoc.
Qed.

(** X16: writing a device of the backend over the devices with its id keeps
    the ids of the list, in order, and so its length; every device with that
    id becomes the new device and every other device stays as it is. When no
    device has the id, the list is unchanged: the device is not added. *)
Theorem replaceDevice_keeps_ids (newDevice : ProjectDeviceDetails)
    (devices : list ProjectDeviceDetails) :
  deviceIds (ProjectDetails.replaceDevice newDevice devices) = deviceIds devices
  ∧ length (ProjectDetails.replaceDevice newDevice devices) = length devices
  ∧ (∀ i d, devices !! i = Some d →
       ProjectDetails.replaceDevice newDevice devices !! i =
         Some (if bool_decide (dev_id d = dev_id newDevice) then newDevice else d))
  ∧ (dev_id newDevice ∉ deviceIds devices →
     ProjectDetails.replaceDevice newDevice devices = devices)
  ∧ (∀ seen st, ProjectDetails.fftData (ProjectDetails.copyFftSubmitted newDevice seen st) =
                  ProjectDetails.replaceDevice newDevice seen
                ∧ ProjectDetails.fftData (ProjectDetails.commentAdded newDevice seen st) =
                    ProjectDetails.replaceDevice newDevice seen).
Proof.
  rewrite replaceDevice_fmap. unfold deviceIds. split; [|split; [|split; [|split]]].
  - rewrite <- list_fmap_compose. apply list_fmap_ext. intros i d _. simpl.
    by case_bool_decide.
  - by rewrite length_fmap.
  - intros i d Hd. by rewrite list_lookup_fmap, Hd.
  - intros Habsent. rewrite <- (list_fmap_id devices) at 2.
    apply list_fmap_ext. intros i d Hd. simpl.
    case_bool_decide as Heq; [|done]. exfalso. apply Habsent.
    rewrite <- Heq. apply list_elem_of_fmap. exists d.
    split; [done|]. by apply list_elem_of_lookup_2 in Hd.
  - done.
Qed.

Lemma replaceEdited_absent (oldId : string) (updated : ProjectDeviceDetails)
    (devices : list ProjectDeviceDetails) :
  oldId ∉ deviceIds devices → ProjectDetails.replaceEdited oldId updated devices = devices.
Proof.
  unfold deviceIds. induction devices as [|d devices IH]; simpl; [done|].
  rewrite not_elem_of_cons. intros [Hd Hrest].
  rewrite bool_decide_eq_false_2 by done. by rewrite IH.
Qed.

Lemma replaceEdited_first (oldId : string) (updated d : ProjectDeviceDetails)
    (before after : list ProjectDeviceDetails) :
  oldId ∉ deviceIds before → dev_id d = oldId →
  ProjectDetails.replaceEdited oldId updated (before ++ d :: after) =
    before ++ updated :: after.
Proof.
  unfold deviceIds. induction before as [|d' before IH]; simpl.
  - intros _ Hd. by rewrite bool_decide_eq_true_2.
  - rewrite not_elem_of_cons. intros [Hd' Hbefore] Hd.
    rewrite bool_decide_eq_false_2 by done. by rewrite IH.
Qed.

(** X17: when an edit is done, the first device with the id of the edited
    device gives its place to the updated device, which may have another id,
    and no other place of the list changes; a list without the edited device
    is left as it is, and so is every list when the edit is cancelled. When
    the ids of the list are distinct and the updated device keeps its id,
    this is the same list as writing the updated device over its id. *)
Theorem replaceEdited_first_place (oldId : string) (updated : ProjectDeviceDetails)
    (devices : list ProjectDeviceDetails) :
  length (ProjectDetails.replaceEdited oldId updated devices) = length devices
  ∧ (oldId ∉ deviceIds devices →
     ProjectDetails.replaceEdited oldId updated devices = devices)
  ∧ (∀ before d after, devices = before ++ d :: after →
       oldId ∉ deviceIds before → dev_id d = oldId →
       ProjectDetails.replaceEdited oldId updated devices = before ++ updated :: after)
  ∧ (NoDup (deviceIds devices) → dev_id updated = oldId →
     ProjectDetails.replaceEdited oldId updated devices =
       ProjectDetails.replaceDevice updated devices)
  ∧ (∀ old st, dev_id old = oldId →
       ProjectDetails.editDone old updated ProjectDetails.cancel devices st = st
       ∧ ProjectDetails.fftData
           (ProjectDetails.editDone old updated ProjectDetails.ok devices st) =
           ProjectDetails.replaceEdited oldId updated devices).
Proof.
  split; [|split; [|split; [|split]]].
  - induction devices as [|d devices IH]; simpl; [done|].
    case_bool_decide; simpl; [done|]. by rewrite IH.
  - apply replaceEdited_absent.
  - intros before d after -> Hbefore Hd. by apply replaceEdited_first.
  - intros Hdistinct Hid. rewrite replaceDevice_fmap, Hid.
    unfold deviceIds in Hdistinct.
    induction devices as [|d devices IH]; simpl; [done|].
    simpl in Hdistinct. apply NoDup_cons in Hdistinct as [Hd Hdistinct].
    case_bool_decide as Heq.
    + f_equal. rewrite <- (list_fmap_id devices) at 1.
      apply list_fmap_ext. intros i d' Hd'. simpl.
      case_bool_decide as Heq'; [|done]. exfalso. apply Hd.
      rewrite Heq, <- Heq'. apply list_elem_of_fmap. exists d'.
      split; [done|]. by apply list_elem_of_lookup_2 in Hd'.
    + f_equal. by apply IH.
  - intros old st <-. done.
Qed.

Lemma filter_all {A : Type} (P : A → Prop) `{!∀ x, Decision (P x)} (l : list A) :
  Forall P l → filter P l = l.
Proof.
  induction 1 as [|x l Hx _ IH]; [done|].
  rewrite filter_cons, decide_True by done. by rewrite IH.
Qed.

(** X18: after a device is deleted, no device of the list has its id; the
    devices with another id are all still there, in the order they had, and
    a list whose ids are distinct gets shorter by one when it had the
    device. The dialog that confirmed is closed and forgets its device, and
    no alert is set. A request that fails changes neither the list nor the
    dialog, and sets the alert of the page to a message that names the
    device and carries the error of the backend. *)
Theorem deleteSettled_removes_id (fft : ProjectFFT) (seen : list ProjectDeviceDetails)
    (dialog : ProjectDetails.DeleteDialog) (st : ProjectDetails.State) :
  (fft_id fft ∉ deviceIds
     (ProjectDetails.fftData
        (ProjectDetails.deleteSettled (Resolved ()) fft seen dialog st).1.1))
  ∧ (∀ d, d ∈ ProjectDetails.fftData
                (ProjectDetails.deleteSettled (Resolved ()) fft seen dialog st).1.1
          ↔ d ∈ seen ∧ dev_id d ≠ fft_id fft)
  ∧ ProjectDetails.fftData
      (ProjectDetails.deleteSettled (Resolved ()) fft seen dialog st).1.1
      `sublist_of` seen
  ∧ (NoDup (deviceIds seen) → fft_id fft ∈ deviceIds seen →
     S (length (ProjectDetails.fftData
                  (ProjectDetails.deleteSettled (Resolved ()) fft seen dialog st).1.1))
     = length seen)
  ∧ (fft_id fft ∉ deviceIds seen →
     ProjectDetails.fftData
       (ProjectDetails.deleteSettled (Resolved ()) fft seen dialog st).1.1 = seen)
  ∧ (ProjectDetails.deleteSettled (Resolved ()) fft seen dialog st).1.2 =
      ProjectDetails.mkDeleteDialog (mkProjectFFT "" "" "") false
  ∧ (ProjectDetails.deleteSettled (Resolved ()) fft seen dialog st).2 = None
  ∧ (∀ e, ProjectDetails.deleteSettled (Rejected e) fft seen dialog st =
            (st, dialog,
             Some (ProjectDetails.AlertText
                     ("Failed to delete a device " +:+ fft_fc fft +:+ "-" +:+ fft_fg fft
                      +:+ ": " +:+ error e)))).
Proof.
  unfold deviceIds. simpl. split; [|split; [|split; [|split; [|split; [|split; [|split]]]]]].
  - intros (d & Hid & [Hne _]%list_elem_of_filter)%list_elem_of_fmap. done.
  - intros d. rewrite list_elem_of_filter. tauto.
  - apply sublist_filter.
  - intros Hdistinct Hin. induction seen as [|d seen IH]; [by apply elem_of_nil in Hin|].
    simpl in *. apply NoDup_cons in Hdistinct as [Hd Hdistinct].
    rewrite filter_cons. destruct (decide (dev_id d ≠ fft_id fft)) as [Hne|Heq].
    + simpl. f_equal. apply IH; [done|].
      apply elem_of_cons in Hin as [Hin|Hin]; [done|done].
    + apply dec_stable in Heq. f_equal.
      rewrite filter_all; [done|].
      apply Forall_forall. intros d' Hd' Heq'. apply Hd.
      rewrite Heq, <- Heq'. apply list_elem_of_fmap. eauto.
  - intros Habsent. apply filter_all, Forall_forall.
    intros d Hd Heq. apply Habsent. rewrite <- Heq.
    apply list_elem_of_fmap. eauto.
  - done.
  - done.
  - done.
Qed.

(** ** The filters of the table of devices *)

Section Filters.
Variable glob : string → string → bool.

Lemma filter_condition (filterValue : string) (test : bool) :
  Is_true (if truthy filterValue then test else true) ↔ filterValue = "" ∨ test = true.
Proof.
  unfold truthy. case_bool_decide as Hempty; simpl.
  - split; [by left|done].
  - rewrite Is_true_true. split; [by right|]. by intros [?|?].
Qed.

Lemma elem_of_filteredFftData
    (st : ProjectSpecificPage.State ProjectDeviceDetailsBackend)
    (d : ProjectDeviceDetailsBackend) :
  d ∈ ProjectSpecificPage.filteredFftData glob st ↔
    d ∈ ProjectSpecificPage.fftData st ∧ passesFilters glob st d.
Proof.
  unfold ProjectSpecificPage.filteredFftData, passesFilters.
  rewrite !list_elem_of_filter, !filter_condition, bool_decide_eq_true. tauto.
Qed.

(** X19: the rows shown are the loaded devices that pass every filter that
    is set, in the order in which they were loaded; a filter that is empty
    lets every device pass, so without filters all the devices are shown. *)
Theorem filteredFftData_shows_matching
    (st : ProjectSpecificPage.State ProjectDeviceDetailsBackend) :
  (∀ d, d ∈ ProjectSpecificPage.filteredFftData glob st ↔
        d ∈ ProjectSpecificPage.fftData st ∧ passesFilters glob st d)
  ∧ ProjectSpecificPage.filteredFftData glob st `sublist_of` ProjectSpecificPage.fftData st
  ∧ (ProjectSpecificPage.fcFilter st = "" → ProjectSpecificPage.fgFilter st = "" →
     ProjectSpecificPage.stateFilter st = "" →
     ProjectSpecificPage.filteredFftData glob st = ProjectSpecificPage.fftData st)
  ∧ ProjectSpecificPage.fftDataDisplay (ProjectSpecificPage.applyFilters glob st) =
      ProjectSpecificPage.filteredFftData glob st
  ∧ ProjectSpecificPage.fftData (ProjectSpecificPage.applyFilters glob st) =
      ProjectSpecificPage.fftData st.
Proof.
  split; [apply elem_of_filteredFftData|].
  unfold ProjectSpecificPage.filteredFftData.
  split; [|split; [|done]].
  - cbv zeta. etrans; [apply sublist_filter|]. etrans; apply sublist_filter.
  - intros -> -> ->. cbv zeta. simpl.
    rewrite !filter_all; [done|by apply Forall_forall..].
Qed.

(** X20: the first option of the select of states is the entry for any
    state; choosing it sets no filter on the state, and choosing the name of
    a device state sets that name, since no name starts like the entry. With
    the other filters empty, the entry for any state shows every device and
    the name of a state shows the devices whose state is that name. *)
Theorem filterSubmitted_any_state
    (st : ProjectSpecificPage.State ProjectDeviceDetailsBackend) :
  (∀ possibleStates,
     head (FilterFFTDialog.availableStates possibleStates) = Some FilterFFTDialog.anyState
     ∧ ∀ s, s ∈ possibleStates → name s ∈ FilterFFTDialog.availableStates possibleStates)
  ∧ (∀ fc fg,
       ProjectSpecificPage.stateFilter
         (ProjectSpecificPage.filterSubmitted fc fg FilterFFTDialog.anyState st) = ""
       ∧ ProjectSpecificPage.fcFilter
           (ProjectSpecificPage.filterSubmitted fc fg FilterFFTDialog.anyState st) = fc
       ∧ ProjectSpecificPage.fgFilter
           (ProjectSpecificPage.filterSubmitted fc fg FilterFFTDialog.anyState st) = fg)
  ∧ (∀ fc fg s, s ∈ DeviceState.allStates →
       ProjectSpecificPage.stateFilter
         (ProjectSpecificPage.filterSubmitted fc fg (name s) st) = name s)
  ∧ ProjectSpecificPage.filteredFftData glob
      (ProjectSpecificPage.filterSubmitted "" "" FilterFFTDialog.anyState st) =
      ProjectSpecificPage.fftData st
  ∧ (∀ s d, s ∈ DeviceState.allStates →
       (d ∈ ProjectSpecificPage.filteredFftData glob
              (ProjectSpecificPage.filterSubmitted "" "" (name s) st)
        ↔ d ∈ ProjectSpecificPage.fftData st ∧ state (be_fields d) = name s)).
Proof.
  assert (∀ fc fg s, s ∈ DeviceState.allStates →
            ProjectSpecificPage.stateFilter
              (ProjectSpecificPage.filterSubmitted fc fg (name s) st) = name s) as Hstate.
  { intros fc fg s. unfold DeviceState.allStates. rewrite !elem_of_cons, elem_of_nil.
    intros Hs. repeat (destruct Hs as [->|Hs]; [reflexivity|]). done. }
  split; [|split; [|split; [done|split]]].
  - intros possibleStates. split; [done|]. intros s Hs.
    apply list_elem_of_further, list_elem_of_fmap. eauto.
  - done.
  - unfold ProjectSpecificPage.filteredFftData. simpl.
    rewrite !filter_all; [done|by apply Forall_forall..].
  - intros s d Hs.
    rewrite elem_of_filteredFftData. unfold passesFilters. rewrite (Hstate "" "" s Hs).
    assert (name s ≠ "") as Hname.
    { revert Hs. unfold DeviceState.allStates. rewrite !elem_of_cons, elem_of_nil.
      intros Hs. repeat (destruct Hs as [->|Hs]; [done|]). done. }
    simpl. intuition congruence.
Qed.

End Filters.

(** ** The row that edits a device *)

Lemma row_numberOrDefault_not_nan `{Builtins} (value : option string) (x : float) :
  DeviceDataEditTableRow.numberOrDefault value None = Some x → is_nan x = false.
Proof.
  unfold DeviceDataEditTableRow.numberOrDefault.
  destruct value as [s|]; [|done]. case_bool_decide; [done|].
  destruct (is_nan (parseFloat s)) eqn:Hnan; [done|]. by intros [= <-].
Qed.

Lemma row_numberOrDefault_holdsInput `{Builtins} (input : option string) :
  holdsInput input (ofOptNumber (DeviceDataEditTableRow.numberOrDefault input None)).
Proof.
  unfold holdsInput, DeviceDataEditTableRow.numberOrDefault.
  destruct input as [typed|]; [|done]. case_bool_decide; [done|].
  by destruct (is_nan (parseFloat typed)).
Qed.

(** X21: the device that the row builds from its inputs keeps the identity,
    the state and the discussion of the device that is edited, whatever
    state was chosen in the row. Each of its nine position fields holds what
    was typed into the input of that field and of no other: it is undefined
    for an input that is empty, unset or no number, and the number read from
    the input otherwise, so a number that is not NaN and never a string.
    [ray_trace] is the content of its input as it is. *)
Theorem constructDevice_fields `{Builtins} (device : ProjectDeviceDetailsBackend)
    (st : DeviceDataEditTableRow.State) :
  fft (DeviceDataEditTableRow.constructDevice device st) = fft device
  ∧ state (be_fields (DeviceDataEditTableRow.constructDevice device st)) =
      state (be_fields device)
  ∧ discussion (be_fields (DeviceDataEditTableRow.constructDevice device st)) =
      discussion (be_fields device)
  ∧ comments (be_fields (DeviceDataEditTableRow.constructDevice device st)) =
      DeviceDataEditTableRow.editComments st
  ∧ tc_part_no (be_fields (DeviceDataEditTableRow.constructDevice device st)) =
      default "" (DeviceDataEditTableRow.editTcPartNo st)
  ∧ (holdsInput (DeviceDataEditTableRow.editLocX st)
       (nom_loc_x (be_fields (DeviceDataEditTableRow.constructDevice device st)))
     ∧ holdsInput (DeviceDataEditTableRow.editLocY st)
         (nom_loc_y (be_fields (DeviceDataEditTableRow.constructDevice device st)))
     ∧ holdsInput (DeviceDataEditTableRow.editLocZ st)
         (nom_loc_z (be_fields (DeviceDataEditTableRow.constructDevice device st)))
     ∧ holdsInput (DeviceDataEditTableRow.editDimX st)
         (nom_dim_x (be_fields (DeviceDataEditTableRow.constructDevice device st)))
     ∧ holdsInput (DeviceDataEditTableRow.editDimY st)
         (nom_dim_y (be_fields (DeviceDataEditTableRow.constructDevice device st)))
     ∧ holdsInput (DeviceDataEditTableRow.editDimZ st)
         (nom_dim_z (be_fields (DeviceDataEditTableRow.constructDevice device st)))
     ∧ holdsInput (DeviceDataEditTableRow.editAngX st)
         (nom_ang_x (be_fields (DeviceDataEditTableRow.constructDevice device st)))
     ∧ holdsInput (DeviceDataEditTableRow.editAngY st)
         (nom_ang_y (be_fields (DeviceDataEditTableRow.constructDevice device st)))
     ∧ holdsInput (DeviceDataEditTableRow.editAngZ st)
         (nom_ang_z (be_fields (DeviceDataEditTableRow.constructDevice device st))))
  ∧ (∀ k, k ∈ ProjectDevicePositionKeys →
       getNumeric (be_fields (DeviceDataEditTableRow.constructDevice device st)) k = JUndefined
       ∨ ∃ x, getNumeric (be_fields (DeviceDataEditTableRow.constructDevice device st)) k =
                JNumber x
              ∧ is_nan x = false)
  ∧ ray_trace (be_fields (DeviceDataEditTableRow.constructDevice device st)) =
      DeviceDataEditTableRow.editMustRayTrace st
  ∧ (∀ value defaultVal,
       value = None ∨ value = Some "" →
       DeviceDataEditTableRow.numberOrDefault value defaultVal = None).
Proof.
  assert (∀ value,
            ofOptNumber (DeviceDataEditTableRow.numberOrDefault value None) = JUndefined
            ∨ ∃ x, ofOptNumber (DeviceDataEditTableRow.numberOrDefault value None) = JNumber x
                   ∧ is_nan x = false) as Hnumber.
  { intros value.
    destruct (DeviceDataEditTableRow.numberOrDefault value None) as [x|] eqn:Hvalue;
      [|by left].
    right. exists x. split; [done|]. by apply (row_numberOrDefault_not_nan value). }
  do 4 (split; [done|]). split; [|split; [|split; [|split; [done|]]]].
  - simpl. destruct (DeviceDataEditTableRow.editTcPartNo st) as [s|]; [|done].
    unfold truthy. by case_bool_decide as Hs; simpl; [rewrite Hs|].
  - repeat split; apply row_numberOrDefault_holdsInput.
  - intros k. unfold ProjectDevicePositionKeys. rewrite !elem_of_cons, elem_of_nil.
    intros Hk. repeat (destruct Hk as [->|Hk]; [apply Hnumber|]). done.
  - intros value defaultVal [->| ->]; reflexivity.
Qed.

Lemma allFieldsAreValid_true (errs : list bool) :
  DeviceDataEditTableRow.allFieldsAreValid errs = true ↔ ∀ err, err ∈ errs → err = false.
Proof.
  induction errs as [|err errs IH]; simpl.
  - split; [by intros _ err ?%elem_of_nil|done].
  - destruct err.
    + split; [done|]. intros Hall. by specialize (Hall true (list_elem_of_here _ _)).
    + rewrite IH. split.
      * intros Hall err [->|Herr]%elem_of_cons; [done|by apply Hall].
      * intros Hall err Herr. by apply Hall, list_elem_of_further.
Qed.

(** X22: after a change of a numeric input the error flag of the field does
    not depend on what it was: it is set exactly when the number read is NaN,
    below the minimum of the field or above its maximum. Of the fields of
    the row only [ray_trace] has bounds, 0 and 1. The edits can be submitted
    exactly when no flag is set. *)
Theorem errAfterChange_fails_closed (field : DeviceDataEditTableRow.NumericField)
    (num : float) (err : bool) :
  DeviceDataEditTableRow.errAfterChange field num err =
    is_nan num
    || match DeviceDataEditTableRow.fieldMin field with
       | Some min => (num <? min)%float
       | None => false
       end
    || match DeviceDataEditTableRow.fieldMax field with
       | Some max => (max <? num)%float
       | None => false
       end
  ∧ (∀ f, f ∈ DeviceDataEditTableRow.numericFields →
       DeviceDataEditTableRow.fieldKey f ≠ k_ray_trace →
       DeviceDataEditTableRow.errAfterChange f num err = is_nan num)
  ∧ (∀ f, f ∈ DeviceDataEditTableRow.numericFields →
       DeviceDataEditTableRow.fieldKey f = k_ray_trace →
       DeviceDataEditTableRow.errAfterChange f num err =
         is_nan num || (num <? 0)%float || (1 <? num)%float)
  ∧ (∀ errs, DeviceDataEditTableRow.submitDisabled errs = false ↔
             ∀ e, e ∈ errs → e = false).
Proof.
  assert (∀ f, DeviceDataEditTableRow.errAfterChange f num err =
               is_nan num
               || match DeviceDataEditTableRow.fieldMin f with
                  | Some min => (num <? min)%float
                  | None => false
                  end
               || match DeviceDataEditTableRow.fieldMax f with
                  | Some max => (max <? num)%float
                  | None => false
                  end) as Hflag.
  { intros [k [min|] [max|]];
      unfold DeviceDataEditTableRow.errAfterChange, DeviceDataEditTableRow.errCalls; simpl;
      destruct (is_nan num); simpl; try done;
      repeat match goal with |- context [(?a <? ?b)%float] => destruct (a <? b)%float end;
      done. }
  split; [apply Hflag|]. split; [|split].
  - intros f. unfold DeviceDataEditTableRow.numericFields.
    rewrite !elem_of_cons, elem_of_nil. intros Hf Hkey. rewrite Hflag.
    repeat (destruct Hf as [->|Hf]; [simpl; by rewrite !orb_false_r|]).
    destruct Hf as [->|Hf]; done.
  - intros f. unfold DeviceDataEditTableRow.numericFields.
    rewrite !elem_of_cons, elem_of_nil. intros Hf Hkey. rewrite Hflag.
    repeat (destruct Hf as [->|Hf]; [done|]). done.
  - intros errs. unfold DeviceDataEditTableRow.submitDisabled.
    rewrite negb_false_iff. apply allFieldsAreValid_true.
Qed.

(** ** The checkboxes of the dialog that copies a device *)

Module CopyFacts.
Import CopyFFTToProjectDialog.

Lemma spread_allChecked (selection : list Slot) :
  allChecked selection → spread selection = selection.
Proof.
  unfold spread. induction 1 as [|slot selection [b ->] _ IH]; simpl; [done|].
  by f_equal.
Qed.

Lemma numOfFFTChanges_app (l1 l2 : list Slot) :
  numOfFFTChanges (l1 ++ l2) = numOfFFTChanges l1 + numOfFFTChanges l2.
Proof.
  induction l1 as [|[[|]| |] l1 IH]; simpl; by rewrite ?IH.
Qed.

Lemma numOfFFTChanges_le (selection : list Slot) :
  (numOfFFTChanges selection ≤ length selection)%nat.
Proof. induction selection as [|[[|]| |] selection IH]; simpl; lia. Qed.

Lemma isSelected_middle (before after : list Slot) (slot : Slot) :
  isSelected (before ++ slot :: after) (length before) =
    match slot with Checked b => b | _ => false end.
Proof.
  unfold isSelected, read. rewrite list_lookup_middle by done. by destruct slot.
Qed.

Lemma isSelected_other (before after : list Slot) (slot slot' : Slot) (j : nat) :
  j ≠ length before →
  isSelected (before ++ slot :: after) j = isSelected (before ++ slot' :: after) j.
Proof.
  intros Hj. unfold isSelected, read.
  destruct (decide (j < length before)) as [Hlt|Hge].
  - by rewrite !lookup_app_l by done.
  - rewrite !lookup_app_r by lia.
    destruct (j - length before) as [|n] eqn:Hn; [lia|done].
Qed.

(** The change of one checkbox in an array of booleans. *)
Lemma toggle_middle (before after : list Slot) (b : bool) :
  allChecked (before ++ Checked b :: after) →
  toggle (length before) (before ++ Checked b :: after) =
    before ++ Checked (negb b) :: after.
Proof.
  intros Hchecked. unfold toggle, assign.
  rewrite (spread_allChecked _ Hchecked), isSelected_middle.
  rewrite bool_decide_eq_true_2 by (rewrite length_app; simpl; lia).
  by rewrite insert_app_r_alt, Nat.sub_diag by done.
Qed.

Lemma allChecked_split (selection : list Slot) (i : nat) :
  allChecked selection → (i < length selection)%nat →
  ∃ before b after, selection = before ++ Checked b :: after ∧ length before = i.
Proof.
  intros Hchecked Hi.
  destruct (lookup_lt_is_Some_2 selection i Hi) as [slot Hslot].
  pose proof (proj1 (Forall_lookup _ _) Hchecked i slot Hslot) as [b ->].
  exists (take i selection), b, (drop (S i) selection). split.
  - by rewrite take_drop_middle.
  - rewrite length_take. lia.
Qed.

Lemma mapTo_allChecked (b : bool) (selection : list Slot) :
  allChecked selection →
  allChecked (mapTo b selection)
  ∧ numOfFFTChanges (mapTo b selection) = if b then length selection else 0.
Proof.
  induction 1 as [|slot selection [b' ->] _ [IH1 IH2]].
  - split; [by apply Forall_nil|by destruct b].
  - change (mapTo b (Checked b' :: selection)) with (Checked b :: mapTo b selection).
    split; [apply Forall_cons; eauto|]. destruct b; simpl; by rewrite IH2.
Qed.

Lemma selectedFrom_length {A : Type} (changed : list A) (selection : list Slot) (i : nat) :
  length selection = i + length changed →
  length (selectedFrom i changed selection) = numOfFFTChanges (drop i selection).
Proof.
  revert i. induction changed as [|f changed IH]; intros i Hlen; simpl.
  - by rewrite drop_ge by (simpl in Hlen; lia).
  - simpl in Hlen.
    destruct (lookup_lt_is_Some_2 selection i) as [slot Hslot]; [lia|].
    rewrite (drop_S _ _ _ Hslot). unfold isSelected, read. rewrite Hslot.
    destruct slot as [[|]| |]; simpl; rewrite IH by lia; done.
Qed.

End CopyFacts.

(** X23: in an array of checkboxes that holds a boolean for every change,
    the checkbox of a row flips the entry of that row and no other, so that
    two clicks give the array back and the number of selected changes moves
    by one; the checkbox of the header selects every change unless all are
    selected, and then none. Neither changes the length of the array, and
    the number of selected changes never exceeds it. *)
Theorem selection_toggles (selection : list CopyFFTToProjectDialog.Slot)
    (Hchecked : allChecked selection) :
  (∀ i, (i < length selection)%nat →
     allChecked (CopyFFTToProjectDialog.toggle i selection)
     ∧ length (CopyFFTToProjectDialog.toggle i selection) = length selection
     ∧ CopyFFTToProjectDialog.isSelected (CopyFFTToProjectDialog.toggle i selection) i =
         negb (CopyFFTToProjectDialog.isSelected selection i)
     ∧ (∀ j, j ≠ i →
          CopyFFTToProjectDialog.isSelected (CopyFFTToProjectDialog.toggle i selection) j =
            CopyFFTToProjectDialog.isSelected selection j)
     ∧ CopyFFTToProjectDialog.toggle i (CopyFFTToProjectDialog.toggle i selection) = selection
     ∧ CopyFFTToProjectDialog.numOfFFTChanges (CopyFFTToProjectDialog.toggle i selection) =
         if CopyFFTToProjectDialog.isSelected selection i
         then CopyFFTToProjectDialog.numOfFFTChanges selection - 1
         else S (CopyFFTToProjectDialog.numOfFFTChanges selection))
  ∧ allChecked (CopyFFTToProjectDialog.toggleAll selection)
  ∧ length (CopyFFTToProjectDialog.toggleAll selection) = length selection
  ∧ CopyFFTToProjectDialog.numOfFFTChanges (CopyFFTToProjectDialog.toggleAll selection) =
      (if CopyFFTToProjectDialog.allChangesAreSelected selection then 0
       else length selection)
  ∧ (CopyFFTToProjectDialog.numOfFFTChanges selection ≤ length selection)%nat.
Proof.
  split; [|split; [|split; [|split]]].
  - intros i Hi.
    destruct (CopyFacts.allChecked_split selection i Hchecked Hi)
      as (before & b & after & -> & <-).
    assert (allChecked (before ++ CopyFFTToProjectDialog.Checked (negb b) :: after))
      as Hchecked'.
    { unfold allChecked in *. apply Forall_app in Hchecked as [Hbefore Hafter].
      apply Forall_cons in Hafter as [_ Hafter].
      apply Forall_app. split; [done|]. apply Forall_cons. eauto. }
    rewrite !CopyFacts.toggle_middle by done.
    split; [done|]. split; [by rewrite !length_app|].
    split; [by rewrite !CopyFacts.isSelected_middle|].
    split; [intros j Hj; by apply CopyFacts.isSelected_other|].
    split.
    + by rewrite negb_involutive.
    + rewrite !CopyFacts.numOfFFTChanges_app, CopyFacts.isSelected_middle.
      destruct b; simpl; lia.
  - unfold CopyFFTToProjectDialog.toggleAll.
    destruct (CopyFFTToProjectDialog.allChangesAreSelected selection);
      by apply CopyFacts.mapTo_allChecked.
  - unfold CopyFFTToProjectDialog.toggleAll, CopyFFTToProjectDialog.mapTo.
    destruct (CopyFFTToProjectDialog.allChangesAreSelected selection);
      by rewrite length_fmap.
  - unfold CopyFFTToProjectDialog.toggleAll.
    destruct (CopyFFTToProjectDialog.allChangesAreSelected selection);
      by rewrite (proj2 (CopyFacts.mapTo_allChecked _ selection Hchecked)).
  - apply CopyFacts.numOfFFTChanges_le.
Qed.

Lemma selection_toggles_witness :
  allChecked [CopyFFTToProjectDialog.Checked false; CopyFFTToProjectDialog.Checked true]
  ∧ CopyFFTToProjectDialog.numOfFFTChanges
      (CopyFFTToProjectDialog.toggleAll
         [CopyFFTToProjectDialog.Checked false; CopyFFTToProjectDialog.Checked true]) = 2.
Proof.
  assert (allChecked
            [CopyFFTToProjectDialog.Checked false; CopyFFTToProjectDialog.Checked true])
    as Hchecked by (repeat constructor; eauto).
  split; [exact Hchecked|].
  exact (proj1 (proj2 (proj2 (proj2 (selection_toggles _ Hchecked))))).
Defined.

(** X24: when the changes to show change, every checkbox is cleared: the
    array has one unchecked entry for each change, nothing is selected and
    the button that copies is disabled. A checkbox written beyond the end of
    the array makes the array grow up to its index and selects it. *)
Theorem clearedSelection_none_selected :
  (∀ (changes : list fftDiffBackend),
     allChecked (CopyFFTToProjectDialog.clearedSelection changes)
     ∧ length (CopyFFTToProjectDialog.clearedSelection changes) = length changes
     ∧ CopyFFTToProjectDialog.numOfFFTChanges
         (CopyFFTToProjectDialog.clearedSelection changes) = 0
     ∧ CopyFFTToProjectDialog.selectedChanges changes
         (CopyFFTToProjectDialog.clearedSelection changes) = []
     ∧ ∀ st, CopyFFTToProjectDialog.fftDiffSelection st =
               CopyFFTToProjectDialog.clearedSelection changes →
             CopyFFTToProjectDialog.copyDisabled st = true)
  ∧ (∀ selection i, (length selection ≤ i)%nat →
       length (CopyFFTToProjectDialog.toggle i selection) = S i
       ∧ CopyFFTToProjectDialog.isSelected (CopyFFTToProjectDialog.toggle i selection) i
           = true).
Proof.
  split.
  - intros changes.
    assert (CopyFFTToProjectDialog.numOfFFTChanges
              (CopyFFTToProjectDialog.clearedSelection changes) = 0) as Hnone.
    { unfold CopyFFTToProjectDialog.clearedSelection.
      induction changes as [|c changes IH]; simpl; done. }
    split; [|split; [|split; [done|split]]].
    + unfold allChecked, CopyFFTToProjectDialog.clearedSelection.
      apply Forall_fmap, Forall_forall. intros c _. simpl. eauto.
    + unfold CopyFFTToProjectDialog.clearedSelection. by rewrite length_fmap.
    + unfold CopyFFTToProjectDialog.selectedChanges.
      pose proof (CopyFacts.selectedFrom_length changes
                    (CopyFFTToProjectDialog.clearedSelection changes) 0) as Hlen.
      rewrite drop_0, Hnone in Hlen.
      apply length_zero_nil, Hlen.
      unfold CopyFFTToProjectDialog.clearedSelection. by rewrite length_fmap.
    + intros st Hsel. unfold CopyFFTToProjectDialog.copyDisabled. rewrite Hsel, Hnone.
      by rewrite orb_true_r.
  - intros selection i Hi.
    unfold CopyFFTToProjectDialog.toggle, CopyFFTToProjectDialog.assign,
      CopyFFTToProjectDialog.spread.
    rewrite length_fmap.
    rewrite bool_decide_eq_false_2 by lia.
    assert (CopyFFTToProjectDialog.isSelected selection i = false) as ->.
    { unfold CopyFFTToProjectDialog.isSelected, CopyFFTToProjectDialog.read.
      by rewrite lookup_ge_None_2. }
    split.
    + rewrite !length_app, length_fmap, length_replicate. simpl. lia.
    + unfold CopyFFTToProjectDialog.isSelected, CopyFFTToProjectDialog.read.
      rewrite app_assoc, lookup_app_r;
        rewrite length_app, length_fmap, length_replicate; [|lia].
      by replace (i - (length selection + (i - length selection))) with 0 by lia.
Qed.

(** ** What the dialog that copies a device sends *)

Section CopySubmit.
Import CopyFFTToProjectDialog.
Variable parse : fftDiffBackend → string.




End CopySubmit.

(** ** Creating a project *)

(** X26: the dialog that creates a project sends nothing for an empty name
    and says so; for any other name it sends one request with the name and
    the description, to the address that clones the blank project when the
    default template is selected and the selected template otherwise, clears
    the message and marks the form as submitting. Whatever the answer the
    form stops submitting; a failure is shown and hands no project to the
    page. *)
Theorem addProject_submit (st : AddProjectDialog.State) :
  (AddProjectDialog.projectName st = "" →
   AddProjectDialog.submit st =
     (AddProjectDialog.setDialogError "Project name should not be empty" st, []))
  ∧ (AddProjectDialog.projectName st ≠ "" →
     ∃ url, (AddProjectDialog.submit st).2 =
              [ AddProjectDialog.mkCloneRequest url (AddProjectDialog.projectName st)
                  (AddProjectDialog.description st) ]
            ∧ AddProjectDialog.isSubmitting (AddProjectDialog.submit st).1 = true
            ∧ AddProjectDialog.dialogError (AddProjectDialog.submit st).1 = ""
            ∧ (AddProjectDialog.selectedTemplate st = AddProjectDialog.DEFAULT_TEMPLATE →
               url = "/ws/projects/NewBlankProjectClone/clone/")
            ∧ (AddProjectDialog.selectedTemplate st ≠ AddProjectDialog.DEFAULT_TEMPLATE →
               url = "/ws/projects/" +:+ AddProjectDialog.selectedTemplate st +:+ "/clone/"))
  ∧ (∀ response,
       AddProjectDialog.isSubmitting (AddProjectDialog.submitSettled response st).1 = false)
  ∧ (∀ e, (AddProjectDialog.submitSettled (Rejected e) st).2 = None
          ∧ AddProjectDialog.dialogError (AddProjectDialog.submitSettled (Rejected e) st).1
              = "Failed to create a new project: " +:+ error e)
  ∧ (∀ created, AddProjectDialog.submitSettled (Resolved created) st =
                  (AddProjectDialog.setIsSubmitting false st, Some created)).
Proof.
  split; [|split; [|split; [|split]]].
  - intros Hname. unfold AddProjectDialog.submit, truthy. by rewrite Hname.
  - intros Hname. unfold AddProjectDialog.submit, truthy.
    rewrite bool_decide_eq_false_2 by done. simpl.
    eexists. split; [done|]. split; [done|]. split; [done|].
    split; intros Htemplate.
    + by rewrite bool_decide_eq_true_2.
    + by rewrite bool_decide_eq_false_2.
  - by intros [created|e].
  - done.
  - done.
Qed.

(** ** Adding a device to a project *)

Lemma alreadyInProject_None (newFft : ProjectDetails.FFTInfo)
    (fftData : list ProjectDeviceDetails) :
  ProjectDetails.alreadyInProject newFft fftData = None
  ↔ ∀ d, d ∈ fftData →
         ¬ (dev_fc d = ProjectDetails.fcfg_name (ProjectDetails.info_fc newFft)
            ∧ dev_fg d = ProjectDetails.fcfg_name (ProjectDetails.info_fg newFft)).
Proof.
  induction fftData as [|fft rest IH]; simpl.
  - split; [by intros _ d ?%elem_of_nil|done].
  - destruct (decide (dev_fc fft = ProjectDetails.fcfg_name (ProjectDetails.info_fc newFft)))
      as [Hfc|Hfc];
    destruct (decide (dev_fg fft = ProjectDetails.fcfg_name (ProjectDetails.info_fg newFft)))
      as [Hfg|Hfg].
    1: { rewrite !bool_decide_eq_true_2 by done. simpl. split; [done|].
         intros Hall. by destruct (Hall fft (list_elem_of_here _ _)). }
    all: rewrite ?(bool_decide_eq_false_2 _ Hfc), ?(bool_decide_eq_false_2 _ Hfg),
           ?andb_false_r; simpl; rewrite IH; split.
    all: try (intros Hall d [->|Hd]%elem_of_cons; [tauto|by apply Hall]).
    all: intros Hall d Hd; apply Hall; by apply list_elem_of_further.
Qed.

Lemma alreadyInProject_Some (newFft : ProjectDetails.FFTInfo)
    (fftData : list ProjectDeviceDetails) (fft : ProjectDeviceDetails) :
  ProjectDetails.alreadyInProject newFft fftData = Some fft →
  fft ∈ fftData
  ∧ dev_fc fft = ProjectDetails.fcfg_name (ProjectDetails.info_fc newFft)
  ∧ dev_fg fft = ProjectDetails.fcfg_name (ProjectDetails.info_fg newFft).
Proof.
  induction fftData as [|d rest IH]; simpl; [done|].
  destruct (bool_decide (dev_fc d = _) && bool_decide (dev_fg d = _)) eqn:Hboth.
  - intros [= <-]. apply andb_true_iff in Hboth as [Hfc%bool_decide_eq_true Hfg%bool_decide_eq_true].
    split; [apply list_elem_of_here|done].
  - intros Hrest. destruct (IH Hrest) as (Hin & Hfc & Hfg).
    split; [by apply list_elem_of_further|done].
Qed.

(** X27: [addNewFft] asks the backend to add a device exactly when the
    project is known and no device of the list has both the name of its
    functional component and the name of its fungible token; the request is
    then for that project and carries the one device, by its three ids. A
    device that is already there is answered with an alert that names the
    component of a listed device. When the request succeeds the list of
    devices becomes the answer of the backend, read as [fetchProjectFfts]
    reads it; when it fails the page is left as it is and the alert carries
    the error of the backend. *)
Theorem addNewFft_no_duplicates `{Builtins} (newFft : ProjectDetails.FFTInfo)
    (project : option ProjectInfo) (fftData : list ProjectDeviceDetails)
    (st : ProjectDetails.State) :
  ((∃ projectId ffts, ProjectDetails.addNewFft newFft project fftData
                      = ProjectDetails.Sends projectId ffts)
   ↔ is_Some project
     ∧ ∀ d, d ∈ fftData →
            ¬ (dev_fc d = ProjectDetails.fcfg_name (ProjectDetails.info_fc newFft)
               ∧ dev_fg d = ProjectDetails.fcfg_name (ProjectDetails.info_fg newFft)))
  ∧ (∀ projectId ffts,
       ProjectDetails.addNewFft newFft project fftData = ProjectDetails.Sends projectId ffts →
       (prj_id <$> project) = Some projectId
       ∧ ffts = [ mkProjectFFT (ProjectDetails.info_id newFft)
                    (ProjectDetails.fcfg_id (ProjectDetails.info_fc newFft))
                    (ProjectDetails.fcfg_id (ProjectDetails.info_fg newFft)) ])
  ∧ (∀ fc projectName,
       ProjectDetails.addNewFft newFft project fftData
         = ProjectDetails.ShowsAlert (ProjectDetails.AlreadyPartOfProject fc projectName) →
       (prj_name <$> project) = Some projectName
       ∧ fc = ProjectDetails.fcfg_name (ProjectDetails.info_fc newFft)
       ∧ ∃ d, d ∈ fftData ∧ dev_fc d = fc
              ∧ dev_fg d = ProjectDetails.fcfg_name (ProjectDetails.info_fg newFft))
  ∧ (∀ data,
       (ProjectDetails.addNewFftSettled (Resolved data) st).2 = None
       ∧ Resolved (ProjectDetails.fftData
                     (ProjectDetails.addNewFftSettled (Resolved data) st).1)
         = fetchProjectFfts (Resolved data))
  ∧ (∀ e,
       ProjectDetails.addNewFftSettled (Rejected e) st
       = (st, Some (ProjectDetails.AlertText
                      ("Failed to add an fft to a project: " +:+ error e)))).
Proof.
  split; [|split; [|split; [|split]]].
  - unfold ProjectDetails.addNewFft. destruct project as [p|].
    + destruct (ProjectDetails.alreadyInProject newFft fftData) as [fft|] eqn:Hfound.
      * split; [by intros (? & ? & ?)|]. intros [_ Hall].
        apply (proj2 (alreadyInProject_None newFft fftData)) in Hall. congruence.
      * pose proof (proj1 (alreadyInProject_None newFft fftData) Hfound) as Hall.
        split; [done|]. intros _. by eexists _, _.
    + split; [by intros (? & ? & ?)|]. by intros [[? ?] _].
  - intros projectId ffts. unfold ProjectDetails.addNewFft. destruct project as [p|]; [|done].
    destruct (ProjectDetails.alreadyInProject newFft fftData); [done|]. by intros [= <- <-].
  - intros fc projectName. unfold ProjectDetails.addNewFft. destruct project as [p|]; [|done].
    destruct (ProjectDetails.alreadyInProject newFft fftData) as [fft|] eqn:Hfound; [|done].
    intros [= <- <-]. apply alreadyInProject_Some in Hfound as (Hin & Hfc & Hfg).
    split; [done|]. split; [done|]. by exists fft.
  - done.
  - done.
Qed.
